(** * Trade executor: pricing, validation, statistics and hashing

    A shallow embedding of the Python sources of the trade executor
    (trade pricing records, 1delta live pricing, strategy module validation,
    summary statistics, function hashing) together with models of the
    routing state and of the persisted state, and the properties that the
    written specification states about them.

    Conventions.
    - A Python [float] is an IEEE 754 binary64 value: Rocq's primitive
      [float], whose operations round to nearest-even as CPython's do.
    - A Python call either returns a value or raises: [result A].
    - Dynamically typed arguments are values of [pyval]; [type_of] is
      Python's [type(x)].
    - Dictionaries and sets are stdpp's [gmap] and [gset]. *)

From Stdlib Require Import ZArith QArith Floats Lia List Bool String Ascii.
From Stdlib Require Import DecimalString DecimalZ.
From stdpp Require Import base option gmap strings list.

Set Warnings "-inexact-float,-register-all".

#[local] Open Scope Z_scope.
#[local] Open Scope string_scope.

(** ** Python values, exceptions and results *)

Module Py.

(** The exceptions that the modelled code can raise. Each of them is an
    [Exception], so that an [except Exception] clause catches it;
    [External] is one that a library outside the sources raises, named by
    its class. *)
Inductive exn : Type :=
| AssertionError (msg : string)
| UnboundLocalError (var : string)
| RuntimeError (msg : string)
| TypeError (msg : string)
| ValueError (msg : string)
| OverflowError (msg : string)
| ZeroDivisionError
| SyntaxError
| StrategyModuleNotValid (msg : string)
| OutOfBalance (msg : string)
| External (msg : string).

Inductive result (A : Type) : Type :=
| Ok (a : A)
| Raise (e : exn).
Arguments Ok {A} a.
Arguments Raise {A} e.

#[global] Instance result_ret : MRet result := fun _ a => Ok a.
#[global] Instance result_bind : MBind result := fun _ _ f m =>
  match m with Ok a => f a | Raise e => Raise e end.
#[global] Instance result_fmap : FMap result := fun _ _ f m =>
  match m with Ok a => Ok (f a) | Raise e => Raise e end.

(** [assert cond, msg] *)
Definition assert (cond : bool) (msg : string) : result unit :=
  if cond then Ok tt else Raise (AssertionError msg).

Definition is_ok {A} (r : result A) : bool :=
  match r with Ok _ => true | Raise _ => false end.

Definition raises {A} (r : result A) : Prop :=
  match r with Ok _ => False | Raise _ => True end.

(** A local variable of a function body: Python raises [UnboundLocalError]
    when a local is read before any assignment to it was executed. *)
Inductive local (A : Type) : Type :=
| Unbound
| Bound (a : A).
Arguments Unbound {A}.
Arguments Bound {A} a.

Definition load {A} (name : string) (l : local A) : result A :=
  match l with
  | Bound a => Ok a
  | Unbound => Raise (UnboundLocalError name)
  end.

(** *** Floats *)

(** [int(x)] on a float: truncation toward zero; [ValueError] on NaN and
    [OverflowError] on an infinity. *)
Definition magnitude (m : positive) (e : Z) : Z :=
  match e with
  | Zneg k => Z.shiftr (Zpos m) (Zpos k)
  | _ => Z.shiftl (Zpos m) e
  end.

Definition py_int (x : float) : result Z :=
  match Prim2SF x with
  | S754_zero _ => Ok 0
  | S754_finite s m e =>
      let mag := magnitude m e in Ok (if s then - mag else mag)
  | S754_infinity _ => Raise (OverflowError "cannot convert float infinity to integer")
  | S754_nan => Raise (ValueError "cannot convert float NaN to integer")
  end.

(** [round(x)] on a float with no digits argument: the nearest integer,
    ties to the even one. *)
Definition round_half_even (m : positive) (e : Z) : Z :=
  match e with
  | Zneg k =>
      let d := Z.shiftl 1 (Zpos k) in
      let q := Zpos m / d in
      let r := Zpos m mod d in
      match Z.compare (2 * r) d with
      | Lt => q
      | Gt => q + 1
      | Eq => if Z.even q then q else q + 1
      end
  | _ => Z.shiftl (Zpos m) e
  end.

Definition py_round (x : float) : result Z :=
  match Prim2SF x with
  | S754_zero _ => Ok 0
  | S754_finite s m e =>
      let mag := round_half_even m e in Ok (if s then - mag else mag)
  | S754_infinity _ => Raise (OverflowError "cannot convert float infinity to integer")
  | S754_nan => Raise (ValueError "cannot convert float NaN to integer")
  end.

(** The rational number a finite float denotes. *)
Definition float_value (x : float) : option Q :=
  match Prim2SF x with
  | S754_zero _ => Some 0%Q
  | S754_finite s m e =>
      let q := match e with
               | Zneg k => Qmake (Zpos m) (2 ^ k)%positive
               | _ => inject_Z (Z.shiftl (Zpos m) e)
               end in
      Some (if s then Qopp q else q)
  | _ => None
  end.

(** [x / y] on floats raises on a zero divisor. *)
Definition py_div (x y : float) : result float :=
  if PrimFloat.eqb y 0%float then Raise ZeroDivisionError
  else Ok (PrimFloat.div x y).

(** [x >= y] and [x <= y]: false as soon as one side is NaN. *)
Definition py_ge (x y : float) : bool := PrimFloat.leb y x.
Definition py_le (x y : float) : bool := PrimFloat.leb x y.

(** *** Dynamically typed values *)

Inductive pytype : Type :=
| TNone | TBool | TInt | TFloat | TNumpyFloat64 | TStr | TList | TTimedelta
| TEnum (cls : string) | TFunction | TObject (cls : string).

Inductive pyval : Type :=
| PyNone
| PyBool (b : bool)
| PyInt (z : Z)
| PyFloat (f : float)
| PyNumpyFloat64 (f : float)
| PyStr (s : string)
| PyList (l : list pyval)
| PyTimedelta (seconds : Z)
| PyEnum (cls member : string)
| PyFunction (name : string)
| PyObject (cls : string).

Definition type_of (v : pyval) : pytype :=
  match v with
  | PyNone => TNone
  | PyBool _ => TBool
  | PyInt _ => TInt
  | PyFloat _ => TFloat
  | PyNumpyFloat64 _ => TNumpyFloat64
  | PyStr _ => TStr
  | PyList _ => TList
  | PyTimedelta _ => TTimedelta
  | PyEnum cls _ => TEnum cls
  | PyFunction _ => TFunction
  | PyObject cls => TObject cls
  end.

#[global] Instance pytype_eq_dec : EqDecision pytype.
Proof. solve_decision. Defined.

(** Truth value testing ([bool(x)]): [None], [False], zero and empty
    containers are false; members of a plain [Enum], functions and plain
    objects are true. *)
Definition truthy (v : pyval) : bool :=
  match v with
  | PyNone => false
  | PyBool b => b
  | PyInt z => negb (Z.eqb z 0)
  | PyFloat f | PyNumpyFloat64 f => negb (PrimFloat.eqb f 0%float)
  | PyStr s => negb (String.eqb s "")
  | PyList l => match l with [] => false | _ => true end
  | PyTimedelta s => negb (Z.eqb s 0)
  | PyEnum _ _ | PyFunction _ | PyObject _ => true
  end.

Definition is_none (v : pyval) : bool :=
  match v with PyNone => true | _ => false end.

(** [isinstance(v, cls)] for an enumeration class. *)
Definition isinstance_enum (v : pyval) (cls : string) : bool :=
  match v with PyEnum c _ => String.eqb c cls | _ => false end.

(** [isinstance(v, Callable)] *)
Definition isinstance_callable (v : pyval) : bool :=
  match v with PyFunction _ => true | _ => false end.

Definition isinstance_timedelta (v : pyval) : bool :=
  match v with PyTimedelta _ => true | _ => false end.

End Py.
Export Py.

(** ** Identifiers of assets and trading pairs *)

Module Identifier.

(** Modelled from the spec: [AssetIdentifier] (tradeexecutor/state/identifier.py
    is not part of the sources): chain id, contract address, symbol and
    decimal count. *)
Record AssetIdentifier : Type := {
  chain_id : Z;
  address : string;
  token_symbol : string;
  decimals : Z;
}.

Inductive PairKind : Type := spot_market_hold | lending_protocol_short | credit_supply.

(** Modelled from the spec: [TradingPairIdentifier]: base and quote asset,
    pool address, internal ids, exchange address, fractional fee and kind. *)
Record TradingPairIdentifier : Type := {
  base : AssetIdentifier;
  quote : AssetIdentifier;
  pool_address : string;
  internal_id : Z;
  internal_exchange_id : Z;
  exchange_address : string;
  fee : float;
  kind : PairKind;
  reverse_token_order : bool;
}.

Definition is_spot (p : TradingPairIdentifier) : bool :=
  match kind p with spot_market_hold => true | _ => false end.

Definition has_reverse_token_order (p : TradingPairIdentifier) : bool :=
  reverse_token_order p.

End Identifier.
Export Identifier.

(** ** tradeexecutor/strategy/trade_pricing.py *)

Module TradePricing.

(** The dataclass [TradePricing], with the seven fields that
    trade_pricing.py declares; it is frozen and has slots, so an instance
    holds nothing else. *)
Record t : Type := mk {
  price : pyval;
  mid_price : pyval;
  lp_fee : pyval;
  pair_fee : pyval;
  market_feed_delay : pyval;
  side : option bool;
  path : option (list TradingPairIdentifier);
}.

Section PostInit.

Definition set_lp_fee (self : t) (v : pyval) : t :=
  mk (price self) (mid_price self) v (pair_fee self) (market_feed_delay self)
     (side self) (path self).

Definition set_pair_fee (self : t) (v : pyval) : t :=
  mk (price self) (mid_price self) (lp_fee self) v (market_feed_delay self)
     (side self) (path self).

(** The elements of a value that the code iterates over: a list's items. A
    value that is not a list is never iterated here, since both fee fields
    have been wrapped into lists before their comprehension runs. *)
Definition items (v : pyval) : list pyval :=
  match v with PyList l => l | _ => [] end.

Definition lp_fee_element_ok (v : pyval) : bool :=
  match type_of v with TFloat | TNone => true | _ => false end.

Definition pair_fee_element_ok (v : pyval) : bool :=
  match type_of v with TFloat | TInt | TNone => true | _ => false end.

(** [assert [comprehension], msg]: the asserted object is the list the
    comprehension builds, and a list is true exactly when it is not empty. *)
Definition assert_list {A} (l : list A) (msg : string) : result unit :=
  assert (match l with [] => false | _ => true end) msg.

(** The two float fields once their types have been asserted. *)
Definition float_of (v : pyval) : float :=
  match v with PyFloat f => f | _ => PrimFloat.nan end.

(** [TradePricing.__post_init__]: returns the object as the method leaves
    it, or raises. *)
Definition post_init (self : t) : result t :=
  _ ← assert (bool_decide (type_of (price self) = TFloat)) "type(self.price) == float";
  _ ← assert (bool_decide (type_of (mid_price self) = TFloat)) "type(self.mid_price) == float";
  let self :=
    if bool_decide (type_of (lp_fee self) ≠ TList)
    then set_lp_fee self (PyList [lp_fee self]) else self in
  let self :=
    if bool_decide (type_of (pair_fee self) ≠ TList)
    then set_pair_fee self (PyList [pair_fee self]) else self in
  _ ← assert_list (map lp_fee_element_ok (items (lp_fee self)))
        "lp_fee must be provided as type list with float or NoneType elements";
  _ ← assert_list (map pair_fee_element_ok (items (pair_fee self)))
        "pair_fee must be provided as a list with float, int, or NoneType elements";
  _ ← (if negb (is_none (market_feed_delay self))
       then assert (isinstance_timedelta (market_feed_delay self))
              "isinstance(self.market_feed_delay, datetime.timedelta)"
       else Ok tt);
  _ ← match side self with
      | Some s =>
          _ ← (if s
               then assert (py_ge (float_of (price self)) (float_of (mid_price self)))
                      "Got bad buy pricing"
               else Ok tt);
          if negb s
          then assert (py_le (float_of (price self)) (float_of (mid_price self)))
                 "Got bad sell pricing"
          else Ok tt
      | None => Ok tt
      end;
  _ ← match path self with
      | Some ((_ :: _) as p) =>
          assert_list (map (fun _ : TradingPairIdentifier => true) p)
            "path must be provided as a list of TradePairIdentifier"
      | _ => Ok tt
      end;
  Ok self.

(** The constructor. The generated [__init__] has the seven fields as its
    parameters, the last five with the default [None], and runs
    [__post_init__] once it has stored them. A call that gives a keyword
    argument of any other name raises [TypeError] while the arguments are
    bound, before anything is stored: [unexpected] lists the names of such
    keyword arguments of the call, in the order they are written, and the
    message names the first. *)
Definition new (price mid_price : pyval) (lp_fee pair_fee market_feed_delay : pyval)
    (side : option bool) (path : option (list TradingPairIdentifier))
    (unexpected : list string) : result t :=
  match unexpected with
  | name :: _ =>
      Raise (TypeError
               ("TradePricing.__init__() got an unexpected keyword argument '"
                ++ name ++ "'"))
  | [] => post_init (mk price mid_price lp_fee pair_fee market_feed_delay side path)
  end.

End PostInit.
End TradePricing.

(** ** tradeexecutor/ethereum/one_delta/one_delta_live_pricing.py *)

Module OneDelta.

(** The keyword arguments of one call of [estimate_sell_received_amount] or
    [estimate_buy_received_amount]; a keyword left out has its default,
    [None]. *)
Record QuoteRequest : Type := {
  base_token_address : string;
  quote_token_address : string;
  quantity : Z;
  target_pair_fee : Z;
  intermediate_token_address : option string;
  intermediate_pair_fee : option Z;
  block_identifier : option Z;
}.

Inductive QuoteCall : Type :=
| SellQuote (req : QuoteRequest)
| BuyQuote (req : QuoteRequest).

Definition request_of (c : QuoteCall) : QuoteRequest :=
  match c with SellQuote r | BuyQuote r => r end.

(** A computation that calls the on-chain quoting functions: the calls made
    so far, in order, and the outcome. *)
Record traced (A : Type) : Type := Traced {
  calls : list QuoteCall;
  outcome : result A;
}.
Arguments Traced {A}.
Arguments calls {A}.
Arguments outcome {A}.

#[global] Instance traced_ret : MRet traced := fun _ a => Traced [] (Ok a).
#[global] Instance traced_bind : MBind traced := fun _ _ f m =>
  match outcome m with
  | Ok a => let r := f a in Traced (calls m ++ calls r) (outcome r)
  | Raise e => Traced (calls m) (Raise e)
  end.

(** A step that makes no quoting call. *)
Definition pure {A} (r : result A) : traced A := Traced [] r.

(** [try: ... except Exception as e: raise RuntimeError(...) from e] *)
Definition reraise_as {A} (e' : exn) (m : traced A) : traced A :=
  match outcome m with
  | Ok a => m
  | Raise _ => Traced (calls m) (Raise e')
  end.

(** The keyword arguments of the call [TradePricing(...)] that ends each
    quote, as the quote has computed them; [market_feed_delay] is given by
    the buy quote only. *)
Record QuoteArguments {Decimal : Type} : Type := {
  price_arg : float;
  mid_price_arg : float;
  lp_fee_arg : list float;
  pair_fee_arg : list float;
  market_feed_delay_arg : option Z;
  side_arg : bool;
  path_arg : list TradingPairIdentifier;
  read_at_arg : Z;
  block_number_arg : option Z;
  token_in_arg : Decimal;
  token_out_arg : Decimal;
}.
Arguments QuoteArguments : clear implicits.

Definition float_list (l : list float) : pyval := PyList (map PyFloat l).

(** The call itself. The first seven keywords are fields of the dataclass;
    [read_at], [block_number], [token_in] and [token_out] are not. *)
Definition construct {Decimal : Type} (a : QuoteArguments Decimal)
  : result TradePricing.t :=
  TradePricing.new (PyFloat (price_arg a)) (PyFloat (mid_price_arg a))
    (float_list (lp_fee_arg a)) (float_list (pair_fee_arg a))
    (match market_feed_delay_arg a with
     | Some seconds => PyTimedelta seconds
     | None => PyNone
     end)
    (Some (side_arg a)) (Some (path_arg a))
    ["read_at"; "block_number"; "token_in"; "token_out"].

Section Pricing.
Context {Decimal : Type}.

(** What the pricing model reads from its collaborators: the routing model,
    the chain behind [web3], the pair fee lookup of the base pricing class,
    the clock and [decimal] arithmetic. None of them is part of the sources. *)
Record World : Type := {
  very_small_amount : Decimal;
  route_pair : TradingPairIdentifier ->
               result (TradingPairIdentifier * option TradingPairIdentifier);
  route_tokens : TradingPairIdentifier -> option TradingPairIdentifier ->
                 string * string * option string;
  convert_to_raw_amount : AssetIdentifier -> Decimal -> Z;
  convert_to_decimal : AssetIdentifier -> Z -> Decimal;
  estimate_sell_received_amount : QuoteRequest -> result Z;
  estimate_buy_received_amount : QuoteRequest -> result Z;
  get_onchain_price : string -> option Z -> bool -> result Decimal;
  eth_block_number : Z;
  get_block_tip_latency : Z;
  get_pair_fee : Z -> TradingPairIdentifier -> option float;
  check_supported_quote_token : TradingPairIdentifier -> result unit;
  utcnow : Z;
  decimal_div : Decimal -> Decimal -> result Decimal;
  decimal_to_float : Decimal -> float;
}.

Variable w : World.

Definition call_sell (req : QuoteRequest) : traced Z :=
  Traced [SellQuote req] (estimate_sell_received_amount w req).

Definition call_buy (req : QuoteRequest) : traced Z :=
  Traced [BuyQuote req] (estimate_buy_received_amount w req).

(** [1 - fee] where [fee] is what [get_pair_fee] returned: a [TypeError]
    on [None]. *)
Definition one_minus (fee : option float) : result float :=
  match fee with
  | Some f => Ok (1 - f)%float
  | None => Raise (TypeError "unsupported operand type(s) for -: 'int' and 'NoneType'")
  end.

(** [OneDeltaLivePricing.get_sell_price] up to its [return] statement: what
    it computes and hands to the constructor. [quantity] is a [Decimal] by
    its type here, which is what the [isinstance] assertion asks; the list
    of addresses that [path] holds first is replaced by the list of pairs
    before anything reads it. *)
Definition sell_price_arguments (ts : Z) (pair : TradingPairIdentifier)
    (quantity : option Decimal) : traced (QuoteArguments Decimal) :=
  _ ← pure (assert (is_spot pair) "pair.is_spot()");
  let quantity := match quantity with
                  | None => very_small_amount w
                  | Some q => q
                  end in
  '(target_pair, intermediate_pair) ← pure (route_pair w pair);
  let '(base_addr, quote_addr, intermediate_addr) :=
    route_tokens w target_pair intermediate_pair in
  let quantity_raw := convert_to_raw_amount w (base target_pair) quantity in
  let reverse_token_order := has_reverse_token_order target_pair in
  target_pair_fee ← pure (py_int (fee target_pair * 1000000)%float);
  '(fees, total_fee_pct, received_raw, block_number) ←
    match intermediate_pair with
    | Some ip =>
        (* No assignment to block_number has run on this path yet. *)
        let block_number : local (option Z) := Unbound in
        let fees := [fee ip; fee target_pair] in
        let total_fee_pct := (1 - (1 - fee ip) * (1 - fee target_pair))%float in
        intermediate_fee ← pure (py_int (fee ip * 1000000)%float);
        block_identifier ← pure (load "block_number" block_number);
        received_raw ← call_sell
          {| base_token_address := base_addr;
             quote_token_address := quote_addr;
             quantity := quantity_raw;
             target_pair_fee := target_pair_fee;
             intermediate_token_address := intermediate_addr;
             intermediate_pair_fee := Some intermediate_fee;
             block_identifier := block_identifier |};
        let block_number : option Z := None in
        mret (fees, total_fee_pct, received_raw, block_number)
    | None =>
        let fees := [fee target_pair] in
        let total_fee_pct := (1 - (1 - fee target_pair))%float in
        let block_number :=
          Z.max 1 (eth_block_number w - get_block_tip_latency w) in
        received_raw ← reraise_as (RuntimeError "Could not get valid price")
          (call_sell
             {| base_token_address := base_addr;
                quote_token_address := quote_addr;
                quantity := quantity_raw;
                target_pair_fee := target_pair_fee;
                intermediate_token_address := None;
                intermediate_pair_fee := None;
                block_identifier := Some block_number |});
        mret (fees, total_fee_pct, received_raw, Some block_number)
    end;
  '(received, path) ←
    match intermediate_pair with
    | Some ip =>
        mret (convert_to_decimal w (quote ip) received_raw, [ip; target_pair])
    | None =>
        let received := convert_to_decimal w (quote target_pair) received_raw in
        _ ← pure (decimal_div w received quantity);
        mret (received, [target_pair])
    end;
  price ← pure (decimal_to_float w <$> decimal_div w received quantity);
  mid_price ←
    match intermediate_pair with
    | Some ip =>
        d1 ← pure (one_minus (get_pair_fee w ts target_pair));
        p1 ← pure (py_div price d1);
        d2 ← pure (one_minus (get_pair_fee w ts ip));
        pure (py_div p1 d2)
    | None =>
        pure (decimal_to_float w <$>
              get_onchain_price w (pool_address target_pair) block_number
                reverse_token_order)
    end;
  _ ← pure (assert (py_le price mid_price) "Bad pricing");
  let lp_fee := (decimal_to_float w quantity * total_fee_pct)%float in
  mret {| price_arg := price; mid_price_arg := mid_price; lp_fee_arg := [lp_fee];
          pair_fee_arg := fees; market_feed_delay_arg := None; side_arg := false;
          path_arg := path; read_at_arg := utcnow w;
          block_number_arg := block_number; token_in_arg := quantity;
          token_out_arg := received |}.

(** [OneDeltaLivePricing.get_sell_price]: its last statement is
    [return TradePricing(price=..., ..., token_out=received)]. *)
Definition get_sell_price (ts : Z) (pair : TradingPairIdentifier)
    (quantity : option Decimal) : traced TradePricing.t :=
  arguments ← sell_price_arguments ts pair quantity;
  pure (construct arguments).

(** [OneDeltaLivePricing.get_buy_price] up to its [return] statement, with
    the same two remarks. *)
Definition buy_price_arguments (ts : Z) (pair : TradingPairIdentifier)
    (reserve : option Decimal) : traced (QuoteArguments Decimal) :=
  _ ← pure (assert (is_spot pair) "pair.is_spot()");
  let reserve := match reserve with
                 | None => very_small_amount w
                 | Some r => r
                 end in
  '(target_pair, intermediate_pair) ← pure (route_pair w pair);
  let '(base_addr, quote_addr, intermediate_addr) :=
    route_tokens w target_pair intermediate_pair in
  let reverse_token_order := has_reverse_token_order target_pair in
  '(fees, total_fee_pct, token_raw_received, block_number) ←
    match intermediate_pair with
    | Some ip =>
        let reserve_raw := convert_to_raw_amount w (quote ip) reserve in
        _ ← pure (check_supported_quote_token w ip);
        let fees := [fee ip; fee target_pair] in
        let total_fee_pct := (1 - (1 - fee ip) * (1 - fee target_pair))%float in
        let block_number : option Z := None in
        target_pair_fee ← pure (py_int (fee target_pair * 1000000)%float);
        intermediate_fee ← pure (py_int (fee ip * 1000000)%float);
        token_raw_received ← call_buy
          {| base_token_address := base_addr;
             quote_token_address := quote_addr;
             quantity := reserve_raw;
             target_pair_fee := target_pair_fee;
             intermediate_token_address := intermediate_addr;
             intermediate_pair_fee := Some intermediate_fee;
             block_identifier := None |};
        mret (fees, total_fee_pct, token_raw_received, block_number)
    | None =>
        let block_number :=
          Z.max 1 (eth_block_number w - get_block_tip_latency w) in
        let reserve_raw := convert_to_raw_amount w (quote target_pair) reserve in
        _ ← pure (check_supported_quote_token w pair);
        target_pair_fee ← pure (py_int (fee target_pair * 1000000)%float);
        token_raw_received ← call_buy
          {| base_token_address := base_addr;
             quote_token_address := quote_addr;
             quantity := reserve_raw;
             target_pair_fee := target_pair_fee;
             intermediate_token_address := intermediate_addr;
             intermediate_pair_fee := None;
             block_identifier := Some block_number |};
        let fees := [fee target_pair] in
        let total_fee_pct := (1 - (1 - fee target_pair))%float in
        mret (fees, total_fee_pct, token_raw_received, Some block_number)
    end;
  let token_received :=
    convert_to_decimal w (base target_pair) token_raw_received in
  _ ← pure (assert (bool_decide (is_Some (get_pair_fee w ts pair)))
              "Uniswap v3 fee data missing");
  price ← pure (decimal_to_float w <$> decimal_div w reserve token_received);
  let lp_fee := (decimal_to_float w reserve * total_fee_pct)%float in
  '(mid_price, path) ←
    match intermediate_pair with
    | Some ip =>
        d1 ← pure (one_minus (get_pair_fee w ts ip));
        d2 ← pure (one_minus (get_pair_fee w ts target_pair));
        mret ((price * d1 * d2)%float, [ip; target_pair])
    | None =>
        mid ← pure (decimal_to_float w <$>
                    get_onchain_price w (pool_address target_pair) block_number
                      reverse_token_order);
        mret (mid, [target_pair])
    end;
  _ ← pure (assert (py_ge price mid_price) "Bad pricing");
  mret {| price_arg := price; mid_price_arg := mid_price; lp_fee_arg := [lp_fee];
          pair_fee_arg := fees; market_feed_delay_arg := Some 0; side_arg := true;
          path_arg := path; read_at_arg := utcnow w;
          block_number_arg := block_number; token_in_arg := reserve;
          token_out_arg := token_received |}.

(** [OneDeltaLivePricing.get_buy_price]: its last statement is
    [return TradePricing(price=float(price), ..., token_out=token_received)]. *)
Definition get_buy_price (ts : Z) (pair : TradingPairIdentifier)
    (reserve : option Decimal) : traced TradePricing.t :=
  arguments ← buy_price_arguments ts pair reserve;
  pure (construct arguments).

End Pricing.
Arguments World : clear implicits.

End OneDelta.

(** ** tradeexecutor/strategy/strategy_module.py *)

Module StrategyModule.

(** The dataclass [StrategyModuleInformation]. Python does not enforce the
    annotations of a dataclass, and [parse_strategy_module] fills each field
    with [mod.get(...)], which is [None] for a missing name: every field
    holds an arbitrary value until [validate] has looked at it. *)
Record StrategyModuleInformation : Type := {
  trading_strategy_engine_version : pyval;
  trading_strategy_type : pyval;
  trading_strategy_cycle : pyval;
  trade_routing : pyval;
  reserve_currency : pyval;
  decide_trades : pyval;
  create_trading_universe : pyval;
}.

Definition invalid (msg : string) : result unit :=
  Raise (StrategyModuleNotValid msg).

Definition is_str (v : pyval) (s : string) : bool :=
  match v with PyStr s' => String.eqb s' s | _ => false end.

(** [StrategyModuleInformation.validate] *)
Definition validate (self : StrategyModuleInformation) : result unit :=
  if negb (truthy (trading_strategy_engine_version self))
  then invalid "trading_strategy_engine_version missing in the module"
  else if negb (bool_decide (type_of (trading_strategy_engine_version self) = TStr))
  then invalid "trading_strategy_engine_version is not string"
  else if negb (is_str (trading_strategy_engine_version self) "0.1")
  then invalid "Only version 0.1 supported for now"
  else if negb (truthy (trading_strategy_type self))
  then invalid "trading_strategy_type missing in the module"
  else if negb (isinstance_enum (trading_strategy_type self) "StrategyType")
  then invalid "trading_strategy_type not StrategyType instance"
  else if negb (isinstance_enum (trading_strategy_cycle self) "CycleDuration")
  then invalid "trading_strategy_cycle not CycleDuration instance"
  else if is_none (trade_routing self)
  then invalid "trade_routing missing on the strategy"
  else if negb (isinstance_enum (trade_routing self) "TradeRouting")
  then invalid "trade_routing not TradeRouting instance"
  else if negb (isinstance_callable (decide_trades self))
  then invalid "decide_trades function missing/invalid"
  else if negb (isinstance_callable (create_trading_universe self))
  then invalid "create_trading_universe function missing/invalid"
  else Ok tt.

(** [parse_strategy_module]: the loaded module as the dictionary of its
    globals. *)
Definition get (mod_ : gmap string pyval) (name : string) : pyval :=
  default PyNone (mod_ !! name).

Definition parse_strategy_module (mod_ : gmap string pyval)
  : StrategyModuleInformation :=
  {| trading_strategy_engine_version := get mod_ "trading_strategy_engine_version";
     trading_strategy_type := get mod_ "trading_strategy_type";
     trading_strategy_cycle := get mod_ "trading_strategy_cycle";
     trade_routing := get mod_ "trade_routing";
     reserve_currency := get mod_ "reserve_currency";
     decide_trades := get mod_ "decide_trades";
     create_trading_universe := get mod_ "create_trading_universe" |}.

(** What the declared field types and the written contract ask of a module:
    used to compare [validate] with. *)
Definition well_typed (m : StrategyModuleInformation) : bool :=
  is_str (trading_strategy_engine_version m) "0.1"
  && isinstance_enum (trading_strategy_type m) "StrategyType"
  && isinstance_enum (trading_strategy_cycle m) "CycleDuration"
  && isinstance_enum (trade_routing m) "TradeRouting"
  && isinstance_enum (reserve_currency m) "ReserveCurrency"
  && isinstance_callable (decide_trades m)
  && isinstance_callable (create_trading_universe m).

End StrategyModule.

(** ** The persisted state (tradeexecutor/state) *)

Module State.

(** An arbitrary-precision decimal: [coefficient * 10 ^ exponent]. *)
Record Decimal : Type := { coefficient : Z; exponent : Z }.

(** Modelled from the spec: [TradeExecution] (tradeexecutor/state/trade.py is
    not part of the sources): trade id, owning position id, planned quantity
    and price, and the timestamps of its life cycle
    (planned, broadcast, then success or failure). *)
Record TradeExecution : Type := {
  trade_id : Z;
  trade_position_id : Z;
  planned_quantity : Decimal;
  planned_price : float;
  started_at : option Z;
  executed_at : option Z;
  failed_at : option Z;
}.

(** Modelled from the spec: [TradingPosition]: position id, pair, opening
    and closing timestamps and the ordered list of its trades. *)
Record TradingPosition : Type := {
  position_id : Z;
  pair_internal_id : Z;
  opened_at : Z;
  closed_at : option Z;
  trades : list TradeExecution;
}.

(** Modelled from the spec: [Reserve]: the balance of one reserve asset. *)
Record Reserve : Type := {
  reserve_address : string;
  reserve_quantity : Decimal;
  reserve_token_price : float;
}.

(** Modelled from the spec: [Portfolio]: reserves by asset, positions by id
    (open and closed), and the two id counters. *)
Record Portfolio : Type := {
  next_position_id : Z;
  next_trade_id : Z;
  open_positions : gmap Z TradingPosition;
  closed_positions : gmap Z TradingPosition;
  reserves : gmap string Reserve;
}.

(** Modelled from the spec: the [Statistics] aggregate, here the series of
    portfolio statistics appended once per cycle (timestamp, total equity). *)
Record Statistics : Type := { portfolio_statistics : list (Z * float) }.

(** Modelled from the spec: the [Visualisation] record: plotted indicator
    series by name. *)
Record Visualisation : Type := { plots : gmap string (list (Z * float)) }.

(** Modelled from the spec: [State]: portfolio, statistics, visualisation. *)
Record t : Type := {
  portfolio : Portfolio;
  stats : Statistics;
  visualisation : Visualisation;
}.

(** Modelled from the spec: [Portfolio()]: no reserve, no position, both
    counters at 1. *)
Definition new_portfolio : Portfolio :=
  {| next_position_id := 1; next_trade_id := 1;
     open_positions := ∅; closed_positions := ∅; reserves := ∅ |}.

(** Modelled from the spec: [State(portfolio=...)] creates an empty state,
    optionally around a portfolio built before. *)
Definition new (p : option Portfolio) : t :=
  {| portfolio := default new_portfolio p;
     stats := {| portfolio_statistics := [] |};
     visualisation := {| plots := ∅ |} |}.

(** All trades of the portfolio, open positions first, by position id. *)
Definition get_all_trades (p : Portfolio) : list TradeExecution :=
  (concat (map (fun kv => trades kv.2) (map_to_list (open_positions p)))
   ++ concat (map (fun kv => trades kv.2) (map_to_list (closed_positions p))))%list.

Definition is_executed (tr : TradeExecution) : bool :=
  bool_decide (is_Some (executed_at tr)).

(** Modelled from the spec: the derived accessor "first/last executed
    trade" of the portfolio: among the trades that have executed, the one
    with the earliest and the one with the latest execution time;
    [(None, None)] when none has. *)
Definition earlier (a b : TradeExecution) : TradeExecution :=
  match executed_at a, executed_at b with
  | Some ta, Some tb => if Z.ltb tb ta then b else a
  | _, _ => a
  end.

Definition later (a b : TradeExecution) : TradeExecution :=
  match executed_at a, executed_at b with
  | Some ta, Some tb => if Z.ltb ta tb then b else a
  | _, _ => a
  end.

Definition get_first_and_last_executed_trade (p : Portfolio)
  : option TradeExecution * option TradeExecution :=
  match filter (fun tr => is_executed tr = true) (get_all_trades p) with
  | [] => (None, None)
  | tr :: rest => (Some (fold_left earlier rest tr), Some (fold_left later rest tr))
  end.

(** *** The structured document *)

Inductive json : Type :=
| JNull
| JInt (z : Z)
| JFloat (f : float)
| JStr (s : string)
| JArr (l : list json)
| JObj (fields : list (string * json)).

Definition lookup_field (name : string) (j : json) : option json :=
  match j with
  | JObj fields => snd <$> List.find (fun kv => String.eqb kv.1 name) fields
  | _ => None
  end.

Definition key_of_Z (z : Z) : string := NilEmpty.string_of_int (Z.to_int z).
Definition Z_of_key (s : string) : option Z := Z.of_int <$> NilEmpty.int_of_string s.

Definition as_int (j : json) : option Z :=
  match j with JInt z => Some z | _ => None end.
Definition as_float (j : json) : option float :=
  match j with JFloat f => Some f | _ => None end.
Definition as_str (j : json) : option string :=
  match j with JStr s => Some s | _ => None end.
Definition as_arr (j : json) : option (list json) :=
  match j with JArr l => Some l | _ => None end.
Definition as_obj (j : json) : option (list (string * json)) :=
  match j with JObj l => Some l | _ => None end.

Definition opt_to_json {A} (f : A -> json) (o : option A) : json :=
  match o with Some a => f a | None => JNull end.
Definition opt_of_json {A} (f : json -> option A) (j : json) : option (option A) :=
  match j with JNull => Some None | _ => Some <$> f j end.

Definition decimal_to_json (d : Decimal) : json :=
  JArr [JInt (coefficient d); JInt (exponent d)].
Definition decimal_of_json (j : json) : option Decimal :=
  match j with
  | JArr [JInt c; JInt e] => Some {| coefficient := c; exponent := e |}
  | _ => None
  end.

Definition trade_to_json (tr : TradeExecution) : json :=
  JObj [("trade_id", JInt (trade_id tr));
        ("position_id", JInt (trade_position_id tr));
        ("planned_quantity", decimal_to_json (planned_quantity tr));
        ("planned_price", JFloat (planned_price tr));
        ("started_at", opt_to_json JInt (started_at tr));
        ("executed_at", opt_to_json JInt (executed_at tr));
        ("failed_at", opt_to_json JInt (failed_at tr))].

Definition trade_of_json (j : json) : option TradeExecution :=
  i ← lookup_field "trade_id" j ≫= as_int;
  p ← lookup_field "position_id" j ≫= as_int;
  q ← lookup_field "planned_quantity" j ≫= decimal_of_json;
  pr ← lookup_field "planned_price" j ≫= as_float;
  s ← lookup_field "started_at" j ≫= opt_of_json as_int;
  e ← lookup_field "executed_at" j ≫= opt_of_json as_int;
  f ← lookup_field "failed_at" j ≫= opt_of_json as_int;
  Some {| trade_id := i; trade_position_id := p; planned_quantity := q;
          planned_price := pr; started_at := s; executed_at := e;
          failed_at := f |}.

Definition position_to_json (pos : TradingPosition) : json :=
  JObj [("position_id", JInt (position_id pos));
        ("pair", JInt (pair_internal_id pos));
        ("opened_at", JInt (opened_at pos));
        ("closed_at", opt_to_json JInt (closed_at pos));
        ("trades", JArr (map trade_to_json (trades pos)))].

Definition position_of_json (j : json) : option TradingPosition :=
  i ← lookup_field "position_id" j ≫= as_int;
  p ← lookup_field "pair" j ≫= as_int;
  o ← lookup_field "opened_at" j ≫= as_int;
  c ← lookup_field "closed_at" j ≫= opt_of_json as_int;
  ts ← (lookup_field "trades" j ≫= as_arr) ≫= mapM trade_of_json;
  Some {| position_id := i; pair_internal_id := p; opened_at := o;
          closed_at := c; trades := ts |}.

Definition reserve_to_json (r : Reserve) : json :=
  JObj [("address", JStr (reserve_address r));
        ("quantity", decimal_to_json (reserve_quantity r));
        ("reserve_token_price", JFloat (reserve_token_price r))].

Definition reserve_of_json (j : json) : option Reserve :=
  a ← lookup_field "address" j ≫= as_str;
  q ← lookup_field "quantity" j ≫= decimal_of_json;
  p ← lookup_field "reserve_token_price" j ≫= as_float;
  Some {| reserve_address := a; reserve_quantity := q; reserve_token_price := p |}.

(** A mapping keyed by integers becomes an object keyed by their decimal
    spelling. *)
Definition int_map_to_json {A} (f : A -> json) (m : gmap Z A) : json :=
  JObj (map (fun kv => (key_of_Z kv.1, f kv.2)) (map_to_list m)).

Definition int_map_of_json {A} (f : json -> option A) (j : json) : option (gmap Z A) :=
  l ← as_obj j;
  kvs ← mapM (fun kv : string * json => k ← Z_of_key kv.1; v ← f kv.2; Some (k, v)) l;
  Some (list_to_map kvs).

Definition str_map_to_json {A} (f : A -> json) (m : gmap string A) : json :=
  JObj (map (fun kv => (kv.1, f kv.2)) (map_to_list m)).

Definition str_map_of_json {A} (f : json -> option A) (j : json)
  : option (gmap string A) :=
  l ← as_obj j;
  kvs ← mapM (fun kv : string * json => v ← f kv.2; Some (kv.1, v)) l;
  Some (list_to_map kvs).

Definition point_to_json (p : Z * float) : json := JArr [JInt p.1; JFloat p.2].
Definition point_of_json (j : json) : option (Z * float) :=
  match j with JArr [JInt z; JFloat f] => Some (z, f) | _ => None end.

Definition series_to_json (l : list (Z * float)) : json := JArr (map point_to_json l).
Definition series_of_json (j : json) : option (list (Z * float)) :=
  as_arr j ≫= mapM point_of_json.

Definition portfolio_to_json (p : Portfolio) : json :=
  JObj [("next_position_id", JInt (next_position_id p));
        ("next_trade_id", JInt (next_trade_id p));
        ("open_positions", int_map_to_json position_to_json (open_positions p));
        ("closed_positions", int_map_to_json position_to_json (closed_positions p));
        ("reserves", str_map_to_json reserve_to_json (reserves p))].

Definition portfolio_of_json (j : json) : option Portfolio :=
  np ← lookup_field "next_position_id" j ≫= as_int;
  nt ← lookup_field "next_trade_id" j ≫= as_int;
  o ← lookup_field "open_positions" j ≫= int_map_of_json position_of_json;
  c ← lookup_field "closed_positions" j ≫= int_map_of_json position_of_json;
  r ← lookup_field "reserves" j ≫= str_map_of_json reserve_of_json;
  Some {| next_position_id := np; next_trade_id := nt; open_positions := o;
          closed_positions := c; reserves := r |}.

(** Modelled from the spec: serialisation of the whole state to the
    structured document, and [State.from_dict]. *)
Definition to_dict (s : t) : json :=
  JObj [("portfolio", portfolio_to_json (portfolio s));
        ("stats", JObj [("portfolio", series_to_json (portfolio_statistics (stats s)))]);
        ("visualisation",
         JObj [("plots", str_map_to_json series_to_json (plots (visualisation s)))])].

Definition from_dict (j : json) : option t :=
  p ← lookup_field "portfolio" j ≫= portfolio_of_json;
  st ← (lookup_field "stats" j ≫= lookup_field "portfolio") ≫= series_of_json;
  v ← (lookup_field "visualisation" j ≫= lookup_field "plots")
        ≫= str_map_of_json series_of_json;
  Some {| portfolio := p; stats := {| portfolio_statistics := st |};
          visualisation := {| plots := v |} |}.

(** Modelled from the spec: the store behind the webhook and its [/state]
    endpoint, which answers with the serialised state last written. *)
Record JSONFileStore : Type := { document : option json }.

Definition sync (s : t) : JSONFileStore := {| document := Some (to_dict s) |}.

Definition get_state (store : JSONFileStore) : Z * json :=
  match document store with
  | Some d => (200, d)
  | None => (200, to_dict (new None))
  end.

End State.

(** ** tradeexecutor/statistics/summary.py *)

Module Summary.

(** Modelled from the spec: [StrategySummaryStatistics]
    (tradeexecutor/strategy/summary.py is not part of the sources): current
    value, first and last trade times, the enough-data flag, the 90 day
    profitability and the 90 day performance series; every field is
    optional and absent ([None]) unless the constructor is given it. *)
Record StrategySummaryStatistics : Type := {
  first_trade_at : option Z;
  last_trade_at : option Z;
  enough_data : option bool;
  current_value : option float;
  profitability_90_days : option float;
  performance_chart_90_days : option (list (Z * float));
}.

Definition empty_summary : StrategySummaryStatistics :=
  {| first_trade_at := None; last_trade_at := None; enough_data := None;
     current_value := None; profitability_90_days := None;
     performance_chart_90_days := None |}.

(** A time series: index (timestamps, ascending) and values. *)
Definition series : Type := list (Z * float).

(** [index.get_indexer([x], method="nearest")]: the position of the index
    value closest to [x], the later one on a tie. *)
Fixpoint nearest_from (x : Z) (l : series) (pos best : nat) (best_dist : Z) : nat :=
  match l with
  | [] => best
  | (t, _) :: rest =>
      let d := Z.abs (t - x) in
      if Z.leb d best_dist
      then nearest_from x rest (S pos) pos d
      else nearest_from x rest (S pos) best best_dist
  end.

Definition get_indexer_nearest (x : Z) (l : series) : nat :=
  match l with
  | [] => 0%nat
  | (t, _) :: rest => nearest_from x rest 1 0 (Z.abs (t - x))
  end.

(** [series.loc[start_at:]] on an ascending index. *)
Definition loc_from (start_at : Z) (l : series) : series :=
  filter (fun p => Z.leb start_at p.1 = true) l.

(** The list comprehension that builds the performance chart:
    [(value - start_val) / start_val] for each sample, a division of
    floats that raises [ZeroDivisionError] on a zero [start_val]. *)
Fixpoint performance_chart (start_val : float) (l : series) : result series :=
  match l with
  | [] => Ok []
  | (index, value) :: rest =>
      change ← py_div (value - start_val)%float start_val;
      chart ← performance_chart start_val rest;
      Ok ((index, change) :: chart)
  end.

Section Calculate.

(** [Portfolio.get_total_equity], [calculate_naive_profitability] and the
    clock are not part of the sources. *)
Variable get_total_equity : State.Portfolio -> float.
Variable calculate_naive_profitability : series -> Z -> option float * Z.
Variable utcnow : Z.

(** [calculate_summary_statistics]; [time_window] defaults to 90 days. *)
Definition calculate_summary_statistics (state : State.t) (time_window : Z)
    (now_ : option Z) : result StrategySummaryStatistics :=
  let portfolio := State.portfolio state in
  let current_value := get_total_equity portfolio in
  let '(first_trade, last_trade) := State.get_first_and_last_executed_trade portfolio in
  match first_trade with
  | None =>
      Ok {| first_trade_at := None; last_trade_at := None; enough_data := None;
            current_value := Some current_value; profitability_90_days := None;
            performance_chart_90_days := None |}
  | Some first_trade =>
      let first_trade_at := State.executed_at first_trade in
      let last_trade_at := last_trade ≫= State.executed_at in
      let now_ := match now_ with
                  | Some n => n
                  | None => utcnow
                  end in
      let start_at := now_ - time_window in
      let total_equity_time_series :=
        State.portfolio_statistics (State.stats state) in
      '(profitability_90_days, enough_data, performance_chart_90_days) ←
        match total_equity_time_series with
        | (t0, _) :: _ =>
            let '(profitability, _) :=
              calculate_naive_profitability total_equity_time_series time_window in
            let enough_data := Z.leb t0 start_at in
            let start_idx := get_indexer_nearest start_at total_equity_time_series in
            let start_val :=
              nth start_idx (map snd total_equity_time_series) PrimFloat.nan in
            let last_90_days_ts := loc_from start_at total_equity_time_series in
            chart ← performance_chart start_val last_90_days_ts;
            Ok (profitability, enough_data, Some chart)
        | [] => Ok (None, false, None)
        end;
      Ok {| first_trade_at := first_trade_at; last_trade_at := last_trade_at;
            enough_data := Some enough_data; current_value := Some current_value;
            profitability_90_days := profitability_90_days;
            performance_chart_90_days := performance_chart_90_days |}
  end.

End Calculate.
End Summary.

(** ** Uniswap v3 routing state and approvals *)

Module Routing.

Definition MAX_UINT256 : Z := 2 ^ 256 - 1.

(** Modelled from the spec: [BlockchainTransaction], reduced to the target
    contract and the encoded call. *)
Inductive BlockchainTransaction : Type :=
| Approve (token spender : string) (amount : Z)
| Swap (router : string) (path : list string) (amount_in : Z).

(** What the chain knows about the hot wallet: its token balances and the
    allowances it has granted, by (token, spender). *)
Record Chain : Type := {
  balances : gmap string Z;
  allowances : gmap (string * string) Z;
}.

Definition balance_of (c : Chain) (token : string) : Z :=
  default 0 (balances c !! token).
Definition allowance (c : Chain) (token spender : string) : Z :=
  default 0 (allowances c !! (token, spender)).

(** Modelled from the spec: the routing state
    (tradeexecutor/ethereum/uniswap_v3_routing.py is not part of the
    sources) "remembers which token/spender approvals have already been
    confirmed during its lifetime"; a state just constructed remembers
    none. *)
Record RoutingState : Type := { approved_routes : gset (string * string) }.

Definition UniswapV3RoutingState : RoutingState := {| approved_routes := ∅ |}.

(** Modelled from the spec: a remembered approval "skips the redundant
    approval transaction"; otherwise approvals are "re-derived from on-chain
    allowance reads": an approval transaction is built only when the chain
    holds no allowance. *)
Definition ensure_token_approved (c : Chain) (st : RoutingState)
    (token router : string) : RoutingState * list BlockchainTransaction :=
  if bool_decide ((token, router) ∈ approved_routes st) then (st, [])
  else
    let st' := {| approved_routes := {[ (token, router) ]} ∪ approved_routes st |} in
    if Z.ltb 0 (allowance c token router) then (st', [])
    else (st', [Approve token router MAX_UINT256]).

Section Trade.

(** The router contract, and what a swap along a path pays out. *)
Variable router : string.
Variable swap_output : list string -> Z -> Z.

(** Modelled from the spec: [RoutingModel.trade]: "token approval(s)
    followed by the swap", or an out-of-balance error "if the wallet cannot
    cover the trade after a balance check". [path] is the token path of the
    swap, the token paid in first. *)
Definition trade (c : Chain) (st : RoutingState) (path : list string)
    (amount : Z) (check_balances : bool)
  : result (RoutingState * list BlockchainTransaction) :=
  match path with
  | [] => Raise (AssertionError "empty path")
  | token_in :: _ =>
      if check_balances && Z.ltb (balance_of c token_in) amount
      then Raise (OutOfBalance token_in)
      else
        let '(st', approvals) := ensure_token_approved c st token_in router in
        Ok (st', (approvals ++ [Swap router path amount])%list)
  end.

(** One transaction taking effect on the chain; [None] when it reverts. *)
Definition apply_tx (c : Chain) (tx : BlockchainTransaction) : option Chain :=
  match tx with
  | Approve token spender amount =>
      Some {| balances := balances c;
              allowances := <[(token, spender) := amount]> (allowances c) |}
  | Swap r path amount_in =>
      match path, last path with
      | token_in :: _, Some token_out =>
          if Z.ltb (balance_of c token_in) amount_in
             || Z.ltb (allowance c token_in r) amount_in
          then None
          else
            let b := <[token_in := balance_of c token_in - amount_in]> (balances c) in
            let out := default 0 (b !! token_out) + swap_output path amount_in in
            Some {| balances := <[token_out := out]> b;
                    allowances :=
                      <[(token_in, r) := allowance c token_in r - amount_in]>
                        (allowances c) |}
      | _, _ => None
      end
  end.

(** [broadcast_and_wait_transactions_to_complete] followed by the check
    that every transaction succeeded. *)
Fixpoint broadcast (c : Chain) (txs : list BlockchainTransaction) : result Chain :=
  match txs with
  | [] => Ok c
  | tx :: rest =>
      match apply_tx c tx with
      | Some c' => broadcast c' rest
      | None => Raise (AssertionError "Transaction failed")
      end
  end.

(** The round trip of the routing tests: buy along [path] with [amount] of
    the reserve token, then sell everything received back along the
    reversed path. Returns the chain, the routing state and the
    transactions of both trades. *)
Definition trip (c : Chain) (st : RoutingState) (path : list string) (amount : Z)
  : result (Chain * RoutingState * list BlockchainTransaction) :=
  '(st1, txs) ← trade c st path amount true;
  c1 ← broadcast c txs;
  let bought := default "" (last path) in
  let balance := balance_of c1 bought in
  _ ← assert (Z.ltb 0 balance) "balance > 0";
  '(st2, txs2) ← trade c1 st1 (rev path) balance true;
  c2 ← broadcast c1 txs2;
  Ok (c2, st2, (txs ++ txs2)%list).

(** [test_three_leg_buy_sell_twice]: one routing state for both trips. *)
Definition twice_same_state (c : Chain) (path : list string) (amount : Z)
  : result (nat * nat) :=
  let routing_state := UniswapV3RoutingState in
  '(c1, st1, txs_1) ← trip c routing_state path amount;
  '(_, _, txs_2) ← trip c1 st1 path amount;
  Ok (length txs_1, length txs_2).

(** [test_three_leg_buy_sell_twice_on_chain]: a routing state constructed
    anew before each trip. *)
Definition twice_fresh_state (c : Chain) (path : list string) (amount : Z)
  : result (nat * nat) :=
  '(c1, _, txs_1) ← trip c UniswapV3RoutingState path amount;
  '(_, _, txs_2) ← trip c1 UniswapV3RoutingState path amount;
  Ok (length txs_1, length txs_2).

End Trade.
End Routing.

(** ** SHA-256 (hashlib.sha256), after FIPS 180-4 *)

Module SHA256.

Definition word (x : Z) : Z := x mod 2 ^ 32.
Definition rotr (n x : Z) : Z := Z.lor (Z.shiftr x n) (word (Z.shiftl x (32 - n))).
Definition shr (n x : Z) : Z := Z.shiftr x n.
Definition complement (x : Z) : Z := Z.lxor x 0xffffffff.

Definition Ch (x y z : Z) : Z := Z.lxor (Z.land x y) (Z.land (complement x) z).
Definition Maj (x y z : Z) : Z :=
  Z.lxor (Z.lxor (Z.land x y) (Z.land x z)) (Z.land y z).
Definition Sigma0 (x : Z) : Z := Z.lxor (Z.lxor (rotr 2 x) (rotr 13 x)) (rotr 22 x).
Definition Sigma1 (x : Z) : Z := Z.lxor (Z.lxor (rotr 6 x) (rotr 11 x)) (rotr 25 x).
Definition sigma0 (x : Z) : Z := Z.lxor (Z.lxor (rotr 7 x) (rotr 18 x)) (shr 3 x).
Definition sigma1 (x : Z) : Z := Z.lxor (Z.lxor (rotr 17 x) (rotr 19 x)) (shr 10 x).

(** The first 64 primes. *)
Definition is_prime (n : nat) : bool :=
  Nat.ltb 1 n && forallb (fun d => negb (Nat.eqb (n mod d) 0)) (seq 2 (n - 2)).

Definition primes : list Z :=
  Eval vm_compute in map Z.of_nat (filter (fun n => is_prime n = true) (seq 2 310)).

(** The integer cube root, bit by bit from the top. *)
Fixpoint cube_root_bits (bits : nat) (x r : Z) : Z :=
  match bits with
  | O => r
  | S b =>
      let r' := r + 2 ^ Z.of_nat b in
      cube_root_bits b x (if Z.leb (r' * r' * r') x then r' else r)
  end.

Definition cube_root (x : Z) : Z := cube_root_bits 40 x 0.

(** The round constants: the first 32 bits of the fractional parts of the
    cube roots of the first 64 primes. *)
Definition K : list Z :=
  Eval vm_compute in map (fun p => word (cube_root (p * 2 ^ 96))) primes.

(** The eight working variables, and the hash value between blocks. *)
Record registers : Type := Regs {
  ra : Z; rb : Z; rc : Z; rd : Z; re : Z; rf : Z; rg : Z; rh : Z;
}.

(** The initial hash value: the first 32 bits of the fractional parts of
    the square roots of the first 8 primes. *)
Definition fractional_sqrt (p : Z) : Z := word (Z.sqrt (p * 2 ^ 64)).

Definition H0 : registers :=
  Eval vm_compute in
    Regs (fractional_sqrt 2) (fractional_sqrt 3) (fractional_sqrt 5)
         (fractional_sqrt 7) (fractional_sqrt 11) (fractional_sqrt 13)
         (fractional_sqrt 17) (fractional_sqrt 19).

Definition bytes_of_string (s : string) : list Z :=
  map (fun c => Z.of_N (N_of_ascii c)) (list_ascii_of_string s).

(** The 64-bit big-endian length, as eight bytes. *)
Definition be_bytes (n : nat) (x : Z) : list Z :=
  map (fun i => Z.shiftr x (8 * Z.of_nat i) mod 256) (rev (seq 0 n)).

Definition pad (msg : list Z) : list Z :=
  let len := Z.of_nat (length msg) in
  (msg ++ [0x80] ++ repeat 0 (Z.to_nat ((55 - len) mod 64)) ++ be_bytes 8 (8 * len))%list.

Fixpoint be_words (bytes : list Z) : list Z :=
  match bytes with
  | b0 :: b1 :: b2 :: b3 :: rest =>
      (Z.shiftl b0 24 + Z.shiftl b1 16 + Z.shiftl b2 8 + b3) :: be_words rest
  | _ => []
  end.

(** The message schedule: sixteen words of the block, extended to 64. *)
Fixpoint extend (n : nat) (ws : list Z) : list Z :=
  match n with
  | O => ws
  | S n' =>
      let t := length ws in
      let at_ (k : nat) := nth (t - k) ws 0 in
      extend n' (ws ++ [word (sigma1 (at_ 2%nat) + at_ 7%nat
                               + sigma0 (at_ 15%nat) + at_ 16%nat)])%list
  end.

Definition round (r : registers) (kw : Z * Z) : registers :=
  let t1 := rh r + Sigma1 (re r) + Ch (re r) (rf r) (rg r) + kw.1 + kw.2 in
  let t2 := Sigma0 (ra r) + Maj (ra r) (rb r) (rc r) in
  Regs (word (t1 + t2)) (ra r) (rb r) (rc r) (word (rd r + t1)) (re r) (rf r) (rg r).

Definition compress (hv : registers) (block : list Z) : registers :=
  let ws := extend 48 (be_words block) in
  let r := fold_left round (combine K ws) hv in
  Regs (word (ra hv + ra r)) (word (rb hv + rb r)) (word (rc hv + rc r))
       (word (rd hv + rd r)) (word (re hv + re r)) (word (rf hv + rf r))
       (word (rg hv + rg r)) (word (rh hv + rh r)).

Fixpoint process (n : nat) (hv : registers) (bytes : list Z) : registers :=
  match n with
  | O => hv
  | S n' =>
      match bytes with
      | [] => hv
      | _ => process n' (compress hv (firstn 64 bytes)) (skipn 64 bytes)
      end
  end.

Definition sha256 (msg : list Z) : registers :=
  let padded := pad msg in process (length padded) H0 padded.

Definition hex_digit (n : Z) : ascii :=
  nth (Z.to_nat n) (list_ascii_of_string "0123456789abcdef") "0"%char.

(** The eight hexadecimal digits of a word, most significant first. *)
Definition hex_word (x : Z) (rest : string) : string :=
  String (hex_digit (Z.shiftr x 28 mod 16))
 (String (hex_digit (Z.shiftr x 24 mod 16))
 (String (hex_digit (Z.shiftr x 20 mod 16))
 (String (hex_digit (Z.shiftr x 16 mod 16))
 (String (hex_digit (Z.shiftr x 12 mod 16))
 (String (hex_digit (Z.shiftr x 8 mod 16))
 (String (hex_digit (Z.shiftr x 4 mod 16))
 (String (hex_digit (x mod 16)) rest))))))).

(** [hashlib.sha256(data).hexdigest()] *)
Definition hexdigest (msg : string) : string :=
  let r := sha256 (bytes_of_string msg) in
  hex_word (ra r) (hex_word (rb r) (hex_word (rc r) (hex_word (rd r)
  (hex_word (re r) (hex_word (rf r) (hex_word (rg r) (hex_word (rh r) ""))))))).

End SHA256.

(** ** tradeexecutor/utils/python_function.py *)

Module PythonFunction.

(** *** Text *)

Definition newline : ascii := ascii_of_nat 10.
Definition tab : ascii := ascii_of_nat 9.
Definition space : ascii := ascii_of_nat 32.

(** [s.split("\n")] *)
Fixpoint split_lines (s : string) : list string :=
  match s with
  | EmptyString => [EmptyString]
  | String c rest =>
      if Ascii.eqb c newline then EmptyString :: split_lines rest
      else match split_lines rest with
           | line :: lines => String c line :: lines
           | [] => [String c EmptyString]
           end
  end.

(** ["\n".join(lines)] *)
Fixpoint join_lines (lines : list string) : string :=
  match lines with
  | [] => EmptyString
  | [line] => line
  | line :: rest => line ++ String newline (join_lines rest)
  end.

(** [needle in s] *)
Fixpoint contains (needle s : string) : bool :=
  String.prefix needle s ||
  match s with
  | EmptyString => false
  | String _ rest => contains needle rest
  end.

Definition is_blank (c : ascii) : bool := Ascii.eqb c space || Ascii.eqb c tab.

Fixpoint leading_whitespace (line : string) : string :=
  match line with
  | String c rest => if is_blank c then String c (leading_whitespace rest) else EmptyString
  | EmptyString => EmptyString
  end.

Fixpoint common_prefix (a b : string) : string :=
  match a, b with
  | String x a', String y b' =>
      if Ascii.eqb x y then String x (common_prefix a' b') else EmptyString
  | _, _ => EmptyString
  end.

Fixpoint drop_prefix (p s : string) : string :=
  match p, s with
  | String x p', String y s' => if Ascii.eqb x y then drop_prefix p' s' else s
  | _, _ => s
  end.

(** [textwrap.dedent]: lines of blanks only become empty, the margin is
    the longest run of blanks that starts every other non-empty line, and
    it is removed from the lines that start with it. *)
Definition dedent (text : string) : string :=
  let lines :=
    map (fun l => if String.eqb (leading_whitespace l) l then EmptyString else l)
      (split_lines text) in
  let indents :=
    map leading_whitespace (filter (fun l => negb (String.eqb l EmptyString) = true) lines) in
  let margin :=
    match indents with
    | [] => EmptyString
    | i :: rest => fold_left common_prefix rest i
    end in
  join_lines
    (map (fun l => if String.prefix margin l then drop_prefix margin l else l) lines).

(** *** The syntax trees of [ast] *)

Inductive constant : Type :=
| CNone | CBool (b : bool) | CInt (z : Z) | CFloat (f : float) | CStr (s : string).

Inductive expr : Type :=
| Constant (value : constant)
| Name (id : string)
| Attribute (value : expr) (attr : string)
| BinOp (left : expr) (op : string) (right : expr)
| Compare (left : expr) (op : string) (right : expr)
| Call (func : expr) (args : list expr)
| Lambda (params : list string) (body : expr).

Inductive stmt : Type :=
| FunctionDef (name : string) (args : list string) (body : block)
    (decorator_list : list expr) (returns : option expr)
| AsyncFunctionDef (name : string) (args : list string) (body : block)
    (decorator_list : list expr) (returns : option expr)
| ClassDef (name : string) (bases : list expr) (body : block)
    (decorator_list : list expr)
| Return (value : option expr)
| Assign (targets : list expr) (value : expr)
| Expr (value : expr)
| If (test : expr) (body orelse : block)
| For (target iter : expr) (body orelse : block)
| While (test : expr) (body orelse : block)
| With (items : list expr) (body : block)
| Pass
with block : Type :=
| BNil
| BCons (s : stmt) (rest : block).

Scheme stmt_block_ind := Induction for stmt Sort Prop
  with block_stmt_ind := Induction for block Sort Prop.
Combined Scheme stmt_and_block_ind from stmt_block_ind, block_stmt_ind.

(** [ast.Module] with its [body]. *)
Record Module_ : Type := { module_body : block }.

Fixpoint block_length (b : block) : nat :=
  match b with BNil => 0 | BCons _ rest => S (block_length rest) end.

(** [isinstance(s, ast.Expr) and isinstance(s.value, ast.Str)] *)
Definition is_docstring (s : stmt) : bool :=
  match s with
  | Expr (Constant (CStr _)) => true
  | _ => false
  end.

(** [_remove_docstring] on the body of a [FunctionDef] or [ClassDef] node:
    [node.body.pop(0)] when the first statement is a string expression. *)
Definition pop_docstring (body : block) : block :=
  match body with
  | BCons s rest => if is_docstring s then rest else body
  | BNil => body
  end.

(** [for node in ast.walk(module): _remove_docstring(node)]. The walk
    reaches every node of the tree once, each node's children having been
    queued before the node is handed out, so popping a docstring does not
    change which nodes are visited; the popped statement holds no
    definition. The tree that is left: *)
Fixpoint remove_docstrings (s : stmt) : stmt :=
  match s with
  | FunctionDef n a body d r =>
      FunctionDef n a (remove_docstrings_block (pop_docstring body)) d r
  | AsyncFunctionDef n a body d r =>
      AsyncFunctionDef n a (remove_docstrings_block body) d r
  | ClassDef n bases body d =>
      ClassDef n bases (remove_docstrings_block (pop_docstring body)) d
  | If t body orelse =>
      If t (remove_docstrings_block body) (remove_docstrings_block orelse)
  | For t i body orelse =>
      For t i (remove_docstrings_block body) (remove_docstrings_block orelse)
  | While t body orelse =>
      While t (remove_docstrings_block body) (remove_docstrings_block orelse)
  | With items body => With items (remove_docstrings_block body)
  | Return _ | Assign _ _ | Expr _ | Pass => s
  end
with remove_docstrings_block (b : block) : block :=
  match b with
  | BNil => BNil
  | BCons s rest => BCons (remove_docstrings s) (remove_docstrings_block rest)
  end.

(** A function object: what [callable] and [inspect.getsource] say of it. *)
Record function : Type := {
  is_callable : bool;
  source : string;
}.

Section Hash.

(** [ast.parse] and [ast.dump(module, annotate_fields=False)]. *)
Variable parse : string -> result Module_.
Variable dump : Module_ -> string.

Definition lambda_like (func_str : string) : bool :=
  (let n := length (split_lines func_str) in Nat.eqb n 1 || Nat.eqb n 2)
  && contains "lambda" func_str.

(** [s[0:n]] *)
Definition slice_to (n : nat) (s : string) : string := String.substring 0 n s.

(** The text whose SHA-256 is taken. *)
Definition hashed_text (func_str : string) : result string :=
  if negb (lambda_like func_str) then
    module ← parse func_str;
    match module_body module with
    | BCons (FunctionDef name args body decos returns) BNil =>
        let func_node := FunctionDef EmptyString args body decos returns in
        Ok (dump {| module_body := BCons (remove_docstrings func_node) BNil |})
    | _ => Raise (AssertionError
                    "len(module.body) == 1 and isinstance(module.body[0], ast.FunctionDef)")
    end
  else Ok func_str.

(** [hash_function(func, char_length=8)] *)
Definition hash_function (func : function) (char_length : nat) : result string :=
  _ ← assert (is_callable func) "Not a function";
  let func_str := dedent (source func) in
  text ← hashed_text func_str;
  Ok (slice_to char_length (SHA256.hexdigest text)).

End Hash.

End PythonFunction.

(** ** tradeexecutor/ethereum/ethereum_protocol_adapters.py *)

Module ProtocolAdapters.

(** What the configurator reads of the exchange data of the [tradingstrategy]
    package, which is not part of the sources: an exchange's type and slug,
    the dictionary of the loaded exchanges with its count, and the lookup of
    an exchange by chain and factory address, which returns an exchange or
    [None], or raises [ExchangeNotFoundError]. *)
Inductive ExchangeType : Type := uniswap_v2 | uniswap_v3.

Record Exchange : Type := {
  exchange_type : ExchangeType;
  exchange_slug : string;
}.

Inductive failure : Type :=
| AssertionFailed (msg : string)
| ExchangeNotFoundError
| UnroutableTrade (msg : string)
| NotImplemented (msg : string)
| AttributeError (msg : string)
| Failed (e : exn).

Inductive attempt (A : Type) : Type :=
| Returned (a : A)
| Raised (e : failure).
Arguments Returned {A} a.
Arguments Raised {A} e.

#[global] Instance attempt_ret : MRet attempt := fun _ a => Returned a.
#[global] Instance attempt_bind : MBind attempt := fun _ _ f m =>
  match m with Returned a => f a | Raised e => Raised e end.

Definition asserting (cond : bool) (msg : string) : attempt unit :=
  if cond then Returned tt else Raised (AssertionFailed msg).

Record ExchangeUniverse : Type := {
  exchanges : gmap Z Exchange;
  get_exchange_count : Z;
  get_by_chain_and_factory : Z -> string -> attempt (option Exchange);
  get_by_chain_and_slug : Z -> string -> attempt (option Exchange);
}.

(** The strategy universe: [data_universe.exchange_universe],
    [data_universe.pairs.exchange_universe], the set
    [data_universe.chains] and the list [reserve_assets]. *)
Record TradingStrategyUniverse : Type := {
  exchange_universe : ExchangeUniverse;
  pairs_exchange_universe : ExchangeUniverse;
  chains : gset Z;
  reserve_assets : list AssetIdentifier;
}.

(** Modelled from the spec: [get_single_chain] and [get_reserve_asset] of
    the strategy universe give the only chain and the only reserve asset,
    and assert that there is one. *)
Definition get_single_chain (u : TradingStrategyUniverse) : attempt Z :=
  match elements (chains u) with
  | [chain] => Returned chain
  | _ => Raised (AssertionFailed "len(self.data_universe.chains) == 1")
  end.

Definition get_reserve_asset (u : TradingStrategyUniverse) : attempt AssetIdentifier :=
  match reserve_assets u with
  | [asset] => Returned asset
  | _ => Raised (AssertionFailed "len(self.reserve_assets) == 1")
  end.

(** The frozen dataclass [ProtocolRoutingId]; [lending_protocol_slug]
    defaults to [None]. *)
Record ProtocolRoutingId : Type := {
  router_name : string;
  routing_exchange_slug : string;
  lending_protocol_slug : option string;
}.

#[global] Instance routing_id_eq_dec : EqDecision ProtocolRoutingId.
Proof. solve_decision. Defined.

#[global] Instance routing_id_countable : Countable ProtocolRoutingId.
Proof.
  refine (inj_countable'
            (fun r => (router_name r, routing_exchange_slug r, lending_protocol_slug r))
            (fun t => {| router_name := t.1.1; routing_exchange_slug := t.1.2;
                         lending_protocol_slug := t.2 |}) _).
  intros []. reflexivity.
Defined.

(** [ProtocolRoutingId(router_name="1delta", exchange_slug="uniswap-v3",
    lending_protocol_slug="aave")] *)
Definition one_delta_routing : ProtocolRoutingId :=
  {| router_name := "1delta"; routing_exchange_slug := "uniswap-v3";
     lending_protocol_slug := Some "aave" |}.

(** The routing id that both methods build for an exchange. *)
Definition exchange_routing (xc : Exchange) : ProtocolRoutingId :=
  {| router_name := match exchange_type xc with
                    | uniswap_v2 => "uniswap-v2"
                    | _ => "uniswap-v3"
                    end;
     routing_exchange_slug := exchange_slug xc;
     lending_protocol_slug := None |}.

(** [EthereumPairConfigurator.get_supported_routers] *)
Definition get_supported_routers (strategy_universe : TradingStrategyUniverse)
  : attempt (gset ProtocolRoutingId) :=
  let exchanges_ := exchange_universe strategy_universe in
  if negb (Z.ltb (get_exchange_count exchanges_) 5)
  then Raised (AssertionFailed "Exchanges might not be configured correctly")
  else
    let configs :=
      fold_left (fun configs xc => configs ∪ {[ exchange_routing xc ]})
        (map snd (map_to_list (exchanges exchanges_))) ∅ in
    Returned (configs ∪ {[ one_delta_routing ]}).

(** Modelled from the spec: [pair.is_leverage()] and
    [pair.is_credit_supply()] by the kind of the pair, [pair.chain_id] as
    the chain of the base asset. *)
Definition is_leverage (pair : TradingPairIdentifier) : bool :=
  match kind pair with lending_protocol_short => true | _ => false end.

Definition is_credit_supply (pair : TradingPairIdentifier) : bool :=
  match kind pair with credit_supply => true | _ => false end.

(** [EthereumPairConfigurator.match_router] *)
Definition match_router (strategy_universe : TradingStrategyUniverse)
    (pair : TradingPairIdentifier) : attempt ProtocolRoutingId :=
  if is_leverage pair || is_credit_supply pair
  then Returned one_delta_routing
  else
    match get_by_chain_and_factory (pairs_exchange_universe strategy_universe)
            (chain_id (base pair)) (exchange_address pair) with
    | Raised ExchangeNotFoundError =>
        Raised (UnroutableTrade "Could not find exchange for pair")
    | Raised e => Raised e
    | Returned None =>
        Raised (AssertionFailed
                  "Loaded exchange data does not have exchange for pair")
    | Returned (Some exchange) => Returned (exchange_routing exchange)
    end.


(** *** The adapters *)

(** The contracts of the three deployments that [create_1delta_adapter]
    fetches, by their addresses. *)
Record UniswapV3Deployment : Type := {
  factory : string;
  swap_router : string;
  position_manager : string;
  quoter : string;
}.

Record AaveV3Deployment : Type := {
  pool : string;
  data_provider : string;
  oracle : string;
}.

Record OneDeltaDeployment : Type := { broker_proxy : string }.

(** What the adapters call outside the sources: the three functions that
    read a deployment from the chain, each of which may raise, and the
    address map of Uniswap v3 in [routing_data]. The constructors of the
    routing, pricing and valuation models are taken to return. *)
Record Web3 : Type := {
  fetch_uniswap_v3_deployment : string -> string -> string -> string ->
                                attempt UniswapV3Deployment;
  fetch_aave_deployment : string -> string -> string -> attempt AaveV3Deployment;
  fetch_1delta_deployment : string -> string -> attempt OneDeltaDeployment;
  uniswap_v3_address_map : gmap string string;
}.

(** The routing models by their constructor arguments;
    [allowed_intermediary_pairs] is the empty dictionary in both calls that
    take it. *)
Inductive RoutingModel : Type :=
| UniswapV2CompatibleRouting (routing_type reserve_currency : string)
| UniswapV3Routing (address_map : gmap string string) (chain_id : Z)
    (reserve_token_address : string)
| OneDeltaRouting (address_map : gmap string string) (chain_id : Z)
    (reserve_token_address : string).

Inductive PricingModel : Type :=
| UniswapV2LivePricing (routing_model : RoutingModel)
| UniswapV3LivePricing (routing_model : RoutingModel)
| OneDeltaLivePricing (routing_model : RoutingModel).

Inductive ValuationModel : Type :=
| UniswapV2PoolRevaluator (pricing_model : PricingModel)
| UniswapV3PoolRevaluator (pricing_model : PricingModel)
| OneDeltaPoolRevaluator (pricing_model : PricingModel).

Record ProtocolRoutingConfig : Type := {
  routing_id : ProtocolRoutingId;
  routing_model : RoutingModel;
  pricing_model : PricingModel;
  valuation_model : ValuationModel;
}.

Section Adapters.
Variable web3 : Web3.
Variable strategy_universe : TradingStrategyUniverse.

(** [reserve_assets[0]] *)
Definition first_reserve_asset : attempt AssetIdentifier :=
  match reserve_assets strategy_universe with
  | asset :: _ => Returned asset
  | [] => Raised (Failed (External "IndexError"))
  end.

(** [create_uniswap_v2_adapter] *)
Definition create_uniswap_v2_adapter (routing_id : ProtocolRoutingId)
  : attempt ProtocolRoutingConfig :=
  _ ← asserting (String.eqb (router_name routing_id) "uniswap-v2")
        "routing_id.router_name == uniswap-v2";
  _ ← asserting (bool_decide (size (chains strategy_universe) = 1%nat))
        "len(strategy_universe.data_universe.chains) == 1";
  _ ← asserting (bool_decide (length (reserve_assets strategy_universe) = 1%nat))
        "len(strategy_universe.reserve_assets) == 1";
  reserve ← first_reserve_asset;
  _ ← asserting (String.eqb (token_symbol reserve) "USDC")
        "reserve.token_symbol == USDC";
  let exchange_universe := exchange_universe strategy_universe in
  chain_id ← get_single_chain strategy_universe;
  exchange ← get_by_chain_and_slug exchange_universe chain_id
               (routing_exchange_slug routing_id);
  match exchange with
  | None => Raised (AttributeError "'NoneType' object has no attribute 'exchange_slug'")
  | Some exchange =>
      if String.eqb (exchange_slug exchange) "quickswap" then
        let routing_model := UniswapV2CompatibleRouting "quickswap_usdc" "usdc" in
        let pricing_model := UniswapV2LivePricing routing_model in
        let valuation_model := UniswapV2PoolRevaluator pricing_model in
        Returned {| routing_id := routing_id; routing_model := routing_model;
                    pricing_model := pricing_model;
                    valuation_model := valuation_model |}
      else Raised (NotImplemented "Exchange not yet supported")
  end.

(** [create_uniswap_v3_adapter] *)
Definition create_uniswap_v3_adapter (routing_id : ProtocolRoutingId)
  : attempt ProtocolRoutingConfig :=
  _ ← asserting (String.eqb (router_name routing_id) "uniswap-v3")
        "routing_id.router_name == uniswap-v3";
  _ ← asserting (bool_decide (size (chains strategy_universe) = 1%nat))
        "len(strategy_universe.data_universe.chains) == 1";
  _ ← asserting (bool_decide (length (reserve_assets strategy_universe) = 1%nat))
        "len(strategy_universe.reserve_assets) == 1";
  chain_id ← get_single_chain strategy_universe;
  reserve_asset ← get_reserve_asset strategy_universe;
  let routing_model :=
    UniswapV3Routing (uniswap_v3_address_map web3) chain_id (address reserve_asset) in
  let pricing_model := UniswapV3LivePricing routing_model in
  let valuation_model := UniswapV3PoolRevaluator pricing_model in
  Returned {| routing_id := routing_id; routing_model := routing_model;
              pricing_model := pricing_model; valuation_model := valuation_model |}.

(** [create_1delta_adapter] *)
Definition create_1delta_adapter (routing_id : ProtocolRoutingId)
  : attempt ProtocolRoutingConfig :=
  _ ← asserting (String.eqb (router_name routing_id) "1delta")
        "routing_id.router_name == 1delta";
  _ ← asserting (bool_decide (lending_protocol_slug routing_id = Some "aave"))
        "routing_id.lending_protocol_slug == aave";
  _ ← asserting (String.eqb (routing_exchange_slug routing_id) "uniswap-v3")
        "routing_id.exchange_slug == uniswap-v3";
  _ ← asserting (bool_decide (size (chains strategy_universe) = 1%nat))
        "len(strategy_universe.data_universe.chains) == 1";
  _ ← asserting (bool_decide (length (reserve_assets strategy_universe) = 1%nat))
        "len(strategy_universe.reserve_assets) == 1";
  chain_id ← get_single_chain strategy_universe;
  reserve_asset ← get_reserve_asset strategy_universe;
  uniswap_v3_deployment ← fetch_uniswap_v3_deployment web3
    "0x1F98431c8aD98523631AE4a59f267346ea31F984"
    "0xE592427A0AEce92De3Edee1F18E0157C05861564"
    "0xC36442b4a4522E871399CD717aBDD847Ab11FE88"
    "0xb27308f9F90D607463bb33eA1BeBb41C27CE5AB6";
  aave_v3_deployment ← fetch_aave_deployment web3
    "0x794a61358D6845594F94dc1DB02A252b5b4814aD"
    "0x69FA688f1Dc47d4B5d8029D5a35FB7a548310654"
    "0xb023e699F5a33916Ea823A16485e259257cA8Bd1";
  one_delta_deployment ← fetch_1delta_deployment web3
    "0x74E95F3Ec71372756a01eB9317864e3fdde1AC53"
    "0x74E95F3Ec71372756a01eB9317864e3fdde1AC53";
  let address_map : gmap string string :=
    <["quoter" := quoter uniswap_v3_deployment]>
    (<["position_manager" := position_manager uniswap_v3_deployment]>
    (<["router" := swap_router uniswap_v3_deployment]>
    (<["factory" := factory uniswap_v3_deployment]>
    (<["aave_v3_oracle" := oracle aave_v3_deployment]>
    (<["aave_v3_data_provider" := data_provider aave_v3_deployment]>
    (<["aave_v3_pool" := pool aave_v3_deployment]>
    (<["one_delta_broker_proxy" := broker_proxy one_delta_deployment]> ∅))))))) in
  let routing_model := OneDeltaRouting address_map chain_id (address reserve_asset) in
  let pricing_model := OneDeltaLivePricing routing_model in
  let valuation_model := OneDeltaPoolRevaluator pricing_model in
  Returned {| routing_id := routing_id; routing_model := routing_model;
              pricing_model := pricing_model; valuation_model := valuation_model |}.

(** [EthereumPairConfigurator.create_config] *)
Definition create_config (routing_id : ProtocolRoutingId)
  : attempt ProtocolRoutingConfig :=
  if String.eqb (router_name routing_id) "1delta"
  then create_1delta_adapter routing_id
  else if String.eqb (router_name routing_id) "uniswap-v2"
  then create_uniswap_v2_adapter routing_id
  else if String.eqb (router_name routing_id) "uniswap-v3"
  then create_uniswap_v3_adapter routing_id
  else Raised (NotImplemented "Cannot route exchange").

End Adapters.

End ProtocolAdapters.

(** ** tradeexecutor/strategy/run_state.py *)

Module RunState.

(** [ExceptionData]: the dictionary that [tblib] makes of a traceback, with
    the message of the exception added. *)
Definition ExceptionData : Type := gmap string State.json.

Record LatestStateVisualisation : Type := {
  visualisation_refreshed_at : Z;
  small_image : option string;
  large_image : option string;
}.

(** [LatestStateVisualisation()] at the time [now]. *)
Definition new_visualisation (now : Z) : LatestStateVisualisation :=
  {| visualisation_refreshed_at := now; small_image := None; large_image := None |}.

(** [update_image_data]; [now] is what [datetime.datetime.utcnow()]
    returns. *)
Definition update_image_data (self : LatestStateVisualisation)
    (small_image large_image : option string) (now : Z) : LatestStateVisualisation :=
  {| small_image := small_image; large_image := large_image;
     visualisation_refreshed_at := now |}.

Record t : Type := {
  last_refreshed_at : Z;
  started_at : Z;
  executor_running : bool;
  completed_cycle : option Z;
  exception : option ExceptionData;
  source_code : option string;
  visualisation : option LatestStateVisualisation;
}.

(** [RunState()]: each default factory reads the clock. *)
Definition new (now : Z) : t :=
  {| last_refreshed_at := now; started_at := now; executor_running := true;
     completed_cycle := None; exception := None; source_code := None;
     visualisation := Some (new_visualisation now) |}.

(** What [sys.exc_info()] tells of the exception that is being handled:
    [str(ev)] and the dictionary [Traceback(tb).to_dict()] of its
    traceback; [None] when no exception is being handled, where
    [sys.exc_info()] is [(None, None, None)]. *)
Definition exc_info : Type := option (string * ExceptionData).

(** [serialise_exception]. With no exception being handled [Traceback(None)]
    reads an attribute of [None] and raises [AttributeError]. *)
Definition serialise_exception (info : exc_info) : result ExceptionData :=
  match info with
  | None => Raise (External "AttributeError")
  | Some (message, traceback) =>
      Ok (<["exception_message" := State.JStr message]> traceback)
  end.

(** [set_fail]: the state as the method leaves it; when it raises, no
    attribute has been written. *)
Definition set_fail (self : t) (info : exc_info) (now : Z) : result t :=
  data ← serialise_exception info;
  Ok {| exception := Some data;
        last_refreshed_at := now;
        executor_running := false;
        started_at := started_at self;
        completed_cycle := completed_cycle self;
        source_code := source_code self;
        visualisation := visualisation self |}.

(** [update_complete_cycle] *)
Definition update_complete_cycle (self : t) (cycle : Z) (now : Z) : t :=
  {| last_refreshed_at := now;
     completed_cycle := Some cycle;
     started_at := started_at self;
     executor_running := executor_running self;
     exception := exception self;
     source_code := source_code self;
     visualisation := visualisation self |}.

End RunState.

(** ** tradeexecutor/ethereum/uniswap_v2_execution.py *)

Module UniswapV2Execution.

(** What [preflight_check] reads from the node, the hot wallet and the
    Uniswap deployment, none of which the sources hold; each read is a call
    that may raise: the number of the latest block
    ([web3.eth.block_number]), the chain id ([web3.eth.chain_id]), the
    native currency balance of the wallet as a decimal number, and
    [factory.functions.allPairsLength().call()]. *)
Record Connection : Type := {
  eth_block_number : result Z;
  eth_chain_id : result Z;
  get_native_currency_balance : result Q;
  all_pairs_length : result Z;
}.

(** The attributes that [__init__] sets on an instance. The class leaves
    [get_routing_state_details] of [ExecutionModel] abstract, so that an
    instance is one of a subclass. *)
Record UniswapV2ExecutionModelVersion : Type := {
  connection : Connection;
  stop_on_execution_failure : bool;
  min_balance_threshold : Q;
  confirmation_block_count : Z;
  confirmation_timeout : Z;
}.

Definition Qgt_bool (a b : Q) : bool :=
  match Qcompare a b with Gt => true | _ => false end.

(** [preflight_check]. The message of the last [AssertionError] is built
    in the handler and reads [self.chain_id], the chain id of the node. *)
Definition preflight_check (self : UniswapV2ExecutionModelVersion) : result unit :=
  block_number ← eth_block_number (connection self);
  _ ← assert (Z.ltb 1 block_number) "self.web3.eth.block_number > 1";
  balance ← get_native_currency_balance (connection self);
  _ ← assert (Qgt_bool balance (min_balance_threshold self))
        "At least min_balance_threshold native currency need";
  match all_pairs_length (connection self) with
  | Ok _ => Ok tt
  | Raise _ =>
      _ ← eth_chain_id (connection self);
      Raise (AssertionError "Uniswap does not function at chain")
  end.

End UniswapV2Execution.

(** * Properties *)

(** ** Trade pricing records *)

Section TradePricingFacts.
Implicit Types self tp : TradePricing.t.

Import TradePricing.

(** The object as [__post_init__] leaves it: both fee fields wrapped into
    one-element lists unless they were lists already. *)
Definition wrapped_fees self : TradePricing.t :=
  let self1 :=
    if bool_decide (type_of (lp_fee self) ≠ TList)
    then set_lp_fee self (PyList [lp_fee self]) else self in
  if bool_decide (type_of (pair_fee self1) ≠ TList)
  then set_pair_fee self1 (PyList [pair_fee self1]) else self1.

(** The price relation that the side of a quote asks for. *)
Definition side_consistent self : bool :=
  match side self with
  | Some true => py_ge (float_of (price self)) (float_of (mid_price self))
  | Some false => py_le (float_of (price self)) (float_of (mid_price self))
  | None => true
  end.

Lemma assert_ok (b : bool) (msg : string) : assert b msg = Ok tt -> b = true.
Proof. destruct b; [reflexivity | discriminate]. Qed.

Lemma bind_ok {A B} (m : result A) (f : A -> result B) (b : B) :
  m ≫= f = Ok b -> exists a, m = Ok a /\ f a = Ok b.
Proof.
  destruct m as [a | e]; cbn; intros H; [exists a; split; [reflexivity | exact H] | discriminate].
Qed.

Lemma wrapped_fees_fields self :
  price (wrapped_fees self) = price self
  /\ mid_price (wrapped_fees self) = mid_price self
  /\ side (wrapped_fees self) = side self
  /\ market_feed_delay (wrapped_fees self) = market_feed_delay self
  /\ path (wrapped_fees self) = path self.
Proof.
  unfold wrapped_fees.
  destruct (bool_decide (type_of (lp_fee self) ≠ TList));
    cbn [pair_fee set_lp_fee];
    destruct (bool_decide (type_of (pair_fee self) ≠ TList)); cbn; auto.
Qed.

Lemma wrapped_fees_are_lists self :
  type_of (lp_fee (wrapped_fees self)) = TList
  /\ type_of (pair_fee (wrapped_fees self)) = TList.
Proof.
  unfold wrapped_fees.
  destruct (bool_decide (type_of (lp_fee self) ≠ TList)) eqn:E1;
    cbn [pair_fee set_lp_fee];
    destruct (bool_decide (type_of (pair_fee self) ≠ TList)) eqn:E2; cbn;
    repeat match goal with
           | H : bool_decide _ = false |- _ =>
               apply bool_decide_eq_false in H; apply dec_stable in H
           end; auto.
Qed.

(** What a successful [__post_init__] has established. *)
Lemma post_init_inv self tp :
  post_init self = Ok tp ->
  tp = wrapped_fees self
  /\ type_of (price self) = TFloat
  /\ type_of (mid_price self) = TFloat
  /\ side_consistent self = true.
Proof.
  unfold post_init. intros H.
  apply bind_ok in H as ([] & Hp & H). apply assert_ok, bool_decide_eq_true in Hp.
  apply bind_ok in H as ([] & Hm & H). apply assert_ok, bool_decide_eq_true in Hm.
  cbv zeta in H.
  apply bind_ok in H as ([] & _ & H).
  apply bind_ok in H as ([] & _ & H).
  apply bind_ok in H as ([] & _ & H).
  apply bind_ok in H as ([] & Hs & H).
  apply bind_ok in H as ([] & _ & H).
  injection H as <-.
  split; [reflexivity |]. split; [exact Hp |]. split; [exact Hm |].
  fold (wrapped_fees self) in Hs.
  destruct (wrapped_fees_fields self) as (Ep & Em & Es & _).
  rewrite Ep, Em, Es in Hs.
  unfold side_consistent.
  destruct (side self) as [[] |]; cbn in Hs; [| | reflexivity].
  - apply bind_ok in Hs as ([] & Hs & _). now apply assert_ok in Hs.
  - now apply assert_ok in Hs.
Qed.

(** A side that the prices contradict makes [__post_init__] raise. *)
Lemma post_init_bad_side self :
  side_consistent self = false -> raises (post_init self).
Proof.
  intros Hbad. destruct (post_init self) as [tp |] eqn:E; [| exact I].
  apply post_init_inv in E as (_ & _ & _ & Hok). congruence.
Qed.

End TradePricingFacts.

(** ** 1delta live pricing *)

Section OneDeltaFacts.
Context {Decimal : Type}.
Variable w : OneDelta.World Decimal.

Import OneDelta.

Lemma traced_bind_ok {A B} (m : traced A) (f : A -> traced B) (b : B) :
  outcome (m ≫= f) = Ok b -> exists a, outcome m = Ok a /\ outcome (f a) = Ok b.
Proof.
  unfold mbind, traced_bind. destruct (outcome m) as [a | e]; cbn; intros H.
  - exists a. split; [reflexivity | exact H].
  - discriminate.
Qed.



Lemma reraise_as_ok {A} (e : exn) (m : traced A) (a : A) :
  outcome (reraise_as e m) = Ok a -> outcome m = Ok a.
Proof. unfold reraise_as. destruct (outcome m) eqn:E; cbn; congruence. Qed.


(** The fees of the pools on the route, first pool first, and the combined
    fee fraction as the pricing code writes it. *)
Definition route_fees (target : TradingPairIdentifier)
    (intermediate : option TradingPairIdentifier) : list float :=
  match intermediate with
  | Some ip => [fee ip; fee target]
  | None => [fee target]
  end.

Definition total_fee_pct (target : TradingPairIdentifier)
    (intermediate : option TradingPairIdentifier) : float :=
  match intermediate with
  | Some ip => (1 - (1 - fee ip) * (1 - fee target))%float
  | None => (1 - (1 - fee target))%float
  end.

Definition route_path (target : TradingPairIdentifier)
    (intermediate : option TradingPairIdentifier) : list TradingPairIdentifier :=
  match intermediate with
  | Some ip => [ip; target]
  | None => [target]
  end.

(** The block that the direct-route quotes are read at. *)
Definition pinned_block : Z :=
  Z.max 1 (eth_block_number w - get_block_tip_latency w).

(** *** The constructor call *)

(** The exception of the call that ends both quotes. *)
Definition unexpected_keyword : exn :=
  TypeError "TradePricing.__init__() got an unexpected keyword argument 'read_at'".

Lemma construct_raises (a : QuoteArguments Decimal) :
  construct a = Raise unexpected_keyword.
Proof. reflexivity. Qed.

(** A quote makes the calls that the computation of its arguments makes,
    and raises what that computation raises, or else the [TypeError] of
    the constructor call. *)
Lemma get_sell_price_run ts pair quantity :
  get_sell_price w ts pair quantity
  = Traced (calls (sell_price_arguments w ts pair quantity))
      (match outcome (sell_price_arguments w ts pair quantity) with
       | Ok _ => Raise unexpected_keyword
       | Raise e => Raise e
       end).
Proof.
  unfold get_sell_price, mbind, traced_bind.
  destruct (outcome (sell_price_arguments w ts pair quantity)); cbn;
    [rewrite app_nil_r |]; reflexivity.
Qed.

Lemma get_buy_price_run ts pair reserve :
  get_buy_price w ts pair reserve
  = Traced (calls (buy_price_arguments w ts pair reserve))
      (match outcome (buy_price_arguments w ts pair reserve) with
       | Ok _ => Raise unexpected_keyword
       | Raise e => Raise e
       end).
Proof.
  unfold get_buy_price, mbind, traced_bind.
  destruct (outcome (buy_price_arguments w ts pair reserve)); cbn;
    [rewrite app_nil_r |]; reflexivity.
Qed.

Lemma get_sell_price_never_returns ts pair quantity tp :
  outcome (get_sell_price w ts pair quantity) = Ok tp -> False.
Proof.
  rewrite get_sell_price_run. cbn.
  destruct (outcome (sell_price_arguments w ts pair quantity)); discriminate.
Qed.

Lemma get_buy_price_never_returns ts pair reserve tp :
  outcome (get_buy_price w ts pair reserve) = Ok tp -> False.
Proof.
  rewrite get_buy_price_run. cbn.
  destruct (outcome (buy_price_arguments w ts pair reserve)); discriminate.
Qed.

Lemma get_sell_price_raise ts pair quantity e :
  outcome (sell_price_arguments w ts pair quantity) = Raise e ->
  outcome (get_sell_price w ts pair quantity) = Raise e.
Proof. intros H. rewrite get_sell_price_run. cbn. rewrite H. reflexivity. Qed.

Lemma get_buy_price_raise ts pair reserve e :
  outcome (buy_price_arguments w ts pair reserve) = Raise e ->
  outcome (get_buy_price w ts pair reserve) = Raise e.
Proof. intros H. rewrite get_buy_price_run. cbn. rewrite H. reflexivity. Qed.

(** *** The sell quote *)

(** On a route through an intermediary pair the sell quote stops at the
    read of [block_number], before any quoting call. *)
Lemma sell_price_arguments_three_leg ts pair quantity target ip :
  route_pair w pair = Ok (target, Some ip) ->
  raises (outcome (sell_price_arguments w ts pair quantity))
  /\ calls (sell_price_arguments w ts pair quantity) = [].
Proof.
  intros Hroute. unfold sell_price_arguments.
  destruct (is_spot pair); cbn; [| split; [exact I | reflexivity]].
  rewrite Hroute; cbn.
  destruct (route_tokens w target (Some ip)) as [[base_addr quote_addr] mid_addr]; cbn.
  destruct (py_int (fee target * 1000000)); cbn; [| split; [exact I | reflexivity]].
  destruct (py_int (fee ip * 1000000)); cbn; split; try exact I; reflexivity.
Qed.

Lemma get_sell_price_three_leg ts pair quantity target ip :
  route_pair w pair = Ok (target, Some ip) ->
  raises (outcome (get_sell_price w ts pair quantity))
  /\ calls (get_sell_price w ts pair quantity) = [].
Proof.
  intros Hroute.
  destruct (sell_price_arguments_three_leg ts pair quantity target ip Hroute)
    as [Hr Hc].
  rewrite get_sell_price_run. cbn. split; [| exact Hc].
  destruct (outcome (sell_price_arguments w ts pair quantity)); exact I.
Qed.

(** What the sell quote has computed when it reaches the constructor call. *)
Lemma sell_price_arguments_inv ts pair amount0 a :
  outcome (sell_price_arguments w ts pair amount0) = Ok a ->
  exists target req raw ratio m,
    let amount := default (very_small_amount w) amount0 in
    let received := convert_to_decimal w (quote target) raw in
    is_spot pair = true
    /\ route_pair w pair = Ok (target, None)
    /\ calls (sell_price_arguments w ts pair amount0) = [SellQuote req]
    /\ estimate_sell_received_amount w req = Ok raw
    /\ OneDelta.quantity req = convert_to_raw_amount w (base target) amount
    /\ block_identifier req = Some pinned_block
    /\ decimal_div w received amount = Ok ratio
    /\ get_onchain_price w (pool_address target) (Some pinned_block)
         (has_reverse_token_order target) = Ok m
    /\ py_le (decimal_to_float w ratio) (decimal_to_float w m) = true
    /\ a = {| price_arg := decimal_to_float w ratio;
              mid_price_arg := decimal_to_float w m;
              lp_fee_arg := [(decimal_to_float w amount
                              * total_fee_pct target None)%float];
              pair_fee_arg := route_fees target None;
              market_feed_delay_arg := None;
              side_arg := false;
              path_arg := route_path target None;
              read_at_arg := utcnow w;
              block_number_arg := Some pinned_block;
              token_in_arg := amount;
              token_out_arg := received |}.
Proof.
  intros H.
  destruct (route_pair w pair) as [[target [ip |]] | e] eqn:Hroute.
  - destruct (sell_price_arguments_three_leg ts pair amount0 target ip Hroute)
      as [Hr _].
    rewrite H in Hr. destruct Hr.
  - unfold sell_price_arguments in *.
    destruct (is_spot pair) eqn:Hspot; [| discriminate H].
    cbn in H |- *. rewrite Hroute in H |- *. cbn in H |- *.
    destruct (route_tokens w target None) as [[base_addr quote_addr] mid_addr].
    destruct (py_int (fee target * 1000000)) as [tfee |]; [| discriminate H].
    cbn in H |- *.
    match type of H with
    | context [call_sell w ?r] => set (req := r) in *
    end.
    unfold reraise_as, call_sell in H |- *. cbn in H |- *.
    destruct (estimate_sell_received_amount w req) as [raw |] eqn:Hraw;
      [| discriminate H].
    cbn in H |- *.
    destruct (decimal_div w (convert_to_decimal w (quote target) raw)
                (default (very_small_amount w) amount0)) as [ratio |] eqn:Hdiv.
    2:{ destruct amount0; cbn in Hdiv, H; rewrite Hdiv in H; cbn in H;
        discriminate H. }
    assert (Hdiv' := Hdiv).
    destruct amount0; cbn in Hdiv, H |- *; rewrite Hdiv in H |- *; cbn in H |- *;
      rewrite Hdiv in H |- *; cbn in H |- *.
    all: fold pinned_block in H |- *.
    all: destruct (get_onchain_price w (pool_address target) (Some pinned_block)
                (has_reverse_token_order target)) as [m |] eqn:Hm;
      [| cbn in H; discriminate H].
    all: cbn in H |- *.
    all: match type of H with
         | context [assert ?b ?m] => destruct b eqn:Hle; [| discriminate H]
         end.
    all: cbn in H |- *.
    all: injection H as <-.
    all: exists target, req, raw, ratio, m.
    all: repeat split; try reflexivity; try eassumption; eauto.
  - exfalso. unfold sell_price_arguments in H.
    destruct (is_spot pair); [| discriminate H].
    cbn in H. rewrite Hroute in H. discriminate H.
Qed.

(** *** The buy quote *)

(** What the buy quote has computed when it reaches the constructor call. *)
Lemma buy_price_arguments_inv ts pair reserve a :
  outcome (buy_price_arguments w ts pair reserve) = Ok a ->
  exists target intermediate req raw ratio mid,
    let amount := default (very_small_amount w) reserve in
    let received := convert_to_decimal w (base target) raw in
    is_spot pair = true
    /\ route_pair w pair = Ok (target, intermediate)
    /\ calls (buy_price_arguments w ts pair reserve) = [BuyQuote req]
    /\ estimate_buy_received_amount w req = Ok raw
    /\ OneDelta.quantity req = convert_to_raw_amount w
         (quote (default target intermediate)) amount
    /\ block_identifier req
       = match intermediate with Some _ => None | None => Some pinned_block end
    /\ is_Some (get_pair_fee w ts pair)
    /\ decimal_div w amount received = Ok ratio
    /\ match intermediate with
       | Some ip =>
           exists f_ip f_t, get_pair_fee w ts ip = Some f_ip
             /\ get_pair_fee w ts target = Some f_t
             /\ mid = (decimal_to_float w ratio * (1 - f_ip) * (1 - f_t))%float
       | None =>
           exists m, get_onchain_price w (pool_address target) (Some pinned_block)
                       (has_reverse_token_order target) = Ok m
             /\ mid = decimal_to_float w m
       end
    /\ py_ge (decimal_to_float w ratio) mid = true
    /\ a = {| price_arg := decimal_to_float w ratio;
              mid_price_arg := mid;
              lp_fee_arg := [(decimal_to_float w amount
                              * total_fee_pct target intermediate)%float];
              pair_fee_arg := route_fees target intermediate;
              market_feed_delay_arg := Some 0;
              side_arg := true;
              path_arg := route_path target intermediate;
              read_at_arg := utcnow w;
              block_number_arg :=
                match intermediate with Some _ => None | None => Some pinned_block end;
              token_in_arg := amount;
              token_out_arg := received |}.
Proof.
  intros H. unfold buy_price_arguments in *.
  destruct (is_spot pair) eqn:Hspot; [| discriminate H].
  cbn in H |- *.
  destruct (route_pair w pair) as [[target intermediate] | e] eqn:Hroute;
    [| discriminate H].
  cbn in H |- *.
  destruct (route_tokens w target intermediate) as [[base_addr quote_addr] mid_addr].
  exists target, intermediate.
  destruct intermediate as [ip |]; cbn in H |- *.
  - destruct (check_supported_quote_token w ip) as [[] |]; [| discriminate H].
    cbn in H |- *.
    destruct (py_int (fee target * 1000000)) as [tfee |]; [| discriminate H].
    cbn in H |- *.
    destruct (py_int (fee ip * 1000000)) as [ifee |]; [| discriminate H].
    cbn in H |- *.
    match type of H with
    | context [estimate_buy_received_amount w ?r] => set (req := r) in *
    end.
    destruct (estimate_buy_received_amount w req) as [raw |] eqn:Hraw;
      [| discriminate H].
    cbn in H |- *.
    destruct (get_pair_fee w ts pair) as [pf |] eqn:Hpf; [| discriminate H].
    cbn in H |- *.
    destruct (decimal_div w (default (very_small_amount w) reserve)
                (convert_to_decimal w (base target) raw)) as [ratio |] eqn:Hdiv.
    2:{ destruct reserve; cbn in Hdiv; rewrite Hdiv in H; discriminate H. }
    assert (Hdiv' := Hdiv).
    destruct reserve; cbn in Hdiv; rewrite Hdiv in H |- *; cbn in H |- *.
    all: destruct (get_pair_fee w ts ip) as [f_ip |] eqn:Hfip; [| discriminate H].
    all: cbn in H |- *.
    all: destruct (get_pair_fee w ts target) as [f_t |] eqn:Hft; [| discriminate H].
    all: cbn in H |- *.
    all: match type of H with
         | context [assert ?b ?m] => destruct b eqn:Hge; [| discriminate H]
         end.
    all: cbn in H |- *.
    all: injection H as <-.
    all: exists req, raw, ratio; eexists.
    all: repeat split; try reflexivity; try eassumption; eauto.
  - destruct (check_supported_quote_token w pair) as [[] |]; [| discriminate H].
    cbn in H |- *.
    destruct (py_int (fee target * 1000000)) as [tfee |]; [| discriminate H].
    cbn in H |- *.
    match type of H with
    | context [estimate_buy_received_amount w ?r] => set (req := r) in *
    end.
    destruct (estimate_buy_received_amount w req) as [raw |] eqn:Hraw;
      [| discriminate H].
    cbn in H |- *.
    destruct (get_pair_fee w ts pair) as [pf |] eqn:Hpf; [| discriminate H].
    cbn in H |- *.
    destruct (decimal_div w (default (very_small_amount w) reserve)
                (convert_to_decimal w (base target) raw)) as [ratio |] eqn:Hdiv.
    2:{ destruct reserve; cbn in Hdiv; rewrite Hdiv in H; discriminate H. }
    assert (Hdiv' := Hdiv).
    destruct reserve; cbn in Hdiv; rewrite Hdiv in H |- *; cbn in H |- *.
    all: fold pinned_block in H |- *.
    all: destruct (get_onchain_price w (pool_address target) (Some pinned_block)
                (has_reverse_token_order target)) as [m |] eqn:Hm; [| discriminate H].
    all: cbn in H |- *.
    all: match type of H with
         | context [assert ?b ?m] => destruct b eqn:Hge; [| discriminate H]
         end.
    all: cbn in H |- *.
    all: injection H as <-.
    all: exists req, raw, ratio; eexists.
    all: repeat split; try reflexivity; try eassumption; eauto.
Qed.







End OneDeltaFacts.

(** ** Conversions from floats to integers *)

Section FloatFacts.

Lemma pos_pow2_Z (k : positive) : Zpos (2 ^ k) = 2 ^ Zpos k.
Proof. apply Pos2Z.inj_pow. Qed.

Lemma magnitude_nonneg_exponent (m : positive) (e : Z) :
  0 <= e -> magnitude m e = Z.shiftl (Zpos m) e.
Proof. destruct e; intros He; [reflexivity | reflexivity | lia]. Qed.

Lemma round_half_even_nonneg_exponent (m : positive) (e : Z) :
  0 <= e -> round_half_even m e = Z.shiftl (Zpos m) e.
Proof. destruct e; intros He; [reflexivity | reflexivity | lia]. Qed.



(** [round()] is within one half of the float it rounds. *)
Lemma py_round_nearest (x : float) (r : Z) (q : Q) :
  py_round x = Ok r -> float_value x = Some q ->
  (inject_Z r - (1 # 2) <= q)%Q /\ (q <= inject_Z r + (1 # 2))%Q.
Proof.
  unfold py_round, float_value.
  destruct (Prim2SF x) as [s | s | | s m e]; try discriminate.
  - intros [= <-] [= <-]. split; unfold Qle; cbn; lia.
  - intros [= <-] [= <-].
    assert (Hmain : forall d, 0 < d ->
              let qd := Z.pos m / d in
              let rd := Z.pos m mod d in
              let v := match Z.compare (2 * rd) d with
                       | Lt => qd
                       | Gt => qd + 1
                       | Eq => if Z.even qd then qd else qd + 1
                       end in
              2 * v * d - d <= 2 * Z.pos m <= 2 * v * d + d).
    { intros d Hd qd rd v.
      pose proof (Z.div_mod (Z.pos m) d ltac:(lia)) as Hdm.
      pose proof (Z.mod_pos_bound (Z.pos m) d Hd) as Hb.
      fold qd rd in Hdm, Hb. subst v.
      destruct (Z.compare_spec (2 * rd) d) as [E | E | E];
        [destruct (Z.even qd) |..]; nia. }
    destruct e as [| p | k].
    + destruct s; cbn; split; unfold Qle, Qminus, Qplus, Qopp, inject_Z;
        cbn [Qnum Qden]; lia.
    + destruct s; cbn [round_half_even]; split;
        unfold Qle, Qminus, Qplus, Qopp, inject_Z; cbn [Qnum Qden]; lia.
    + cbn [round_half_even].
      rewrite Z.shiftl_mul_pow2, Z.mul_1_l by lia.
      assert (Hd : 0 < 2 ^ Z.pos k) by (apply Z.pow_pos_nonneg; lia).
      specialize (Hmain (2 ^ Z.pos k) Hd). cbv zeta in Hmain.
      destruct s; split;
        unfold Qle, Qminus, Qplus, Qopp, inject_Z; cbn [Qnum Qden];
        rewrite ?pos_pow2_Z; nia.
Qed.


(** The conversions on a few floats, as CPython evaluates them. *)
Example py_int_truncates :
  py_int 2.75 = Ok 2 /\ py_int (-1.7) = Ok (-1) /\ py_int 0.999999 = Ok 0
  /\ py_int (0.0005 * 1000000) = Ok 500 /\ py_int (0.003 * 1000000) = Ok 3000.
Proof. repeat split; vm_compute; reflexivity. Qed.

Example py_round_ties_to_even :
  py_round 0.5 = Ok 0 /\ py_round 1.5 = Ok 2 /\ py_round 2.5 = Ok 2
  /\ py_round (-1.7) = Ok (-2) /\ py_round 248.99999999999997 = Ok 249.
Proof. repeat split; vm_compute; reflexivity. Qed.

Example float_value_of_three_quarters :
  exists q, float_value 0.75 = Some q /\ Qeq q (3 # 4).
Proof. eexists. split; [vm_compute; reflexivity | reflexivity]. Qed.

End FloatFacts.

(** ** A sample chain for the pricing model

    Two stablecoins with six decimals each, pools that trade them one to
    one before fees, and a third token that routes through an intermediary
    pair. Decimal amounts are small enough to be held exactly in floats. *)

Module Sample.

Import OneDelta.

Definition usdc : AssetIdentifier :=
  {| chain_id := 137; address := "0x2791bca1f2de4661ed88a30c99a7a9449aa84174";
     token_symbol := "USDC"; decimals := 6 |}.
Definition usdt : AssetIdentifier :=
  {| chain_id := 137; address := "0xc2132d05d31c914a87c6611c10748aeb04b58e8f";
     token_symbol := "USDT"; decimals := 6 |}.
Definition dai : AssetIdentifier :=
  {| chain_id := 137; address := "0x8f3cf7ad23cd3cadbd9735aff958023239c6a063";
     token_symbol := "DAI"; decimals := 6 |}.

(** USDT-USDC, the pool fee being the parameter. *)
Definition usdt_usdc (f : float) : TradingPairIdentifier :=
  {| base := usdt; quote := usdc;
     pool_address := "0xdac8a8e6dbf8c690ec6815e0ff03491b2770255d";
     internal_id := 1001; internal_exchange_id := 1000;
     exchange_address := "0x1f98431c8ad98523631ae4a59f267346ea31f984";
     fee := f; kind := spot_market_hold; reverse_token_order := false |}.

(** DAI-USDT, which is quoted through USDT-USDC. *)
Definition dai_usdt (f : float) : TradingPairIdentifier :=
  {| base := dai; quote := usdt;
     pool_address := "0x42f0530351471dab7ec968476d19bd36af9ec52d";
     internal_id := 1002; internal_exchange_id := 1000;
     exchange_address := "0x1f98431c8ad98523631ae4a59f267346ea31f984";
     fee := f; kind := spot_market_hold; reverse_token_order := false |}.

Definition to_raw (d : float) : Z :=
  match py_int (d * 1000000)%float with Ok z => z | Raise _ => 0 end.

Definition of_raw (raw : Z) : float :=
  (PrimFloat.of_uint63 (Uint63.of_Z raw) / 1000000)%float.

(** A pool pays out the amount paid in less the fee of each pool crossed. *)
Definition after_fees (req : QuoteRequest) : result Z :=
  let once := quantity req * (1000000 - target_pair_fee req) / 1000000 in
  match intermediate_pair_fee req with
  | Some f => Ok (once * (1000000 - f) / 1000000)
  | None => Ok once
  end.

Definition world : World float :=
  {| very_small_amount := 0.1%float;
     route_pair := fun p =>
       if Z.eqb (internal_id p) 1002
       then Ok (p, Some (usdt_usdc 0.0005%float)) else Ok (p, None);
     route_tokens := fun target intermediate =>
       match intermediate with
       | Some ip => (address (base target), address (quote ip),
                     Some (address (quote target)))
       | None => (address (base target), address (quote target), None)
       end;
     convert_to_raw_amount := fun _ d => to_raw d;
     convert_to_decimal := fun _ raw => of_raw raw;
     estimate_sell_received_amount := after_fees;
     estimate_buy_received_amount := after_fees;
     get_onchain_price := fun _ _ _ => Ok 1%float;
     eth_block_number := 50000000;
     get_block_tip_latency := 0;
     get_pair_fee := fun _ p => Some (fee p);
     check_supported_quote_token := fun _ => Ok tt;
     utcnow := 1700000000;
     decimal_div := py_div;
     decimal_to_float := fun d => d |}.

(** A buy quote given with scalar fee fields, the object its construction
    leaves, and a buy quote that is cheaper than the mid price. *)
Definition scalar_fees : TradePricing.t :=
  TradePricing.mk (PyFloat 1.01) (PyFloat 1) PyNone (PyFloat 0.003) PyNone
    (Some true) None.

Definition scalar_fees_built : TradePricing.t :=
  TradePricing.mk (PyFloat 1.01) (PyFloat 1) (PyList [PyNone])
    (PyList [PyFloat 0.003]) PyNone (Some true) None.

Definition cheap_buy : TradePricing.t :=
  TradePricing.mk (PyFloat 0.99) (PyFloat 1) PyNone (PyFloat 0.003) PyNone
    (Some true) None.

End Sample.

(** ** Claims on trade pricing and on the 1delta pricing model *)

Section PricingClaims.

Import TradePricing OneDelta.

(** C1. Pricing sanity. A [TradePricing] that was constructed with its side
    set has a clearing price at least the mid price for a buy and at most
    the mid price for a sell, and constructing one whose prices contradict
    its side raises instead of returning. The two quotes of the 1delta
    pricing model, when they return, are a sell resp. a buy that satisfy
    the same relation; and the prices that a quote hands to the constructor
    satisfy it already, the quote having asserted it. *)
Theorem pricing_sanity {Decimal : Type} (w : World Decimal)
    (self : TradePricing.t) (ts : Z) (pair : TradingPairIdentifier)
    (amount : option Decimal) :
  (forall tp, post_init self = Ok tp ->
     exists p m, price tp = PyFloat p /\ mid_price tp = PyFloat m
       /\ (side tp = Some true -> py_ge p m = true)
       /\ (side tp = Some false -> py_le p m = true))
  /\ (forall p m, price self = PyFloat p -> mid_price self = PyFloat m ->
        (side self = Some true /\ py_ge p m = false)
        \/ (side self = Some false /\ py_le p m = false) ->
        raises (post_init self))
  /\ (forall tp, outcome (get_sell_price w ts pair amount) = Ok tp ->
        exists p m, price tp = PyFloat p /\ mid_price tp = PyFloat m
          /\ side tp = Some false /\ py_le p m = true)
  /\ (forall tp, outcome (get_buy_price w ts pair amount) = Ok tp ->
        exists p m, price tp = PyFloat p /\ mid_price tp = PyFloat m
          /\ side tp = Some true /\ py_ge p m = true)
  /\ (forall a, outcome (sell_price_arguments w ts pair amount) = Ok a ->
        side_arg a = false /\ py_le (price_arg a) (mid_price_arg a) = true)
  /\ (forall a, outcome (buy_price_arguments w ts pair amount) = Ok a ->
        side_arg a = true /\ py_ge (price_arg a) (mid_price_arg a) = true).
Proof.
  split; [| split; [| split; [| split; [| split]]]].
  - intros tp H. apply post_init_inv in H as (-> & Hp & Hm & Hside).
    destruct (wrapped_fees_fields self) as (-> & -> & -> & _).
    destruct (price self) as [| | | p | | | | | | |] eqn:Ep; try discriminate.
    destruct (mid_price self) as [| | | m | | | | | | |] eqn:Em; try discriminate.
    exists p, m. unfold side_consistent in Hside. rewrite Ep, Em in Hside.
    repeat split; intros Hs; rewrite Hs in Hside; exact Hside.
  - intros p m Ep Em Hbad. apply post_init_bad_side.
    unfold side_consistent. rewrite Ep, Em.
    destruct Hbad as [[-> H] | [-> H]]; exact H.
  - intros tp H. destruct (get_sell_price_never_returns w ts pair amount tp H).
  - intros tp H. destruct (get_buy_price_never_returns w ts pair amount tp H).
  - intros a H. apply sell_price_arguments_inv in H
      as (target & req & raw & ratio & m & _ & _ & _ & _ & _ & _ & _ & _ & Hle & ->).
    split; [reflexivity | exact Hle].
  - intros a H. apply buy_price_arguments_inv in H
      as (target & ip & req & raw & ratio & mid & _ & _ & _ & _ & _ & _ & _ & _ & _
          & Hge & ->).
    split; [reflexivity | exact Hge].
Qed.

Lemma pricing_sanity_witness :
  post_init Sample.scalar_fees = Ok Sample.scalar_fees_built
  /\ (exists p m, price Sample.scalar_fees_built = PyFloat p
                  /\ mid_price Sample.scalar_fees_built = PyFloat m
                  /\ py_ge p m = true)
  /\ py_ge 0.99 1 = false
  /\ raises (post_init Sample.cheap_buy).
Proof.
  split; [reflexivity |]. split; [| split; [reflexivity |]].
  - destruct (pricing_sanity Sample.world Sample.scalar_fees 0
                (Sample.usdt_usdc 0.0005) None) as (H & _).
    destruct (H Sample.scalar_fees_built eq_refl) as (p & m & Hp & Hm & Hbuy & _).
    exists p, m. split; [exact Hp |]. split; [exact Hm |]. apply Hbuy. reflexivity.
  - destruct (pricing_sanity Sample.world Sample.cheap_buy 0
                (Sample.usdt_usdc 0.0005) None) as (_ & H & _).
    apply (H 0.99%float 1%float eq_refl eq_refl). left. split; reflexivity.
Defined.

(** C10. After a successful construction the two fee fields are lists: a
    field given as a list is kept, any other value (also [None]) is
    replaced by the one-element list holding it; and the construction has
    succeeded only with [price] and [mid_price] of type [float]. *)
Theorem post_init_fee_fields_are_lists (self tp : TradePricing.t) :
  post_init self = Ok tp ->
  type_of (lp_fee tp) = TList /\ type_of (pair_fee tp) = TList
  /\ lp_fee tp = (if bool_decide (type_of (lp_fee self) = TList)
                  then lp_fee self else PyList [lp_fee self])
  /\ pair_fee tp = (if bool_decide (type_of (pair_fee self) = TList)
                    then pair_fee self else PyList [pair_fee self])
  /\ type_of (price tp) = TFloat /\ type_of (mid_price tp) = TFloat
  /\ price tp = price self /\ mid_price tp = mid_price self.
Proof.
  intros H. apply post_init_inv in H as (-> & Hp & Hm & _).
  destruct (wrapped_fees_are_lists self) as (Hl & Hpf).
  destruct (wrapped_fees_fields self) as (Ep & Em & _).
  rewrite Ep, Em. repeat split; try assumption.
  - unfold wrapped_fees.
    destruct (decide (type_of (lp_fee self) = TList)) as [E | E].
    + rewrite (bool_decide_eq_false_2 _ (fun H => H E)), (bool_decide_eq_true_2 _ E).
      destruct (bool_decide (type_of (pair_fee self) ≠ TList)); reflexivity.
    + rewrite (bool_decide_eq_true_2 _ E), (bool_decide_eq_false_2 _ E).
      cbn [pair_fee set_lp_fee].
      destruct (bool_decide (type_of (pair_fee self) ≠ TList)); reflexivity.
  - unfold wrapped_fees.
    destruct (bool_decide (type_of (lp_fee self) ≠ TList)); cbn [pair_fee set_lp_fee];
      (destruct (decide (type_of (pair_fee self) = TList)) as [E | E];
       [rewrite (bool_decide_eq_false_2 _ (fun H => H E)), (bool_decide_eq_true_2 _ E)
       |rewrite (bool_decide_eq_true_2 _ E), (bool_decide_eq_false_2 _ E)];
       reflexivity).
Qed.

Lemma post_init_fee_fields_are_lists_witness :
  post_init Sample.scalar_fees = Ok Sample.scalar_fees_built
  /\ type_of (lp_fee Sample.scalar_fees_built) = TList
  /\ type_of (pair_fee Sample.scalar_fees_built) = TList
  /\ lp_fee Sample.scalar_fees_built = PyList [PyNone]
  /\ pair_fee Sample.scalar_fees_built = PyList [PyFloat 0.003].
Proof.
  split; [reflexivity |].
  destruct (post_init_fee_fields_are_lists Sample.scalar_fees
              Sample.scalar_fees_built eq_refl) as (Hl & Hp & El & Ep & _).
  repeat split; assumption.
Defined.

End PricingClaims.

Section FeeClaims.

Import TradePricing OneDelta.





(** C5, as the code has it. A quote that reaches its [return] statement
    has computed the LP fee [float(amount) * total] and the fee list of its
    route, where [total] is the float expression [1 - (1 - f0) * (1 - f1)]
    on a route through an intermediary pair and the float expression
    [1 - (1 - f)] on a direct route; these are the [lp_fee] and [pair_fee]
    arguments of the constructor call that ends the quote. *)
Theorem combined_fee_fraction {Decimal : Type} (w : World Decimal) (ts : Z)
    (pair : TradingPairIdentifier) (amount : option Decimal)
    (a : QuoteArguments Decimal) :
  outcome (buy_price_arguments w ts pair amount) = Ok a
  \/ outcome (sell_price_arguments w ts pair amount) = Ok a ->
  exists target intermediate,
    route_pair w pair = Ok (target, intermediate)
    /\ pair_fee_arg a = route_fees target intermediate
    /\ lp_fee_arg a =
         [(decimal_to_float w (default (very_small_amount w) amount)
           * match intermediate with
             | Some ip => 1 - (1 - fee ip) * (1 - fee target)
             | None => 1 - (1 - fee target)
             end)%float].
Proof.
  intros [H | H].
  - apply buy_price_arguments_inv in H
      as (target & ip & req & raw & ratio & mid & _ & Hroute & _ & _ & _ & _ & _
          & _ & _ & _ & ->).
    exists target, ip. split; [exact Hroute |]. split; [reflexivity |].
    destruct ip; reflexivity.
  - apply sell_price_arguments_inv in H
      as (target & req & raw & ratio & m & _ & Hroute & _ & _ & _ & _ & _ & _ & _
          & ->).
    exists target, None. split; [exact Hroute |]. split; reflexivity.
Qed.

Lemma combined_fee_fraction_witness :
  is_ok (outcome (buy_price_arguments Sample.world 0 (Sample.dai_usdt 0.0005)
                    (Some 1%float))) = true
  /\ exists a target intermediate,
       outcome (buy_price_arguments Sample.world 0 (Sample.dai_usdt 0.0005)
                  (Some 1%float)) = Ok a
       /\ route_pair Sample.world (Sample.dai_usdt 0.0005) = Ok (target, intermediate)
       /\ pair_fee_arg a = route_fees target intermediate.
Proof.
  split; [reflexivity |].
  destruct (outcome (buy_price_arguments Sample.world 0 (Sample.dai_usdt 0.0005)
                       (Some 1%float))) as [a | e] eqn:E; [| discriminate E].
  destruct (combined_fee_fraction Sample.world 0 (Sample.dai_usdt 0.0005)
              (Some 1%float) a (or_introl E)) as (target & ip & Hr & Hp & _).
  exists a, target, ip. repeat split; assumption.
Defined.

(** C5 as written fails on the direct route: for a pool fee of 0.0005 the
    combined fee fraction that the model computes is not 0.0005, and the LP
    fee that the buy quote of one unit computes is not 0.0005 either. *)
Lemma single_hop_fee_is_not_exact :
  PrimFloat.eqb (total_fee_pct (Sample.usdt_usdc 0.0005) None) 0.0005 = false
  /\ PrimFloat.ltb (total_fee_pct (Sample.usdt_usdc 0.0005) None) 0.0005 = true
  /\ exists a x,
       outcome (buy_price_arguments Sample.world 0 (Sample.usdt_usdc 0.0005)
                  (Some 1%float)) = Ok a
       /\ lp_fee_arg a = [x]
       /\ PrimFloat.eqb x (1 * 0.0005) = false.
Proof.
  split; [reflexivity |]. split; [reflexivity |].
  eexists _, _. split; [vm_compute; reflexivity |].
  split; [reflexivity | reflexivity].
Qed.

(** C6. The sell quote on a route through an intermediary pair never
    returns: it raises before any quoting call, and once the pair is a spot
    pair with finite fees the exception is the [UnboundLocalError] of
    reading [block_number] before its assignment. *)
Theorem get_sell_price_three_leg_raises {Decimal : Type} (w : World Decimal)
    (ts : Z) (pair target ip : TradingPairIdentifier) (quantity : option Decimal) :
  route_pair w pair = Ok (target, Some ip) ->
  raises (outcome (get_sell_price w ts pair quantity))
  /\ calls (get_sell_price w ts pair quantity) = []
  /\ (is_spot pair = true ->
      is_ok (py_int (fee target * 1000000)) = true ->
      is_ok (py_int (fee ip * 1000000)) = true ->
      outcome (get_sell_price w ts pair quantity)
        = Raise (UnboundLocalError "block_number")).
Proof.
  intros Hroute.
  destruct (get_sell_price_three_leg w ts pair quantity target ip Hroute) as [Hr Hc].
  split; [exact Hr |]. split; [exact Hc |].
  intros Hspot Ht Hi. apply get_sell_price_raise. unfold sell_price_arguments.
  rewrite Hspot; cbn. rewrite Hroute; cbn.
  destruct (route_tokens w target (Some ip)) as [[base_addr quote_addr] mid_addr]; cbn.
  destruct (py_int (fee target * 1000000)); [cbn | discriminate Ht].
  destruct (py_int (fee ip * 1000000)); [cbn | discriminate Hi].
  reflexivity.
Qed.

Lemma get_sell_price_three_leg_raises_witness :
  route_pair Sample.world (Sample.dai_usdt 0.0005)
    = Ok (Sample.dai_usdt 0.0005, Some (Sample.usdt_usdc 0.0005))
  /\ outcome (get_sell_price Sample.world 0 (Sample.dai_usdt 0.0005) (Some 1%float))
     = Raise (UnboundLocalError "block_number").
Proof.
  split; [reflexivity |].
  destruct (get_sell_price_three_leg_raises Sample.world 0 (Sample.dai_usdt 0.0005)
              (Sample.dai_usdt 0.0005) (Sample.usdt_usdc 0.0005) (Some 1%float)
              eq_refl) as (_ & _ & H).
  apply H; reflexivity.
Defined.

End FeeClaims.

(** ** Strategy module validation *)

Section StrategyModuleFacts.

Import StrategyModule.

Definition with_reserve_currency (m : StrategyModuleInformation) (rc : pyval)
  : StrategyModuleInformation :=
  {| trading_strategy_engine_version := trading_strategy_engine_version m;
     trading_strategy_type := trading_strategy_type m;
     trading_strategy_cycle := trading_strategy_cycle m;
     trade_routing := trade_routing m;
     reserve_currency := rc;
     decide_trades := decide_trades m;
     create_trading_universe := create_trading_universe m |}.

(** A strategy module that defines everything but [reserve_currency]. *)
Definition module_without_reserve_currency : gmap string pyval :=
  list_to_map
    [("trading_strategy_engine_version", PyStr "0.1");
     ("trading_strategy_type", PyEnum "StrategyType" "managed_positions");
     ("trading_strategy_cycle", PyEnum "CycleDuration" "cycle_1d");
     ("trade_routing", PyEnum "TradeRouting" "user_supplied_routing_model");
     ("decide_trades", PyFunction "decide_trades");
     ("create_trading_universe", PyFunction "create_trading_universe")].

Lemma is_str_truthy (v : pyval) :
  is_str v "0.1" = true -> truthy v = true /\ type_of v = TStr.
Proof.
  destruct v; cbn; try discriminate. intros H.
  apply String.eqb_eq in H as ->. split; reflexivity.
Qed.

Lemma isinstance_enum_truthy (v : pyval) (cls : string) :
  isinstance_enum v cls = true -> truthy v = true /\ is_none v = false.
Proof. destruct v; cbn; try discriminate. intros _. split; reflexivity. Qed.

(** [validate] accepts exactly the modules whose six checked fields are
    well formed. *)
Lemma validate_ok_iff (m : StrategyModuleInformation) :
  validate m = Ok tt <->
  is_str (trading_strategy_engine_version m) "0.1" = true
  /\ isinstance_enum (trading_strategy_type m) "StrategyType" = true
  /\ isinstance_enum (trading_strategy_cycle m) "CycleDuration" = true
  /\ isinstance_enum (trade_routing m) "TradeRouting" = true
  /\ isinstance_callable (decide_trades m) = true
  /\ isinstance_callable (create_trading_universe m) = true.
Proof.
  unfold validate, invalid. split.
  - repeat match goal with
           | |- context [if negb ?b then _ else _] => destruct b eqn:?; cbn [negb]
           | |- context [if is_none ?v then _ else _] => destruct (is_none v) eqn:?
           end; try discriminate.
    intros _. repeat split; assumption.
  - intros (Hv & Ht & Hc & Hr & Hd & Hu).
    destruct (is_str_truthy _ Hv) as (-> & ->).
    destruct (isinstance_enum_truthy _ _ Ht) as (-> & _).
    destruct (isinstance_enum_truthy _ _ Hr) as (_ & ->).
    rewrite Hv, Ht, Hc, Hr, Hd, Hu. reflexivity.
Qed.

(** Whatever [validate] rejects, it rejects with [StrategyModuleNotValid]. *)
Lemma validate_error (m : StrategyModuleInformation) :
  validate m = Ok tt \/ exists msg, validate m = Raise (StrategyModuleNotValid msg).
Proof.
  unfold validate, invalid.
  repeat match goal with
         | |- context [if negb ?b then _ else _] => destruct b; cbn [negb]
         | |- context [if is_none ?v then _ else _] => destruct (is_none v)
         end; (left; reflexivity) || (right; eexists; reflexivity).
Qed.

(** C3. [validate] never looks at [reserve_currency]: a module that leaves
    it out, and is complete otherwise, passes validation although its
    reserve currency is no member of the enumeration. *)
Theorem validate_skips_reserve_currency :
  (forall m rc, validate (with_reserve_currency m rc) = validate m)
  /\ reserve_currency (parse_strategy_module module_without_reserve_currency) = PyNone
  /\ validate (parse_strategy_module module_without_reserve_currency) = Ok tt
  /\ well_typed (parse_strategy_module module_without_reserve_currency) = false.
Proof.
  split; [intros m rc; reflexivity |].
  split; [vm_compute; reflexivity |].
  split; vm_compute; reflexivity.
Qed.

End StrategyModuleFacts.

(** ** The persisted state and its document *)

Section StateFacts.

Import State.

Lemma key_roundtrip (z : Z) : Z_of_key (key_of_Z z) = Some z.
Proof.
  unfold Z_of_key, key_of_Z. rewrite NilEmpty.isi. cbn.
  f_equal. apply DecimalZ.of_to.
Qed.

Lemma mapM_map_Some {A B} (f : A -> option B) (g : B -> A) (l : list B) :
  (forall x, f (g x) = Some x) -> mapM f (map g l) = Some l.
Proof.
  intros Hfg. induction l as [| x l IH]; [reflexivity |].
  cbn. rewrite Hfg. cbn. rewrite IH. reflexivity.
Qed.

Lemma optional_int_roundtrip (o : option Z) :
  opt_of_json as_int (opt_to_json JInt o) = Some o.
Proof. destruct o; reflexivity. Qed.

Lemma decimal_roundtrip (d : Decimal) : decimal_of_json (decimal_to_json d) = Some d.
Proof. destruct d; reflexivity. Qed.

Lemma trade_roundtrip (tr : TradeExecution) : trade_of_json (trade_to_json tr) = Some tr.
Proof.
  destruct tr as [i p [qc qe] pr [s |] [e |] [f |]]; reflexivity.
Qed.

Lemma position_roundtrip (pos : TradingPosition) :
  position_of_json (position_to_json pos) = Some pos.
Proof.
  destruct pos as [i p o c ts]. unfold position_of_json, position_to_json.
  cbn -[mapM trade_to_json trade_of_json opt_of_json opt_to_json].
  rewrite optional_int_roundtrip.
  cbn -[mapM trade_to_json trade_of_json].
  rewrite (mapM_map_Some trade_of_json trade_to_json ts trade_roundtrip).
  reflexivity.
Qed.

Lemma reserve_roundtrip (r : Reserve) : reserve_of_json (reserve_to_json r) = Some r.
Proof.
  destruct r as [a [qc qe] p]. reflexivity.
Qed.

Lemma point_roundtrip (p : Z * float) : point_of_json (point_to_json p) = Some p.
Proof. destruct p; reflexivity. Qed.

Lemma series_roundtrip (l : list (Z * float)) :
  series_of_json (series_to_json l) = Some l.
Proof.
  unfold series_of_json, series_to_json. cbn -[mapM point_of_json point_to_json].
  apply (mapM_map_Some point_of_json point_to_json l point_roundtrip).
Qed.

Lemma int_map_roundtrip {A} (f : A -> json) (g : json -> option A) (m : gmap Z A) :
  (forall a, g (f a) = Some a) ->
  int_map_of_json g (int_map_to_json f m) = Some m.
Proof.
  intros Hfg. unfold int_map_of_json, int_map_to_json.
  cbn -[mapM key_of_Z Z_of_key].
  rewrite (mapM_map_Some _ (fun kv : Z * A => (key_of_Z kv.1, f kv.2))).
  - cbn. f_equal. apply list_to_map_to_list.
  - intros [k a]. cbn -[key_of_Z Z_of_key]. rewrite key_roundtrip. cbn.
    rewrite Hfg. reflexivity.
Qed.

Lemma str_map_roundtrip {A} (f : A -> json) (g : json -> option A)
    (m : gmap string A) :
  (forall a, g (f a) = Some a) ->
  str_map_of_json g (str_map_to_json f m) = Some m.
Proof.
  intros Hfg. unfold str_map_of_json, str_map_to_json. cbn -[mapM].
  rewrite (mapM_map_Some _ (fun kv : string * A => (kv.1, f kv.2))).
  - cbn. f_equal. apply list_to_map_to_list.
  - intros [k a]. cbn. rewrite Hfg. reflexivity.
Qed.

Lemma portfolio_roundtrip (p : Portfolio) :
  portfolio_of_json (portfolio_to_json p) = Some p.
Proof.
  destruct p as [np nt o c r]. unfold portfolio_of_json, portfolio_to_json.
  cbn -[int_map_of_json int_map_to_json str_map_of_json str_map_to_json].
  rewrite !(int_map_roundtrip position_to_json position_of_json _ position_roundtrip).
  cbn -[str_map_of_json str_map_to_json].
  rewrite (str_map_roundtrip reserve_to_json reserve_of_json _ reserve_roundtrip).
  reflexivity.
Qed.

(** Serialising a state and reading the document back loses nothing. *)
Lemma from_dict_to_dict (s : State.t) : from_dict (to_dict s) = Some s.
Proof.
  destruct s as [p [st] [v]]. unfold from_dict, to_dict.
  cbn -[portfolio_of_json portfolio_to_json series_of_json series_to_json
        str_map_of_json str_map_to_json].
  rewrite portfolio_roundtrip.
  cbn -[series_of_json series_to_json str_map_of_json str_map_to_json].
  rewrite series_roundtrip.
  cbn -[series_of_json series_to_json str_map_of_json str_map_to_json].
  rewrite (str_map_roundtrip series_to_json series_of_json _ series_roundtrip).
  reflexivity.
Qed.

(** C7. A newly constructed state has both id counters at 1 and no open or
    closed position, and the state read back from the [/state] document of
    a store that was synced with it is that state again, counters
    included. *)
Theorem fresh_state_invariants :
  let state := State.new (Some new_portfolio) in
  next_trade_id (portfolio state) = 1
  /\ next_position_id (portfolio state) = 1
  /\ open_positions (portfolio state) = ∅
  /\ closed_positions (portfolio state) = ∅
  /\ State.new None = state
  /\ (get_state (sync state)).1 = 200
  /\ from_dict (get_state (sync state)).2 = Some state
  /\ (next_trade_id <$> (portfolio <$> from_dict (get_state (sync state)).2)) = Some 1
  /\ (next_position_id <$> (portfolio <$> from_dict (get_state (sync state)).2)) = Some 1.
Proof.
  intros state.
  assert (Hback : from_dict (get_state (sync state)).2 = Some state)
    by (cbn [get_state sync document snd]; apply from_dict_to_dict).
  repeat split; try reflexivity; rewrite ?Hback; reflexivity.
Qed.

End StateFacts.

(** ** Summary statistics *)

Section SummaryFacts.

Import State Summary.

Variable get_total_equity : Portfolio -> float.
Variable calculate_naive_profitability : series -> Z -> option float * Z.
Variable utcnow : Z.

(** C8. On a state none of whose trades has executed,
    [calculate_summary_statistics] returns the summary that carries the
    total equity as [current_value] and nothing else. *)
Theorem summary_without_executed_trades (state : State.t) (time_window : Z)
    (now_ : option Z) :
  (forall tr, tr ∈ get_all_trades (portfolio state) -> executed_at tr = None) ->
  calculate_summary_statistics get_total_equity calculate_naive_profitability
    utcnow state time_window now_
  = Ok {| first_trade_at := None; last_trade_at := None; enough_data := None;
          current_value := Some (get_total_equity (portfolio state));
          profitability_90_days := None; performance_chart_90_days := None |}.
Proof.
  intros Hnone. unfold calculate_summary_statistics, get_first_and_last_executed_trade.
  assert (Hfilter : filter (fun tr => is_executed tr = true)
                      (get_all_trades (portfolio state)) = []).
  { induction (get_all_trades (portfolio state)) as [| tr l IH]; [reflexivity |].
    rewrite filter_cons.
    assert (Htr : executed_at tr = None) by (apply Hnone; left).
    destruct (decide (is_executed tr = true)) as [E | E].
    - unfold is_executed in E. rewrite Htr in E.
      apply bool_decide_eq_true in E. destruct E as [? E]. discriminate E.
    - apply IH. intros tr' Hin. apply Hnone. right. exact Hin. }
  rewrite Hfilter. reflexivity.
Qed.

End SummaryFacts.

(** A state with one open position whose only trade is planned and has not
    executed, and 10 000 units of reserve. *)
Module SampleState.

Import State.

Definition planned_trade : TradeExecution :=
  {| trade_id := 1; trade_position_id := 1;
     planned_quantity := {| coefficient := 100; exponent := 0 |};
     planned_price := 1%float;
     started_at := Some 1700000000; executed_at := None; failed_at := None |}.

Definition position : TradingPosition :=
  {| position_id := 1; pair_internal_id := 1001; opened_at := 1700000000;
     closed_at := None; trades := [planned_trade] |}.

Definition reserve : Reserve :=
  {| reserve_address := "0x2791bca1f2de4661ed88a30c99a7a9449aa84174";
     reserve_quantity := {| coefficient := 10000; exponent := 0 |};
     reserve_token_price := 1%float |}.

Definition state : State.t :=
  State.new (Some {| next_position_id := 2; next_trade_id := 2;
                     open_positions := {[ 1 := position ]};
                     closed_positions := ∅;
                     reserves := {[ reserve_address reserve := reserve ]} |}).

(** The value of the reserves, each quantity having exponent zero here. *)
Definition total_equity (p : Portfolio) : float :=
  map_fold (fun _ r acc =>
              (acc + reserve_token_price r
                     * PrimFloat.of_uint63 (Uint63.of_Z (coefficient (reserve_quantity r))))%float)
    0%float (reserves p).

Definition no_profitability (s : Summary.series) (window : Z) : option float * Z :=
  (None, window).

End SampleState.

Lemma summary_without_executed_trades_witness :
  State.get_all_trades (State.portfolio SampleState.state) = [SampleState.planned_trade]
  /\ Summary.calculate_summary_statistics SampleState.total_equity
       SampleState.no_profitability 1700003600 SampleState.state 7776000 None
     = Ok {| Summary.first_trade_at := None; Summary.last_trade_at := None;
             Summary.enough_data := None;
             Summary.current_value := Some 10000%float;
             Summary.profitability_90_days := None;
             Summary.performance_chart_90_days := None |}.
Proof.
  assert (Htrades : State.get_all_trades (State.portfolio SampleState.state)
                    = [SampleState.planned_trade]) by (vm_compute; reflexivity).
  split; [exact Htrades |].
  rewrite (summary_without_executed_trades SampleState.total_equity
             SampleState.no_profitability 1700003600 SampleState.state 7776000 None).
  - vm_compute. reflexivity.
  - intros tr Hin. rewrite Htrades in Hin.
    apply list_elem_of_singleton in Hin as ->. reflexivity.
Defined.

(** ** Approvals of the routing state *)

Section RoutingFacts.

Import Routing.

Variable router : string.
Variable swap_output : list string -> Z -> Z.

#[local] Abbreviation trade := (Routing.trade router).
#[local] Abbreviation apply_tx := (Routing.apply_tx swap_output).
#[local] Abbreviation broadcast := (Routing.broadcast swap_output).
#[local] Abbreviation trip := (Routing.trip router swap_output).

(** Whether a trade paying [token] has to send an approval first. *)
Definition needs_approval (c : Chain) (st : RoutingState) (token : string) : bool :=
  negb (bool_decide ((token, router) ∈ approved_routes st))
  && negb (Z.ltb 0 (allowance c token router)).

(** The allowance a swap finds once the approval, if any, has landed. *)
Definition allowance_after (c : Chain) (st : RoutingState) (token : string) : Z :=
  if needs_approval c st token then MAX_UINT256 else allowance c token router.

Definition remember (st : RoutingState) (token : string) : RoutingState :=
  {| approved_routes := {[ (token, router) ]} ∪ approved_routes st |}.

Lemma remember_cached (st : RoutingState) (token : string) :
  (token, router) ∈ approved_routes st -> remember st token = st.
Proof.
  intros Hin. destruct st as [s]. unfold remember. cbn in *. f_equal.
  apply leibniz_equiv. set_solver.
Qed.

Lemma trade_ok (c : Chain) (st : RoutingState) (token : string)
    (rest : list string) (amount : Z) :
  amount <= balance_of c token ->
  trade c st (token :: rest) amount true
  = Ok (remember st token,
        ((if needs_approval c st token
          then [Approve token router MAX_UINT256] else [])
         ++ [Swap router (token :: rest) amount])%list).
Proof.
  intros Hbal. unfold Routing.trade.
  replace (Z.ltb (balance_of c token) amount) with false
    by (symmetry; apply Z.ltb_ge; lia).
  cbn [andb]. unfold ensure_token_approved, needs_approval.
  destruct (bool_decide ((token, router) ∈ approved_routes st)) eqn:Hc; cbn [negb andb].
  - apply bool_decide_eq_true in Hc. rewrite (remember_cached st token Hc). reflexivity.
  - destruct (Z.ltb 0 (allowance c token router)); reflexivity.
Qed.

Lemma apply_approve (c : Chain) (token spender : string) (amount : Z) :
  exists c', apply_tx c (Approve token spender amount) = Some c'
    /\ (forall t, balance_of c' t = balance_of c t)
    /\ allowance c' token spender = amount
    /\ (forall t s, (t, s) <> (token, spender) -> allowance c' t s = allowance c t s).
Proof.
  eexists. split; [reflexivity |]. split; [reflexivity |]. split.
  - unfold allowance. cbn. rewrite lookup_insert_eq. reflexivity.
  - intros t s Hne. unfold allowance. cbn.
    rewrite lookup_insert_ne by congruence. reflexivity.
Qed.

Lemma apply_swap (c : Chain) (token_in token_out : string) (middle : list string)
    (amount : Z) :
  token_in <> token_out ->
  amount <= balance_of c token_in ->
  amount <= allowance c token_in router ->
  let path := (token_in :: middle ++ [token_out])%list in
  exists c', apply_tx c (Swap router path amount) = Some c'
    /\ balance_of c' token_in = balance_of c token_in - amount
    /\ balance_of c' token_out = balance_of c token_out + swap_output path amount
    /\ (forall t, t <> token_in -> t <> token_out -> balance_of c' t = balance_of c t)
    /\ allowance c' token_in router = allowance c token_in router - amount
    /\ (forall t s, (t, s) <> (token_in, router) -> allowance c' t s = allowance c t s).
Proof.
  intros Hne Hbal Hall path.
  assert (Hlast : last path = Some token_out).
  { unfold path. rewrite app_comm_cons. apply last_snoc. }
  subst path. unfold Routing.apply_tx. cbv beta iota. rewrite Hlast.
  replace (Z.ltb (balance_of c token_in) amount) with false
    by (symmetry; apply Z.ltb_ge; lia).
  replace (Z.ltb (allowance c token_in router) amount) with false
    by (symmetry; apply Z.ltb_ge; lia).
  cbn [orb]. eexists. split; [reflexivity |].
  unfold balance_of, allowance; cbn [balances allowances].
  repeat split.
  - rewrite lookup_insert_ne by congruence. rewrite lookup_insert_eq. reflexivity.
  - rewrite lookup_insert_eq. cbn. rewrite lookup_insert_ne by congruence. reflexivity.
  - intros t H1 H2. rewrite !lookup_insert_ne by congruence. reflexivity.
  - rewrite lookup_insert_eq. reflexivity.
  - intros t s H. rewrite lookup_insert_ne by congruence. reflexivity.
Qed.

(** A trade and its broadcast: the transactions sent and what they leave
    on the chain. *)
Lemma trade_and_broadcast (c : Chain) (st : RoutingState)
    (token_in token_out : string) (middle : list string) (amount : Z) :
  token_in <> token_out ->
  amount <= balance_of c token_in ->
  amount <= allowance_after c st token_in ->
  let path := (token_in :: middle ++ [token_out])%list in
  exists txs c',
    trade c st path amount true = Ok (remember st token_in, txs)
    /\ length txs = (if needs_approval c st token_in then 2 else 1)%nat
    /\ broadcast c txs = Ok c'
    /\ balance_of c' token_in = balance_of c token_in - amount
    /\ balance_of c' token_out = balance_of c token_out + swap_output path amount
    /\ allowance c' token_in router = allowance_after c st token_in - amount
    /\ (forall t, t <> token_in -> allowance c' t router = allowance c t router).
Proof.
  intros Hne Hbal Hall path.
  pose proof (trade_ok c st token_in (middle ++ [token_out]) amount Hbal) as Htrade.
  fold path in Htrade. unfold allowance_after in *.
  destruct (needs_approval c st token_in) eqn:Hneed.
  - destruct (apply_approve c token_in router MAX_UINT256)
      as (c1 & Ha & Hb1 & Hal1 & Hother1).
    destruct (apply_swap c1 token_in token_out middle amount Hne)
      as (c2 & Hs & Hbi & Hbo & _ & Hal2 & Hother2).
    { rewrite Hb1. exact Hbal. }
    { rewrite Hal1. exact Hall. }
    exists [Approve token_in router MAX_UINT256; Swap router path amount], c2.
    split; [exact Htrade |]. split; [reflexivity |]. split.
    { cbn [Routing.broadcast]. rewrite Ha. fold path in Hs. rewrite Hs. reflexivity. }
    rewrite Hbi, Hbo, Hal2, Hal1, !Hb1. repeat split.
    intros t Ht. rewrite Hother2, Hother1 by congruence. reflexivity.
  - destruct (apply_swap c token_in token_out middle amount Hne Hbal Hall)
      as (c2 & Hs & Hbi & Hbo & _ & Hal2 & Hother2).
    exists [Swap router path amount], c2.
    split; [exact Htrade |]. split; [reflexivity |]. split.
    { cbn [Routing.broadcast]. fold path in Hs. rewrite Hs. reflexivity. }
    rewrite Hbi, Hbo, Hal2. repeat split.
    intros t Ht. rewrite Hother2 by congruence. reflexivity.
Qed.

Lemma rev_path (a b : string) (middle : list string) :
  rev (a :: middle ++ [b]) = (b :: rev middle ++ [a])%list.
Proof. cbn [rev]. rewrite rev_app_distr. reflexivity. Qed.

Lemma needs_approval_remember (c c' : Chain) (st : RoutingState) (t t' : string) :
  t <> t' -> allowance c' t router = allowance c t router ->
  needs_approval c' (remember st t') t = needs_approval c st t.
Proof.
  intros Hne Hal. unfold needs_approval, remember. cbn. rewrite Hal.
  f_equal. f_equal. apply bool_decide_ext. set_solver.
Qed.

(** The round trip: what it sends and what it leaves behind. *)
Lemma trip_ok (c : Chain) (st : RoutingState) (reserve target : string)
    (middle : list string) (amount : Z) :
  let path := (reserve :: middle ++ [target])%list in
  let bought := balance_of c target + swap_output path amount in
  reserve <> target ->
  amount <= balance_of c reserve ->
  amount <= allowance_after c st reserve ->
  0 < bought ->
  bought <= allowance_after c st target ->
  exists c2 txs,
    trip c st path amount = Ok (c2, remember (remember st reserve) target, txs)
    /\ length txs = ((if needs_approval c st reserve then 2 else 1)
                     + (if needs_approval c st target then 2 else 1))%nat
    /\ balance_of c2 reserve
       = balance_of c reserve - amount + swap_output (rev path) bought
    /\ balance_of c2 target = 0
    /\ allowance c2 reserve router = allowance_after c st reserve - amount
    /\ allowance c2 target router = allowance_after c st target - bought.
Proof.
  intros path bought Hne Hbal Hall Hpos Hall2.
  destruct (trade_and_broadcast c st reserve target middle amount Hne Hbal Hall)
    as (txs1 & c1 & Ht1 & Hlen1 & Hb1 & Hres1 & Htar1 & Hal1 & Hoth1).
  fold path in Ht1, Htar1. fold bought in Htar1.
  assert (Hneed : needs_approval c1 (remember st reserve) target
                  = needs_approval c st target).
  { apply needs_approval_remember; [congruence |]. apply Hoth1. congruence. }
  assert (Hafter : allowance_after c1 (remember st reserve) target
                   = allowance_after c st target).
  { unfold allowance_after. rewrite Hneed, Hoth1 by congruence. reflexivity. }
  destruct (trade_and_broadcast c1 (remember st reserve) target reserve (rev middle)
              bought) as (txs2 & c2 & Ht2 & Hlen2 & Hb2 & Htar2 & Hres2 & Hal2 & Hoth2).
  { congruence. }
  { rewrite Htar1. lia. }
  { rewrite Hafter. exact Hall2. }
  exists c2, (txs1 ++ txs2)%list.
  assert (Hlast : last path = Some target).
  { unfold path. rewrite app_comm_cons. apply last_snoc. }
  split.
  { unfold Routing.trip. rewrite Ht1.
    cbn -[rev last Routing.trade Routing.broadcast balance_of default].
    rewrite Hb1.
    cbn -[rev last Routing.trade Routing.broadcast balance_of default].
    rewrite Hlast. change (default "" (Some target)) with target.
    rewrite Htar1.
    unfold Py.assert. replace (Z.ltb 0 bought) with true
      by (symmetry; apply Z.ltb_lt; exact Hpos).
    cbn -[rev last Routing.trade Routing.broadcast balance_of default].
    unfold path. rewrite rev_path. rewrite Ht2.
    cbn -[rev last Routing.trade Routing.broadcast balance_of default].
    rewrite Hb2. reflexivity. }
  split.
  { rewrite length_app, Hlen1, Hlen2, Hneed. reflexivity. }
  rewrite Hres2, Htar2, Hal2, Hres1, Htar1, Hafter.
  unfold path. rewrite rev_path.
  rewrite (Hoth2 reserve) by congruence. rewrite Hal1.
  repeat split; lia.
Qed.

(** C2, as the routing tests have it. On a chain where the wallet has
    granted the router no allowance yet, the first round trip sends four
    transactions and the second one two, with one long-lived routing state
    and with a routing state constructed anew for the second trip alike:
    the new state finds the allowance of the first trip on the chain. *)
Theorem round_trip_twice (c : Chain) (reserve target : string)
    (middle : list string) (amount : Z) :
  let path := (reserve :: middle ++ [target])%list in
  reserve <> target ->
  0 < amount -> 2 * amount <= balance_of c reserve -> 2 * amount <= MAX_UINT256 ->
  balance_of c target = 0 ->
  allowance c reserve router = 0 -> allowance c target router = 0 ->
  0 < swap_output path amount -> 2 * swap_output path amount <= MAX_UINT256 ->
  0 <= swap_output (rev path) (swap_output path amount) ->
  twice_same_state router swap_output c path amount = Ok (4%nat, 2%nat)
  /\ twice_fresh_state router swap_output c path amount = Ok (4%nat, 2%nat).
Proof.
  intros path Hne Hamt Hbal Hmax Htar Har Hat Hout Hout2 Hback.
  assert (Hfresh : forall ch t, needs_approval ch UniswapV3RoutingState t
                                = negb (Z.ltb 0 (allowance ch t router))).
  { intros ch t. unfold needs_approval. cbn.
    rewrite bool_decide_eq_false_2 by set_solver. reflexivity. }
  assert (Hn1 : needs_approval c UniswapV3RoutingState reserve = true)
    by (rewrite Hfresh, Har; reflexivity).
  assert (Hn2 : needs_approval c UniswapV3RoutingState target = true)
    by (rewrite Hfresh, Hat; reflexivity).
  assert (Ha1 : allowance_after c UniswapV3RoutingState reserve = MAX_UINT256)
    by (unfold allowance_after; rewrite Hn1; reflexivity).
  assert (Ha2 : allowance_after c UniswapV3RoutingState target = MAX_UINT256)
    by (unfold allowance_after; rewrite Hn2; reflexivity).
  destruct (trip_ok c UniswapV3RoutingState reserve target middle amount Hne)
    as (c1 & txs1 & Htrip1 & Hlen1 & Hres1 & Htar1 & Hal1 & Hal2);
    [lia | rewrite Ha1; lia | fold path; rewrite Htar; lia
    | fold path; rewrite Ha2, Htar; lia |].
  fold path in Htrip1, Hres1, Hal2.
  rewrite Hn1, Hn2 in Hlen1. rewrite Ha1 in Hal1. rewrite Ha2, Htar in Hal2.
  rewrite Z.add_0_l in Hal2. rewrite Htar, Z.add_0_l in Hres1.
  set (st1 := remember (remember UniswapV3RoutingState reserve) target) in *.
  assert (Hbal1 : amount <= balance_of c1 reserve) by (rewrite Hres1; lia).
  split.
  - assert (Hcached : forall t, t = reserve \/ t = target ->
                                needs_approval c1 st1 t = false).
    { intros t Ht. unfold needs_approval, st1, remember. cbn.
      rewrite bool_decide_eq_true_2 by (destruct Ht as [-> | ->]; set_solver).
      reflexivity. }
    assert (Hb1 : allowance_after c1 st1 reserve = MAX_UINT256 - amount)
      by (unfold allowance_after; rewrite Hcached by auto; exact Hal1).
    assert (Hb2 : allowance_after c1 st1 target
                  = MAX_UINT256 - swap_output path amount)
      by (unfold allowance_after; rewrite Hcached by auto; exact Hal2).
    destruct (trip_ok c1 st1 reserve target middle amount Hne Hbal1)
      as (c2 & txs2 & Htrip2 & Hlen2 & _);
      [rewrite Hb1; lia | fold path; rewrite Htar1; lia
      | fold path; rewrite Hb2, Htar1; lia |].
    fold path in Htrip2. rewrite !Hcached in Hlen2 by auto.
    unfold twice_same_state. rewrite Htrip1. cbn -[Routing.trip]. fold st1.
    rewrite Htrip2. cbn. rewrite Hlen1, Hlen2. reflexivity.
  - assert (Hc1 : needs_approval c1 UniswapV3RoutingState reserve = false).
    { rewrite Hfresh, Hal1.
      replace (Z.ltb 0 (MAX_UINT256 - amount)) with true
        by (symmetry; apply Z.ltb_lt; lia). reflexivity. }
    assert (Hc2 : needs_approval c1 UniswapV3RoutingState target = false).
    { rewrite Hfresh, Hal2.
      replace (Z.ltb 0 (MAX_UINT256 - swap_output path amount)) with true
        by (symmetry; apply Z.ltb_lt; lia). reflexivity. }
    assert (Hb1 : allowance_after c1 UniswapV3RoutingState reserve
                  = MAX_UINT256 - amount)
      by (unfold allowance_after; rewrite Hc1; exact Hal1).
    assert (Hb2 : allowance_after c1 UniswapV3RoutingState target
                  = MAX_UINT256 - swap_output path amount)
      by (unfold allowance_after; rewrite Hc2; exact Hal2).
    destruct (trip_ok c1 UniswapV3RoutingState reserve target middle amount Hne Hbal1)
      as (c2 & txs2 & Htrip2 & Hlen2 & _);
      [rewrite Hb1; lia | fold path; rewrite Htar1; lia
      | fold path; rewrite Hb2, Htar1; lia |].
    fold path in Htrip2. rewrite Hc1, Hc2 in Hlen2.
    unfold twice_fresh_state. rewrite Htrip1. cbn -[Routing.trip].
    rewrite Htrip2. cbn. rewrite Hlen1, Hlen2. reflexivity.
Qed.

End RoutingFacts.

(** The wallet of the routing tests: 10 000 USDC, no other token, and no
    allowance granted; a swap pays out the amount paid in less 0.05 %. *)
Module SampleChain.

Import Routing.

Definition usdc : string := "0x2791bca1f2de4661ed88a30c99a7a9449aa84174".
Definition wmatic : string := "0x0d500b1d8e8ef31e21c99d1db9a6444d3adf1270".
Definition weth : string := "0x7ceb23fd6bc0add59e62ac25578270cff1b9f619".
Definition router : string := "0xe592427a0aece92de3edee1f18e0157c05861564".

Definition chain : Chain :=
  {| balances := {[ usdc := 10000 * 10 ^ 6 ]}; allowances := ∅ |}.

Definition swap_output (path : list string) (amount_in : Z) : Z :=
  amount_in - amount_in / 2000.

Definition path : list string := [usdc; wmatic; weth].

End SampleChain.

Lemma round_trip_twice_witness :
  Routing.twice_same_state SampleChain.router SampleChain.swap_output
    SampleChain.chain SampleChain.path (100 * 10 ^ 6) = Ok (4%nat, 2%nat)
  /\ Routing.twice_fresh_state SampleChain.router SampleChain.swap_output
       SampleChain.chain SampleChain.path (100 * 10 ^ 6) = Ok (4%nat, 2%nat).
Proof.
  apply (round_trip_twice SampleChain.router SampleChain.swap_output
           SampleChain.chain SampleChain.usdc SampleChain.weth
           [SampleChain.wmatic] (100 * 10 ^ 6)).
  - discriminate.
  - reflexivity.
  - vm_compute. discriminate.
  - vm_compute. discriminate.
  - reflexivity.
  - reflexivity.
  - reflexivity.
  - reflexivity.
  - vm_compute. discriminate.
  - vm_compute. discriminate.
Defined.

(** C2 as written fails: through two routing states constructed
    independently, the second round trip sends two transactions, not
    four. *)
Lemma fresh_routing_state_reads_allowance :
  Routing.twice_fresh_state SampleChain.router SampleChain.swap_output
    SampleChain.chain SampleChain.path (100 * 10 ^ 6) <> Ok (4%nat, 4%nat).
Proof. vm_compute. discriminate. Qed.

(** ** Function hashing *)

Section HashFacts.

Import PythonFunction.

(** The digests of the empty message and of "abc" (FIPS 180-4, B.1). *)
Example sha256_empty :
  SHA256.hexdigest ""
  = "e3b0c44298fc1c149afbf4c8996fb92427ae41e4649b934ca495991b7852b855".
Proof. vm_compute. reflexivity. Qed.

Example sha256_abc :
  SHA256.hexdigest "abc"
  = "ba7816bf8f01cfea414140de5dae2223b00361a396177a9cb410ff61f20015ad".
Proof. vm_compute. reflexivity. Qed.

Example round_constants :
  length SHA256.K = 64%nat /\ nth 0 SHA256.K 0 = 0x428a2f98
  /\ nth 63 SHA256.K 0 = 0xc67178f2 /\ SHA256.ra SHA256.H0 = 0x6a09e667.
Proof. repeat split. Qed.

(** [textwrap.dedent] removes the common margin and empties blank lines. *)
Example dedent_method :
  dedent (join_lines ["    def f(x):"; "        return x"; "  "; ""])
  = join_lines ["def f(x):"; "    return x"; ""; ""].
Proof. vm_compute. reflexivity. Qed.

Definition is_hex (c : ascii) : bool :=
  existsb (Ascii.eqb c) (list_ascii_of_string "0123456789abcdef").

Lemma hex_digit_is_hex (n : Z) : is_hex (SHA256.hex_digit n) = true.
Proof.
  unfold SHA256.hex_digit.
  assert (H : forall k, is_hex (nth k (list_ascii_of_string "0123456789abcdef")
                                  "0"%char) = true).
  { intros k. do 17 (destruct k as [| k]; [reflexivity |]). reflexivity. }
  apply H.
Qed.

Lemma hex_word_length (x : Z) (rest : string) :
  String.length (SHA256.hex_word x rest) = (8 + String.length rest)%nat.
Proof. reflexivity. Qed.

(** A digest in hexadecimal has 64 characters. *)
Lemma hexdigest_length (msg : string) : String.length (SHA256.hexdigest msg) = 64%nat.
Proof. unfold SHA256.hexdigest. rewrite !hex_word_length. reflexivity. Qed.

(** Its first eight characters are those of the first word of the hash. *)
Lemma hexdigest_prefix (msg : string) :
  slice_to 8 (SHA256.hexdigest msg)
  = SHA256.hex_word (SHA256.ra (SHA256.sha256 (SHA256.bytes_of_string msg))) "".
Proof. reflexivity. Qed.

Lemma hex_word_is_hex (x : Z) :
  forallb is_hex (list_ascii_of_string (SHA256.hex_word x "")) = true.
Proof.
  unfold SHA256.hex_word. cbn [list_ascii_of_string forallb].
  rewrite !hex_digit_is_hex. reflexivity.
Qed.

(** *** Sources that differ in the name or in docstrings only *)

Definition has_docstring (b : block) : bool :=
  match b with BCons s _ => is_docstring s | BNil => false end.

Definition docstring (text : string) : stmt := Expr (Constant (CStr text)).

(** [same_stmt s1 s2]: the two statements are the same up to the docstrings
    of the function and class definitions in them, a docstring being the
    string expression that a [def] or [class] body starts with.
    [same_body] relates two such bodies: either may have a docstring or
    none, and what follows must agree. *)
Inductive same_stmt : stmt -> stmt -> Prop :=
| same_refl s : same_stmt s s
| same_function_def n a b1 b2 d r :
    same_body b1 b2 -> same_stmt (FunctionDef n a b1 d r) (FunctionDef n a b2 d r)
| same_async_def n a b1 b2 d r :
    same_block b1 b2 ->
    same_stmt (AsyncFunctionDef n a b1 d r) (AsyncFunctionDef n a b2 d r)
| same_class_def n bases b1 b2 d :
    same_body b1 b2 -> same_stmt (ClassDef n bases b1 d) (ClassDef n bases b2 d)
| same_if t b1 b2 o1 o2 :
    same_block b1 b2 -> same_block o1 o2 -> same_stmt (If t b1 o1) (If t b2 o2)
| same_for t i b1 b2 o1 o2 :
    same_block b1 b2 -> same_block o1 o2 -> same_stmt (For t i b1 o1) (For t i b2 o2)
| same_while t b1 b2 o1 o2 :
    same_block b1 b2 -> same_block o1 o2 -> same_stmt (While t b1 o1) (While t b2 o2)
| same_with items b1 b2 :
    same_block b1 b2 -> same_stmt (With items b1) (With items b2)
with same_block : block -> block -> Prop :=
| same_nil : same_block BNil BNil
| same_cons s1 s2 b1 b2 :
    same_stmt s1 s2 -> same_block b1 b2 -> same_block (BCons s1 b1) (BCons s2 b2)
with same_body : block -> block -> Prop :=
| body_both_documented d1 d2 b1 b2 :
    same_block b1 b2 ->
    same_body (BCons (docstring d1) b1) (BCons (docstring d2) b2)
| body_left_documented d b1 b2 :
    has_docstring b2 = false -> same_block b1 b2 ->
    same_body (BCons (docstring d) b1) b2
| body_right_documented d b1 b2 :
    has_docstring b1 = false -> same_block b1 b2 ->
    same_body b1 (BCons (docstring d) b2)
| body_undocumented b1 b2 :
    has_docstring b1 = false -> has_docstring b2 = false -> same_block b1 b2 ->
    same_body b1 b2.

Scheme same_stmt_mut := Minimality for same_stmt Sort Prop
  with same_block_mut := Minimality for same_block Sort Prop
  with same_body_mut := Minimality for same_body Sort Prop.
Combined Scheme same_mutind from same_stmt_mut, same_block_mut, same_body_mut.

(** Two modules that hold one function definition each, the same up to the
    name of the function and to docstrings. *)
Definition same_function (m1 m2 : Module_) : Prop :=
  exists n1 n2 a b1 b2 d r,
    module_body m1 = BCons (FunctionDef n1 a b1 d r) BNil
    /\ module_body m2 = BCons (FunctionDef n2 a b2 d r) BNil
    /\ same_body b1 b2.

Lemma pop_undocumented (b : block) : has_docstring b = false -> pop_docstring b = b.
Proof. destruct b as [| s rest]; cbn; [reflexivity |]. intros ->. reflexivity. Qed.

Lemma remove_docstrings_same :
  (forall s1 s2, same_stmt s1 s2 -> remove_docstrings s1 = remove_docstrings s2)
  /\ (forall b1 b2, same_block b1 b2 ->
        remove_docstrings_block b1 = remove_docstrings_block b2)
  /\ (forall b1 b2, same_body b1 b2 ->
        remove_docstrings_block (pop_docstring b1)
        = remove_docstrings_block (pop_docstring b2)).
Proof.
  apply same_mutind.
  - reflexivity.
  - intros n a b1 b2 d r _ IH. cbn. rewrite IH. reflexivity.
  - intros n a b1 b2 d r _ IH. cbn. rewrite IH. reflexivity.
  - intros n bases b1 b2 d _ IH. cbn. rewrite IH. reflexivity.
  - intros t b1 b2 o1 o2 _ IHb _ IHo. cbn. rewrite IHb, IHo. reflexivity.
  - intros t i b1 b2 o1 o2 _ IHb _ IHo. cbn. rewrite IHb, IHo. reflexivity.
  - intros t b1 b2 o1 o2 _ IHb _ IHo. cbn. rewrite IHb, IHo. reflexivity.
  - intros items b1 b2 _ IH. cbn. rewrite IH. reflexivity.
  - reflexivity.
  - intros s1 s2 b1 b2 _ IHs _ IHb. cbn. rewrite IHs, IHb. reflexivity.
  - intros d1 d2 b1 b2 _ IH. exact IH.
  - intros d b1 b2 Hdoc _ IH. rewrite (pop_undocumented b2 Hdoc). exact IH.
  - intros d b1 b2 Hdoc _ IH. rewrite (pop_undocumented b1 Hdoc). exact IH.
  - intros b1 b2 H1 H2 _ IH.
    rewrite (pop_undocumented b1 H1), (pop_undocumented b2 H2). exact IH.
Qed.

Variable parse : string -> result Module_.
Variable dump : Module_ -> string.

Lemma hashed_text_same (s1 s2 : string) (m1 m2 : Module_) :
  lambda_like s1 = false -> lambda_like s2 = false ->
  parse s1 = Ok m1 -> parse s2 = Ok m2 -> same_function m1 m2 ->
  hashed_text parse dump s1 = hashed_text parse dump s2.
Proof.
  intros L1 L2 P1 P2 (n1 & n2 & a & b1 & b2 & d & r & E1 & E2 & Hsame).
  unfold hashed_text. rewrite L1, L2, P1, P2. cbn. rewrite E1, E2.
  cbn [remove_docstrings].
  destruct remove_docstrings_same as (_ & _ & Hbody).
  rewrite (Hbody b1 b2 Hsame). reflexivity.
Qed.

(** X26. The name and the docstrings do not enter the digest. Two functions
    whose sources are not taken for lambdas (more than two lines, or no
    "lambda" in the text) and parse to one function definition each, the
    same up to the name of the function and to docstrings, have equal
    digests of every length: the first characters of the SHA-256 of the
    dump of the tree with the name cleared and the docstrings removed.
    With the default length a digest has eight hexadecimal characters. *)
Theorem hash_function_digest (f g : function) (m1 m2 : Module_) (d : string) :
  (hash_function parse dump f 8 = Ok d ->
   String.length d = 8%nat /\ forallb is_hex (list_ascii_of_string d) = true)
  /\ (is_callable f = true -> is_callable g = true ->
      lambda_like (dedent (source f)) = false ->
      lambda_like (dedent (source g)) = false ->
      parse (dedent (source f)) = Ok m1 -> parse (dedent (source g)) = Ok m2 ->
      same_function m1 m2 ->
      exists name args body decorators returns,
        module_body m1 = BCons (FunctionDef name args body decorators returns) BNil
        /\ forall n,
             hash_function parse dump f n
             = Ok (slice_to n
                     (SHA256.hexdigest
                        (dump {| module_body :=
                                   BCons (remove_docstrings
                                            (FunctionDef EmptyString args body
                                               decorators returns)) BNil |})))
             /\ hash_function parse dump g n = hash_function parse dump f n).
Proof.
  split.
  - unfold hash_function. intros H.
    apply bind_ok in H as ([] & _ & H).
    apply bind_ok in H as (text & _ & H).
    injection H as <-. rewrite hexdigest_prefix.
    split; [reflexivity | apply hex_word_is_hex].
  - intros Cf Cg Lf Lg Pf Pg Hsame.
    assert (Htext := hashed_text_same _ _ m1 m2 Lf Lg Pf Pg Hsame).
    destruct Hsame as (n1 & n2 & a & b1 & b2 & dd & r & E1 & E2 & Hbody).
    exists n1, a, b1, dd, r. split; [exact E1 |]. intros n.
    unfold hash_function. rewrite Cf, Cg. cbn [assert mbind result_bind].
    rewrite <- Htext. unfold hashed_text. rewrite Lf, Pf. cbn. rewrite E1.
    split; reflexivity.
Qed.

End HashFacts.

(** Sample functions for the hash. *)
Module SampleFunctions.

Import PythonFunction.

(** The text of a source file part: its lines, each ended by a newline. *)
Fixpoint text (lines : list string) : string :=
  match lines with
  | [] => EmptyString
  | l :: rest => l ++ String newline (text rest)
  end.

(** A documented method, indented as in its class, and the same function
    under another name, at top level and without the docstring. *)
Definition documented : function :=
  {| is_callable := true;
     source := text ["    def decide(x):";
                     "        'Decide the trades.'";
                     "        return x * 2"] |}.

Definition renamed : function :=
  {| is_callable := true;
     source := text ["def decide_trades(x):";
                     "    return x * 2"] |}.

Definition double : expr := BinOp (Name "x") "Mult" (Constant (CInt 2)).

Definition documented_tree : Module_ :=
  {| module_body :=
       BCons (FunctionDef "decide" ["x"]
                (BCons (Expr (Constant (CStr "Decide the trades.")))
                   (BCons (Return (Some double)) BNil)) [] None) BNil |}.

Definition renamed_tree : Module_ :=
  {| module_body :=
       BCons (FunctionDef "decide_trades" ["x"]
                (BCons (Return (Some double)) BNil) [] None) BNil |}.

(** Two functions of one line each that differ in their names only. *)
Definition price : function :=
  {| is_callable := true;
     source := text ["def price(x): return apply(lambda v: v * 2, x)"] |}.

Definition cost : function :=
  {| is_callable := true;
     source := text ["def cost(x): return apply(lambda v: v * 2, x)"] |}.

Definition apply_lambda : expr :=
  Call (Name "apply")
    [Lambda ["v"] (BinOp (Name "v") "Mult" (Constant (CInt 2))); Name "x"].

Definition price_tree : Module_ :=
  {| module_body :=
       BCons (FunctionDef "price" ["x"]
                (BCons (Return (Some apply_lambda)) BNil) [] None) BNil |}.

Definition cost_tree : Module_ :=
  {| module_body :=
       BCons (FunctionDef "cost" ["x"]
                (BCons (Return (Some apply_lambda)) BNil) [] None) BNil |}.

(** [ast.parse] on the four sample sources. *)
Definition parse (s : string) : result Module_ :=
  if String.eqb s (dedent (source documented)) then Ok documented_tree
  else if String.eqb s (dedent (source renamed)) then Ok renamed_tree
  else if String.eqb s (dedent (source price)) then Ok price_tree
  else if String.eqb s (dedent (source cost)) then Ok cost_tree
  else Raise SyntaxError.

(** A printer in the manner of [ast.dump(module, annotate_fields=False)]. *)
Definition quoted (s : string) : string := "'" ++ s ++ "'".

Definition commas (l : list string) : string := "[" ++ String.concat ", " l ++ "]".

Definition dump_constant (c : constant) : string :=
  match c with
  | CNone => "None"
  | CBool true => "True"
  | CBool false => "False"
  | CInt z => NilEmpty.string_of_int (Z.to_int z)
  | CFloat _ => "float"
  | CStr s => quoted s
  end.

Fixpoint dump_expr (e : expr) : string :=
  match e with
  | Constant c => "Constant(" ++ dump_constant c ++ ")"
  | Name id => "Name(" ++ quoted id ++ ", Load())"
  | Attribute v attr => "Attribute(" ++ dump_expr v ++ ", " ++ quoted attr ++ ", Load())"
  | BinOp l op r => "BinOp(" ++ dump_expr l ++ ", " ++ op ++ "(), " ++ dump_expr r ++ ")"
  | Compare l op r =>
      "Compare(" ++ dump_expr l ++ ", [" ++ op ++ "()], [" ++ dump_expr r ++ "])"
  | Call f args => "Call(" ++ dump_expr f ++ ", " ++ commas (map dump_expr args) ++ ", [])"
  | Lambda params body =>
      "Lambda(arguments([], " ++ commas (map (fun p => "arg(" ++ quoted p ++ ")") params)
      ++ ", kwonlyargs=[], kw_defaults=[], defaults=[]), " ++ dump_expr body ++ ")"
  end.

Definition dump_arguments (args : list string) : string :=
  "arguments([], " ++ commas (map (fun p => "arg(" ++ quoted p ++ ")") args)
  ++ ", kwonlyargs=[], kw_defaults=[], defaults=[])".

Definition dump_option (o : option expr) : string :=
  match o with Some e => dump_expr e | None => "None" end.

Fixpoint dump_stmt (s : stmt) : string :=
  match s with
  | FunctionDef n a body d r =>
      "FunctionDef(" ++ quoted n ++ ", " ++ dump_arguments a ++ ", "
      ++ commas (dump_block body) ++ ", " ++ commas (map dump_expr d) ++ ")"
  | AsyncFunctionDef n a body d r =>
      "AsyncFunctionDef(" ++ quoted n ++ ", " ++ dump_arguments a ++ ", "
      ++ commas (dump_block body) ++ ", " ++ commas (map dump_expr d) ++ ")"
  | ClassDef n bases body d =>
      "ClassDef(" ++ quoted n ++ ", " ++ commas (map dump_expr bases) ++ ", [], "
      ++ commas (dump_block body) ++ ", " ++ commas (map dump_expr d) ++ ")"
  | Return v => "Return(" ++ dump_option v ++ ")"
  | Assign targets v =>
      "Assign(" ++ commas (map dump_expr targets) ++ ", " ++ dump_expr v ++ ")"
  | Expr v => "Expr(" ++ dump_expr v ++ ")"
  | If t body orelse =>
      "If(" ++ dump_expr t ++ ", " ++ commas (dump_block body) ++ ", "
      ++ commas (dump_block orelse) ++ ")"
  | For t i body orelse =>
      "For(" ++ dump_expr t ++ ", " ++ dump_expr i ++ ", "
      ++ commas (dump_block body) ++ ", " ++ commas (dump_block orelse) ++ ")"
  | While t body orelse =>
      "While(" ++ dump_expr t ++ ", " ++ commas (dump_block body) ++ ", "
      ++ commas (dump_block orelse) ++ ")"
  | With items body =>
      "With(" ++ commas (map dump_expr items) ++ ", " ++ commas (dump_block body) ++ ")"
  | Pass => "Pass()"
  end
with dump_block (b : block) : list string :=
  match b with
  | BNil => []
  | BCons s rest => dump_stmt s :: dump_block rest
  end.

Definition dump (m : Module_) : string :=
  "Module(" ++ commas (dump_block (module_body m)) ++ ", [])".

(** The family [lambda: x], [lambda: xx], ... of lambda sources. *)
Definition lambda_of (n : nat) : string :=
  "lambda: x" ++ string_of_list_ascii (repeat "x"%char n).

End SampleFunctions.

Section HashClaims.

Import PythonFunction SampleFunctions.

Lemma sample_trees_same : same_function documented_tree renamed_tree.
Proof.
  exists "decide", "decide_trades", ["x"],
    (BCons (docstring "Decide the trades.") (BCons (Return (Some double)) BNil)),
    (BCons (Return (Some double)) BNil), [], None.
  split; [reflexivity |]. split; [reflexivity |].
  apply body_left_documented; [reflexivity |].
  apply same_cons; [apply same_refl | apply same_nil].
Qed.

Lemma hash_function_digest_witness :
  hash_function parse dump documented 8 = Ok "cd09b006"
  /\ String.length "cd09b006" = 8%nat
  /\ hash_function parse dump renamed 8 = Ok "cd09b006".
Proof.
  assert (H : hash_function parse dump documented 8 = Ok "cd09b006")
    by (vm_compute; reflexivity).
  destruct (hash_function_digest parse dump documented renamed documented_tree
              renamed_tree "cd09b006") as (Hlen & Hsame).
  split; [exact H |]. split; [exact (proj1 (Hlen H)) |].
  specialize (Hsame eq_refl eq_refl eq_refl eq_refl eq_refl eq_refl
                sample_trees_same).
  destruct Hsame as (name & args & body & decorators & returns & _ & Hn).
  destruct (Hn 8%nat) as [_ ->]. exact H.
Defined.

(** C9. The digest of a function that [def] defines on one line depends on
    its name. A source of one line (two with its ending newline) that
    contains "lambda" is taken for a lambda and hashed as raw text, name
    included, whatever [ast.parse] and [ast.dump] give. [price] and [cost]
    are such functions defined with [def]; their sources differ in the name
    only, yet their digests differ. *)
Theorem one_line_def_hash_depends_on_name :
  same_function price_tree cost_tree
  /\ parse (dedent (source price)) = Ok price_tree
  /\ parse (dedent (source cost)) = Ok cost_tree
  /\ lambda_like (dedent (source price)) = true
  /\ lambda_like (dedent (source cost)) = true
  /\ (forall parse dump,
        hash_function parse dump price 8 = Ok "d323550d"
        /\ hash_function parse dump cost 8 = Ok "01fbc8b0")
  /\ (forall parse dump (f : function) (n : nat),
        is_callable f = true -> lambda_like (dedent (source f)) = true ->
        hash_function parse dump f n
        = Ok (slice_to n (SHA256.hexdigest (dedent (source f))))).
Proof.
  split.
  { exists "price", "cost", ["x"], (BCons (Return (Some apply_lambda)) BNil),
      (BCons (Return (Some apply_lambda)) BNil), [], None.
    split; [reflexivity |]. split; [reflexivity |].
    apply body_undocumented; [reflexivity | reflexivity |].
    apply same_cons; [apply same_refl | apply same_nil]. }
  split; [vm_compute; reflexivity |]. split; [vm_compute; reflexivity |].
  split; [vm_compute; reflexivity |]. split; [vm_compute; reflexivity |].
  split.
  - intros parse dump. unfold hash_function, hashed_text.
    replace (lambda_like (dedent (source price))) with true
      by (vm_compute; reflexivity).
    replace (lambda_like (dedent (source cost))) with true
      by (vm_compute; reflexivity).
    split; vm_compute; reflexivity.
  - intros parse dump f n Hc Hl. unfold hash_function, hashed_text.
    rewrite Hc, Hl. reflexivity.
Qed.

End HashClaims.

(** ** Digests of eight characters collide *)

Section Collisions.

Import PythonFunction SampleFunctions.

(** More pigeons than holes. *)
Lemma pigeonhole (N : nat) : forall f : nat -> nat,
  (forall i, (i <= N)%nat -> (f i < N)%nat) ->
  exists i j, (i < j)%nat /\ (j <= N)%nat /\ f i = f j.
Proof.
  induction N as [| N IH]; intros f Hf.
  - specialize (Hf 0%nat (Nat.le_refl _)). lia.
  - assert (Hsearch : forall k, (k <= S N)%nat ->
              (exists i, (i < k)%nat /\ f i = f (S N))
              \/ (forall i, (i < k)%nat -> f i <> f (S N))).
    { induction k as [| k IHk]; intros Hk.
      - right. intros i Hi. lia.
      - destruct (IHk ltac:(lia)) as [(i & Hi & E) | Hnone].
        + left. exists i. split; [lia | exact E].
        + destruct (Nat.eq_dec (f k) (f (S N))) as [E | E].
          * left. exists k. split; [lia | exact E].
          * right. intros i Hi.
            destruct (Nat.eq_dec i k) as [-> | Hne]; [exact E | apply Hnone; lia]. }
    destruct (Hsearch (S N) (Nat.le_refl _)) as [(i & Hi & E) | Hnone].
    + exists i, (S N). split; [exact Hi |]. split; [lia | exact E].
    + set (g := fun i => if Nat.ltb (f i) (f (S N)) then f i else Nat.pred (f i)).
      destruct (IH g) as (i & j & Hij & Hj & E).
      * intros i Hi. unfold g.
        pose proof (Hf i ltac:(lia)). pose proof (Hf (S N) ltac:(lia)).
        pose proof (Hnone i ltac:(lia)).
        destruct (Nat.ltb_spec (f i) (f (S N))); lia.
      * exists i, j. split; [exact Hij |]. split; [lia |].
        unfold g in E.
        pose proof (Hnone i ltac:(lia)). pose proof (Hnone j ltac:(lia)).
        destruct (Nat.ltb_spec (f i) (f (S N))), (Nat.ltb_spec (f j) (f (S N))); lia.
Qed.

Definition in_range (r : SHA256.registers) : Prop := 0 <= SHA256.ra r < 2 ^ 32.

Lemma compress_in_range (hv : SHA256.registers) (block : list Z) :
  in_range (SHA256.compress hv block).
Proof.
  unfold in_range, SHA256.compress. cbn [SHA256.ra]. unfold SHA256.word.
  apply Z.mod_pos_bound. lia.
Qed.

Lemma process_in_range (n : nat) : forall hv bytes,
  in_range hv -> in_range (SHA256.process n hv bytes).
Proof.
  induction n as [| n IH]; intros hv bytes Hhv; cbn [SHA256.process]; [exact Hhv |].
  destruct bytes as [| b rest]; [exact Hhv |].
  apply IH. apply compress_in_range.
Qed.

Lemma sha256_in_range (msg : list Z) : in_range (SHA256.sha256 msg).
Proof.
  unfold SHA256.sha256. apply process_in_range.
  unfold in_range. cbn. lia.
Qed.

Lemma split_lines_one_line (s : string) :
  forallb (fun c => negb (Ascii.eqb c newline)) (list_ascii_of_string s) = true ->
  split_lines s = [s].
Proof.
  induction s as [| c s IH]; cbn; [reflexivity |].
  intros H. apply andb_prop in H as [Hc Hs].
  apply negb_true_iff in Hc. rewrite Hc, (IH Hs). reflexivity.
Qed.

Lemma repeat_x_one_line (n : nat) :
  forallb (fun c => negb (Ascii.eqb c newline))
    (list_ascii_of_string (string_of_list_ascii (repeat "x"%char n))) = true.
Proof. induction n as [| n IH]; cbn; [reflexivity | exact IH]. Qed.

Lemma lambda_of_lines (n : nat) : split_lines (lambda_of n) = [lambda_of n].
Proof.
  apply split_lines_one_line. unfold lambda_of. cbn. apply repeat_x_one_line.
Qed.

Lemma lambda_of_dedent (n : nat) : dedent (lambda_of n) = lambda_of n.
Proof. unfold dedent. rewrite lambda_of_lines. reflexivity. Qed.

Lemma lambda_of_lambda_like (n : nat) : lambda_like (lambda_of n) = true.
Proof. unfold lambda_like. rewrite lambda_of_lines. reflexivity. Qed.

Lemma append_length (s1 s2 : string) :
  String.length (s1 ++ s2) = (String.length s1 + String.length s2)%nat.
Proof.
  induction s1 as [| c s1 IH]; [reflexivity |].
  change (S (String.length (s1 ++ s2)) = S (String.length s1 + String.length s2)).
  f_equal. exact IH.
Qed.

Lemma lambda_of_length (n : nat) : String.length (lambda_of n) = (9 + n)%nat.
Proof.
  unfold lambda_of. rewrite append_length.
  change (String.length "lambda: x") with 9%nat. f_equal.
  induction n as [| n IH]; cbn; [reflexivity | f_equal; exact IH].
Qed.

Definition lambda_function (n : nat) : function :=
  {| is_callable := true; source := lambda_of n |}.

Lemma lambda_function_hash parse dump (n : nat) :
  hash_function parse dump (lambda_function n) 8
  = Ok (SHA256.hex_word
          (SHA256.ra (SHA256.sha256 (SHA256.bytes_of_string (lambda_of n)))) "").
Proof.
  unfold hash_function, hashed_text. cbn [is_callable source lambda_function].
  rewrite lambda_of_dedent, lambda_of_lambda_like. cbn [assert negb mbind result_bind].
  rewrite hexdigest_prefix. reflexivity.
Qed.

(** Two lambdas with different bodies and one digest: eight hexadecimal
    characters cannot tell 2^32 + 1 sources apart. *)
Lemma digests_collide :
  exists i j, lambda_of i <> lambda_of j
    /\ forall parse dump,
         hash_function parse dump (lambda_function i) 8
         = hash_function parse dump (lambda_function j) 8.
Proof.
  set (first_word := fun n =>
         SHA256.ra (SHA256.sha256 (SHA256.bytes_of_string (lambda_of n)))).
  assert (Hrange : forall n, 0 <= first_word n < 2 ^ 32)
    by (intros n; apply sha256_in_range).
  destruct (pigeonhole (Z.to_nat (2 ^ 32)) (fun n => Z.to_nat (first_word n)))
    as (i & j & Hij & _ & E).
  { intros i _. apply Z2Nat.inj_lt; [apply Hrange | lia | apply Hrange]. }
  cbv beta in E. apply Z2Nat.inj in E; [| apply Hrange | apply Hrange].
  exists i, j. split.
  - intros Heq. apply (f_equal String.length) in Heq.
    rewrite !lambda_of_length in Heq. lia.
  - intros parse dump. rewrite !lambda_function_hash.
    fold (first_word i) (first_word j). rewrite E. reflexivity.
Qed.

End Collisions.

(** * Further properties of the code *)

(** ** Quotes of the 1delta pricing model, step by step *)

Section QuoteRuns.
Context {Decimal : Type}.
Variable w : OneDelta.World Decimal.
Import TradePricing OneDelta.

(** Stepping through either quote: the quoting call is the only step that
    adds to the trace. *)
Lemma sell_price_arguments_trace ts pair amount0 :
  calls (sell_price_arguments w ts pair amount0) = []
  \/ exists req, calls (sell_price_arguments w ts pair amount0) = [SellQuote req]
       /\ block_identifier req = Some (pinned_block w)
       /\ match estimate_sell_received_amount w req with
          | Ok _ => True
          | Raise _ => outcome (sell_price_arguments w ts pair amount0)
                       = Raise (RuntimeError "Could not get valid price")
          end.
Proof.
  destruct (route_pair w pair) as [[target [ip |]] | e] eqn:Hroute.
  - left. apply (sell_price_arguments_three_leg w ts pair amount0 target ip Hroute).
  - unfold sell_price_arguments.
    destruct (is_spot pair); [| left; reflexivity].
    cbn. rewrite Hroute. cbn.
    destruct (route_tokens w target None) as [[base_addr quote_addr] mid_addr].
    destruct (py_int (fee target * 1000000)) as [tfee |]; [| left; reflexivity].
    cbn. right.
    match goal with
    | |- context [call_sell w ?r] => set (req := r)
    end.
    exists req. unfold reraise_as, call_sell. cbn.
    destruct (estimate_sell_received_amount w req) as [raw |] eqn:Hraw; cbn.
    2:{ repeat split; reflexivity. }
    split; [| split; [reflexivity | exact I]].
    repeat match goal with
           | |- context [match ?x with Ok _ => _ | Raise _ => _ end] =>
               destruct x; cbn
           | |- context [outcome (pure ?x)] => destruct x; cbn
           end; try reflexivity.
  - left. unfold sell_price_arguments.
    destruct (is_spot pair); [| reflexivity].
    cbn. rewrite Hroute. reflexivity.
Qed.

Lemma get_sell_price_trace ts pair amount0 :
  calls (get_sell_price w ts pair amount0) = []
  \/ exists req, calls (get_sell_price w ts pair amount0) = [SellQuote req]
       /\ block_identifier req = Some (pinned_block w)
       /\ match estimate_sell_received_amount w req with
          | Ok _ => True
          | Raise _ => outcome (get_sell_price w ts pair amount0)
                       = Raise (RuntimeError "Could not get valid price")
          end.
Proof.
  rewrite get_sell_price_run. cbn [calls outcome].
  destruct (sell_price_arguments_trace ts pair amount0) as [Hc | (req & Hc & Hb & H)];
    [left; exact Hc | right].
  exists req. split; [exact Hc |]. split; [exact Hb |].
  destruct (estimate_sell_received_amount w req); [exact I |].
  rewrite H. reflexivity.
Qed.

Lemma buy_price_arguments_trace ts pair reserve :
  calls (buy_price_arguments w ts pair reserve) = []
  \/ exists target intermediate req,
       route_pair w pair = Ok (target, intermediate)
       /\ calls (buy_price_arguments w ts pair reserve) = [BuyQuote req]
       /\ block_identifier req
          = match intermediate with Some _ => None | None => Some (pinned_block w) end
       /\ match estimate_buy_received_amount w req with
          | Ok _ =>
              get_pair_fee w ts pair = None ->
              outcome (buy_price_arguments w ts pair reserve)
              = Raise (AssertionError "Uniswap v3 fee data missing")
          | Raise e => outcome (buy_price_arguments w ts pair reserve) = Raise e
          end.
Proof.
  unfold buy_price_arguments.
  destruct (is_spot pair); [| left; reflexivity].
  cbn.
  destruct (route_pair w pair) as [[target intermediate] | e] eqn:Hroute;
    [| left; reflexivity].
  cbn.
  destruct (route_tokens w target intermediate) as [[base_addr quote_addr] mid_addr].
  destruct intermediate as [ip |]; cbn.
  - destruct (check_supported_quote_token w ip) as [[] |]; [| left; reflexivity].
    cbn.
    destruct (py_int (fee target * 1000000)) as [tfee |]; [| left; reflexivity].
    cbn.
    destruct (py_int (fee ip * 1000000)) as [ifee |]; [| left; reflexivity].
    cbn. right.
    match goal with
    | |- context [estimate_buy_received_amount w ?r] => set (req := r)
    end.
    exists target, (Some ip), req. split; [reflexivity |].
    destruct (estimate_buy_received_amount w req) as [raw |] eqn:Hraw; cbn.
    2:{ repeat split; reflexivity. }
    destruct (get_pair_fee w ts pair) as [pf |] eqn:Hpf; cbn.
    2:{ repeat split; reflexivity. }
    split; [| split; [reflexivity | discriminate]].
    repeat match goal with
           | |- context [match ?x with Ok _ => _ | Raise _ => _ end] =>
               destruct x; cbn
           | |- context [one_minus ?x] => destruct x; cbn
           | |- context [let '(_, _) := ?p in _] => destruct p; cbn
           | |- context [assert ?x _] => destruct x; cbn
           end; try reflexivity.
  - destruct (check_supported_quote_token w pair) as [[] |]; [| left; reflexivity].
    cbn.
    destruct (py_int (fee target * 1000000)) as [tfee |]; [| left; reflexivity].
    cbn. right.
    match goal with
    | |- context [estimate_buy_received_amount w ?r] => set (req := r)
    end.
    exists target, None, req. split; [reflexivity |].
    destruct (estimate_buy_received_amount w req) as [raw |] eqn:Hraw; cbn.
    2:{ repeat split; reflexivity. }
    destruct (get_pair_fee w ts pair) as [pf |] eqn:Hpf; cbn.
    2:{ repeat split; reflexivity. }
    split; [| split; [reflexivity | discriminate]].
    repeat match goal with
           | |- context [match ?x with Ok _ => _ | Raise _ => _ end] =>
               destruct x; cbn
           | |- context [assert ?x _] => destruct x; cbn
           end; try reflexivity.
Qed.

Lemma get_buy_price_trace ts pair reserve :
  calls (get_buy_price w ts pair reserve) = []
  \/ exists target intermediate req,
       route_pair w pair = Ok (target, intermediate)
       /\ calls (get_buy_price w ts pair reserve) = [BuyQuote req]
       /\ block_identifier req
          = match intermediate with Some _ => None | None => Some (pinned_block w) end
       /\ match estimate_buy_received_amount w req with
          | Ok _ =>
              get_pair_fee w ts pair = None ->
              outcome (get_buy_price w ts pair reserve)
              = Raise (AssertionError "Uniswap v3 fee data missing")
          | Raise e => outcome (get_buy_price w ts pair reserve) = Raise e
          end.
Proof.
  rewrite get_buy_price_run. cbn [calls outcome].
  destruct (buy_price_arguments_trace ts pair reserve)
    as [Hc | (target & ip & req & Hroute & Hc & Hb & H)]; [left; exact Hc | right].
  exists target, ip, req. split; [exact Hroute |]. split; [exact Hc |].
  split; [exact Hb |].
  destruct (estimate_buy_received_amount w req).
  - intros Hnone. rewrite (H Hnone). reflexivity.
  - rewrite H. reflexivity.
Qed.

End QuoteRuns.

(** ** A sample chain whose collaborators fail *)

Module SampleOutage.

Import OneDelta.

(** The sample chain with its quoting functions, its fee data and its
    quote-token check replaced. *)
Definition amend (sell buy : QuoteRequest -> result Z)
    (pair_fee : Z -> TradingPairIdentifier -> option float)
    (check : TradingPairIdentifier -> result unit) : World float :=
  {| very_small_amount := very_small_amount Sample.world;
     route_pair := route_pair Sample.world;
     route_tokens := route_tokens Sample.world;
     convert_to_raw_amount := convert_to_raw_amount Sample.world;
     convert_to_decimal := convert_to_decimal Sample.world;
     estimate_sell_received_amount := sell;
     estimate_buy_received_amount := buy;
     get_onchain_price := get_onchain_price Sample.world;
     eth_block_number := eth_block_number Sample.world;
     get_block_tip_latency := get_block_tip_latency Sample.world;
     get_pair_fee := pair_fee;
     check_supported_quote_token := check;
     utcnow := utcnow Sample.world;
     decimal_div := decimal_div Sample.world;
     decimal_to_float := decimal_to_float Sample.world |}.

Definition reverted : exn := External "execution reverted".

(** The quoter contract reverts every call. *)
Definition quoter_down : World float :=
  amend (fun _ => Raise reverted) (fun _ => Raise reverted)
    (get_pair_fee Sample.world) (check_supported_quote_token Sample.world).

(** No fee data is loaded. *)
Definition no_fee_data : World float :=
  amend Sample.after_fees Sample.after_fees (fun _ _ => None)
    (check_supported_quote_token Sample.world).


Definition pool : TradingPairIdentifier := Sample.usdt_usdc 0.0005.
Definition routed : TradingPairIdentifier := Sample.dai_usdt 0.0005.

Definition sell_request : QuoteRequest :=
  {| base_token_address := address Sample.usdt;
     quote_token_address := address Sample.usdc;
     quantity := 1000000;
     target_pair_fee := 500;
     intermediate_token_address := None;
     intermediate_pair_fee := None;
     block_identifier := Some 50000000 |}.

End SampleOutage.

Section QuoteProperties.

Import TradePricing OneDelta.

(** X4. A failure of the on-chain quoting call. The sell quote catches whatever
    the call raises and raises [RuntimeError] in its place; the buy quote
    has no handler, so the exception of the call is the exception of the
    quote. *)
Theorem quoting_failure {Decimal : Type} (w : World Decimal) (ts : Z)
    (pair : TradingPairIdentifier) (amount : option Decimal)
    (req : QuoteRequest) (e : exn) :
  (SellQuote req ∈ calls (get_sell_price w ts pair amount) ->
   estimate_sell_received_amount w req = Raise e ->
   outcome (get_sell_price w ts pair amount)
   = Raise (RuntimeError "Could not get valid price"))
  /\ (BuyQuote req ∈ calls (get_buy_price w ts pair amount) ->
      estimate_buy_received_amount w req = Raise e ->
      outcome (get_buy_price w ts pair amount) = Raise e).
Proof.
  split; intros Hin Hfail.
  - destruct (get_sell_price_trace w ts pair amount) as [Hc | (r & Hc & _ & H)];
      rewrite Hc in Hin.
    + now apply not_elem_of_nil in Hin.
    + apply list_elem_of_singleton in Hin. injection Hin as ->.
      rewrite Hfail in H. exact H.
  - destruct (get_buy_price_trace w ts pair amount)
      as [Hc | (target & ip & r & _ & Hc & _ & H)]; rewrite Hc in Hin.
    + now apply not_elem_of_nil in Hin.
    + apply list_elem_of_singleton in Hin. injection Hin as ->.
      rewrite Hfail in H. exact H.
Qed.

Lemma quoting_failure_witness :
  outcome (get_sell_price SampleOutage.quoter_down 0 SampleOutage.pool (Some 1%float))
  = Raise (RuntimeError "Could not get valid price")
  /\ outcome (get_buy_price SampleOutage.quoter_down 0 SampleOutage.pool (Some 1%float))
     = Raise SampleOutage.reverted.
Proof.
  destruct (quoting_failure SampleOutage.quoter_down 0 SampleOutage.pool
              (Some 1%float) SampleOutage.sell_request SampleOutage.reverted)
    as [Hsell Hbuy].
  split.
  - apply Hsell; [| reflexivity].
    apply list_elem_of_singleton. reflexivity.
  - apply Hbuy; [| reflexivity].
    apply list_elem_of_singleton. reflexivity.
Defined.

(** X5. Each price query calls the on-chain quoting function at most once, and
    exactly once when it returns a quote; a pair that is not a spot pair is
    refused by the first assertion, before any call. A query that reaches
    the constructor call at its end has made exactly one call. *)
Theorem quote_makes_one_call {Decimal : Type} (w : World Decimal) (ts : Z)
    (pair : TradingPairIdentifier) (amount : option Decimal) :
  (length (calls (get_sell_price w ts pair amount)) <= 1)%nat
  /\ (length (calls (get_buy_price w ts pair amount)) <= 1)%nat
  /\ (forall tp, outcome (get_sell_price w ts pair amount) = Ok tp ->
        exists req, calls (get_sell_price w ts pair amount) = [SellQuote req])
  /\ (forall tp, outcome (get_buy_price w ts pair amount) = Ok tp ->
        exists req, calls (get_buy_price w ts pair amount) = [BuyQuote req])
  /\ (is_spot pair = false ->
        get_sell_price w ts pair amount
        = Traced [] (Raise (AssertionError "pair.is_spot()"))
        /\ get_buy_price w ts pair amount
           = Traced [] (Raise (AssertionError "pair.is_spot()")))
  /\ (forall a, outcome (sell_price_arguments w ts pair amount) = Ok a ->
        exists req, calls (get_sell_price w ts pair amount) = [SellQuote req])
  /\ (forall a, outcome (buy_price_arguments w ts pair amount) = Ok a ->
        exists req, calls (get_buy_price w ts pair amount) = [BuyQuote req]).
Proof.
  split; [| split; [| split; [| split; [| split; [| split]]]]].
  - destruct (get_sell_price_trace w ts pair amount) as [-> | (r & -> & _)];
      cbn; lia.
  - destruct (get_buy_price_trace w ts pair amount)
      as [-> | (target & ip & r & _ & -> & _)]; cbn; lia.
  - intros tp H. destruct (get_sell_price_never_returns w ts pair amount tp H).
  - intros tp H. destruct (get_buy_price_never_returns w ts pair amount tp H).
  - intros Hspot. rewrite get_sell_price_run, get_buy_price_run.
    unfold sell_price_arguments, buy_price_arguments. rewrite Hspot.
    split; reflexivity.
  - intros a H. apply sell_price_arguments_inv in H
      as (target & req & raw & ratio & m & _ & _ & Hc & _).
    exists req. rewrite get_sell_price_run. exact Hc.
  - intros a H. apply buy_price_arguments_inv in H
      as (target & ip & req & raw & ratio & mid & _ & _ & Hc & _).
    exists req. rewrite get_buy_price_run. exact Hc.
Qed.

(** X6. The block of a quote. Every quoting call of the sell quote, and of the
    buy quote on a direct route, is pinned to the block
    [max(1, block_number - latency)], the buy quote through an intermediary
    pair passes no block; the [block_number] argument of the constructor
    call that ends a quote is the block identifier of its quoting call. *)
Theorem quote_block_pinning {Decimal : Type} (w : World Decimal) (ts : Z)
    (pair : TradingPairIdentifier) (amount : option Decimal) (c : QuoteCall) :
  (c ∈ calls (get_sell_price w ts pair amount) ->
   block_identifier (request_of c) = Some (pinned_block w)
   /\ forall a, outcome (sell_price_arguments w ts pair amount) = Ok a ->
        block_number_arg a = Some (pinned_block w))
  /\ (c ∈ calls (get_buy_price w ts pair amount) ->
      (exists target intermediate,
         route_pair w pair = Ok (target, intermediate)
         /\ block_identifier (request_of c)
            = match intermediate with
              | Some _ => None
              | None => Some (pinned_block w)
              end)
      /\ forall a, outcome (buy_price_arguments w ts pair amount) = Ok a ->
           block_number_arg a = block_identifier (request_of c))
  /\ 1 <= pinned_block w.
Proof.
  split; [| split].
  - intros Hin.
    destruct (get_sell_price_trace w ts pair amount) as [Hc | (r & Hc & Hb & _)];
      rewrite Hc in Hin.
    + now apply not_elem_of_nil in Hin.
    + apply list_elem_of_singleton in Hin as ->. split; [exact Hb |].
      intros a H. apply sell_price_arguments_inv in H
        as (target & req & raw & ratio & m & _ & _ & _ & _ & _ & _ & _ & _ & _ & ->).
      reflexivity.
  - intros Hin.
    destruct (get_buy_price_trace w ts pair amount)
      as [Hc | (target & ip & r & Hroute & Hc & Hb & _)]; rewrite Hc in Hin.
    + now apply not_elem_of_nil in Hin.
    + apply list_elem_of_singleton in Hin as ->. split.
      * exists target, ip. split; [exact Hroute | exact Hb].
      * intros a H. apply buy_price_arguments_inv in H
          as (target' & ip' & req & raw & ratio & mid & _ & Hroute' & Hc' & _ & _
              & Hb' & _ & _ & _ & _ & ->).
        rewrite get_buy_price_run in Hc. cbn [calls] in Hc.
        rewrite Hc in Hc'. injection Hc' as ->. cbn. symmetry. exact Hb'.
  - unfold pinned_block. lia.
Qed.

Lemma quote_block_pinning_witness :
  calls (get_sell_price Sample.world 0 SampleOutage.pool (Some 1%float))
  = [SellQuote SampleOutage.sell_request]
  /\ block_identifier SampleOutage.sell_request = Some (pinned_block Sample.world)
  /\ pinned_block Sample.world = 50000000
  /\ exists a, outcome (sell_price_arguments Sample.world 0 SampleOutage.pool
                          (Some 1%float)) = Ok a
       /\ block_number_arg a = Some 50000000.
Proof.
  split; [reflexivity |].
  destruct (quote_block_pinning Sample.world 0 SampleOutage.pool (Some 1%float)
              (SellQuote SampleOutage.sell_request)) as (H & _).
  destruct H as [H Ha].
  - apply list_elem_of_singleton. reflexivity.
  - split; [exact H |]. split; [reflexivity |].
    destruct (outcome (sell_price_arguments Sample.world 0 SampleOutage.pool
                         (Some 1%float))) as [a | e] eqn:E;
      [| vm_compute in E; discriminate E].
    exists a. split; [reflexivity |]. exact (Ha a eq_refl).
Defined.

(** X7. The price of a quote is the ratio of its two amounts. When the buy
    quote reaches its [return] statement, the [token_in] argument of the
    constructor call is the reserve amount paid (the very small amount if
    none was given), the [token_out] argument is the decimal amount of the
    raw amount that the quoting call returned for it, and the [price]
    argument is [float(token_in / token_out)]; for the sell quote
    [token_in] is the amount sold and [price] is
    [float(token_out / token_in)]. *)
Theorem quote_price_is_amount_ratio {Decimal : Type} (w : World Decimal) (ts : Z)
    (pair : TradingPairIdentifier) (amount : option Decimal)
    (a : QuoteArguments Decimal) :
  (outcome (buy_price_arguments w ts pair amount) = Ok a ->
   exists target intermediate req raw ratio,
     route_pair w pair = Ok (target, intermediate)
     /\ calls (get_buy_price w ts pair amount) = [BuyQuote req]
     /\ quantity req = convert_to_raw_amount w (quote (default target intermediate))
                         (default (very_small_amount w) amount)
     /\ estimate_buy_received_amount w req = Ok raw
     /\ token_in_arg a = default (very_small_amount w) amount
     /\ token_out_arg a = convert_to_decimal w (base target) raw
     /\ decimal_div w (default (very_small_amount w) amount)
          (convert_to_decimal w (base target) raw) = Ok ratio
     /\ price_arg a = decimal_to_float w ratio)
  /\ (outcome (sell_price_arguments w ts pair amount) = Ok a ->
      exists target req raw ratio,
        route_pair w pair = Ok (target, None)
        /\ calls (get_sell_price w ts pair amount) = [SellQuote req]
        /\ quantity req = convert_to_raw_amount w (base target)
                            (default (very_small_amount w) amount)
        /\ estimate_sell_received_amount w req = Ok raw
        /\ token_in_arg a = default (very_small_amount w) amount
        /\ token_out_arg a = convert_to_decimal w (quote target) raw
        /\ decimal_div w (convert_to_decimal w (quote target) raw)
             (default (very_small_amount w) amount) = Ok ratio
        /\ price_arg a = decimal_to_float w ratio).
Proof.
  split; intros H.
  - apply buy_price_arguments_inv in H
      as (target & ip & req & raw & ratio & mid & _ & Hroute & Hc & Hraw & Hq & _
          & _ & Hdiv & _ & _ & ->).
    exists target, ip, req, raw, ratio. rewrite get_buy_price_run.
    cbn. repeat split; assumption.
  - apply sell_price_arguments_inv in H
      as (target & req & raw & ratio & m & _ & Hroute & Hc & Hraw & Hq & _
          & Hdiv & _ & _ & ->).
    exists target, req, raw, ratio. rewrite get_sell_price_run.
    cbn. repeat split; assumption.
Qed.

Lemma quote_price_is_amount_ratio_witness :
  exists a, outcome (buy_price_arguments Sample.world 0 SampleOutage.pool
                       (Some 1%float)) = Ok a
    /\ token_in_arg a = 1%float
    /\ exists ratio, py_div 1 (token_out_arg a) = Ok ratio /\ price_arg a = ratio.
Proof.
  destruct (outcome (buy_price_arguments Sample.world 0 SampleOutage.pool
                       (Some 1%float))) as [a | e] eqn:E;
    [| vm_compute in E; discriminate E].
  exists a. split; [reflexivity |].
  destruct (quote_price_is_amount_ratio Sample.world 0 SampleOutage.pool
              (Some 1%float) a) as (H & _).
  destruct (H E) as (target & ip & req & raw & ratio & _ & _ & _ & _ & Hin & Hout
                     & Hdiv & Hp).
  split; [exact Hin |]. exists ratio. rewrite Hout.
  split; [exact Hdiv | exact Hp].
Defined.

(** X8. The mid price of a quote, as computed before the constructor call
    that ends the quote. On a direct route the [mid_price] argument is the
    float of the price read from the pool at the pinned block, in the
    pair's token order; on a buy through an intermediary pair it is the
    quoted price less both pools' fees from the fee data:
    [price * (1 - fee_intermediate) * (1 - fee_target)]. *)
Theorem quote_mid_price {Decimal : Type} (w : World Decimal) (ts : Z)
    (pair : TradingPairIdentifier) (amount : option Decimal)
    (a : QuoteArguments Decimal) :
  (outcome (buy_price_arguments w ts pair amount) = Ok a ->
   exists target intermediate,
     route_pair w pair = Ok (target, intermediate)
     /\ match intermediate with
        | Some ip =>
            exists f_ip f_t,
              get_pair_fee w ts ip = Some f_ip
              /\ get_pair_fee w ts target = Some f_t
              /\ mid_price_arg a = (price_arg a * (1 - f_ip) * (1 - f_t))%float
        | None =>
            exists m,
              get_onchain_price w (pool_address target) (Some (pinned_block w))
                (has_reverse_token_order target) = Ok m
              /\ mid_price_arg a = decimal_to_float w m
        end)
  /\ (outcome (sell_price_arguments w ts pair amount) = Ok a ->
      exists target m,
        route_pair w pair = Ok (target, None)
        /\ get_onchain_price w (pool_address target) (Some (pinned_block w))
             (has_reverse_token_order target) = Ok m
        /\ mid_price_arg a = decimal_to_float w m).
Proof.
  split; intros H.
  - apply buy_price_arguments_inv in H
      as (target & ip & req & raw & ratio & mid & _ & Hroute & _ & _ & _ & _
          & _ & _ & Hmid & _ & ->).
    exists target, ip. split; [exact Hroute |].
    destruct ip as [ip |].
    + destruct Hmid as (f_ip & f_t & Hi & Ht & ->). exists f_ip, f_t. auto.
    + destruct Hmid as (m & Hm & ->). exists m. auto.
  - apply sell_price_arguments_inv in H
      as (target & req & raw & ratio & m & _ & Hroute & _ & _ & _ & _ & _ & Hm & _
          & ->).
    exists target, m. auto.
Qed.

Lemma quote_mid_price_witness :
  exists a, outcome (buy_price_arguments Sample.world 0 SampleOutage.routed
                       (Some 1%float)) = Ok a
    /\ mid_price_arg a = (price_arg a * (1 - 0.0005) * (1 - 0.0005))%float.
Proof.
  destruct (outcome (buy_price_arguments Sample.world 0 SampleOutage.routed
                       (Some 1%float))) as [a | e] eqn:E;
    [| vm_compute in E; discriminate E].
  destruct (quote_mid_price Sample.world 0 SampleOutage.routed (Some 1%float) a)
    as (H & _).
  destruct (H E) as (target & ip & Hroute & Hmid).
  vm_compute in Hroute. injection Hroute as <- <-.
  destruct Hmid as (f_ip & f_t & Hi & Ht & Hmid).
  vm_compute in Hi, Ht. injection Hi as <-. injection Ht as <-.
  exists a. split; [reflexivity | exact Hmid].
Defined.

(** X9. Fee data. The buy quote asserts that the fee data has a fee for the
    pair, and it does so after the quoting call: without a fee it never
    returns a quote, and when its quoting call has returned the exception
    is the [AssertionError] of that check. Without a fee the quote does not
    reach the constructor call at its end either. *)
Theorem buy_quote_needs_fee_data {Decimal : Type} (w : World Decimal) (ts : Z)
    (pair : TradingPairIdentifier) (amount : option Decimal) :
  get_pair_fee w ts pair = None ->
  raises (outcome (get_buy_price w ts pair amount))
  /\ (forall req raw,
       BuyQuote req ∈ calls (get_buy_price w ts pair amount) ->
       estimate_buy_received_amount w req = Ok raw ->
       outcome (get_buy_price w ts pair amount)
       = Raise (AssertionError "Uniswap v3 fee data missing"))
  /\ raises (outcome (buy_price_arguments w ts pair amount)).
Proof.
  intros Hnone.
  assert (Hargs : raises (outcome (buy_price_arguments w ts pair amount))).
  { destruct (outcome (buy_price_arguments w ts pair amount)) as [a |] eqn:E;
      [| exact I].
    apply buy_price_arguments_inv in E
      as (target & ip & req & raw & ratio & mid & _ & _ & _ & _ & _ & _ & Hfee & _).
    rewrite Hnone in Hfee. destruct Hfee as [? Hfee]. discriminate Hfee. }
  split; [| split; [| exact Hargs]].
  - rewrite get_buy_price_run. cbn.
    destruct (outcome (buy_price_arguments w ts pair amount)); exact I.
  - intros req raw Hin Hraw.
    destruct (get_buy_price_trace w ts pair amount)
      as [Hc | (target & ip & r & _ & Hc & _ & H)]; rewrite Hc in Hin.
    + now apply not_elem_of_nil in Hin.
    + apply list_elem_of_singleton in Hin. injection Hin as ->.
      rewrite Hraw in H. exact (H Hnone).
Qed.

Lemma buy_quote_needs_fee_data_witness :
  length (calls (get_buy_price SampleOutage.no_fee_data 0 SampleOutage.pool
                   (Some 1%float))) = 1%nat
  /\ outcome (get_buy_price SampleOutage.no_fee_data 0 SampleOutage.pool (Some 1%float))
     = Raise (AssertionError "Uniswap v3 fee data missing").
Proof.
  split; [reflexivity |].
  destruct (buy_quote_needs_fee_data SampleOutage.no_fee_data 0 SampleOutage.pool
              (Some 1%float) eq_refl) as (_ & H & _).
  apply (H SampleOutage.sell_request 999500).
  - apply list_elem_of_singleton. reflexivity.
  - reflexivity.
Defined.



(** X25. Neither quote returns. The call of the [TradePricing] constructor
    that ends [get_sell_price] and [get_buy_price] passes the keywords
    [read_at], [block_number], [token_in] and [token_out], none of which
    the dataclass declares: the call raises [TypeError], naming the first
    of them. So a quote that has passed every check and made its quoting
    call raises that [TypeError], and no quote returns a [TradePricing]. *)
Theorem quote_raises_at_constructor {Decimal : Type} (w : World Decimal) (ts : Z)
    (pair : TradingPairIdentifier) (amount : option Decimal) :
  (forall a : QuoteArguments Decimal,
     construct a
     = Raise (TypeError
                "TradePricing.__init__() got an unexpected keyword argument 'read_at'"))
  /\ (forall a, outcome (sell_price_arguments w ts pair amount) = Ok a ->
        outcome (get_sell_price w ts pair amount)
        = Raise (TypeError
                   "TradePricing.__init__() got an unexpected keyword argument 'read_at'"))
  /\ (forall a, outcome (buy_price_arguments w ts pair amount) = Ok a ->
        outcome (get_buy_price w ts pair amount)
        = Raise (TypeError
                   "TradePricing.__init__() got an unexpected keyword argument 'read_at'"))
  /\ raises (outcome (get_sell_price w ts pair amount))
  /\ raises (outcome (get_buy_price w ts pair amount)).
Proof.
  split; [intros a; reflexivity |].
  split; [intros a H; rewrite get_sell_price_run; cbn; rewrite H; reflexivity |].
  split; [intros a H; rewrite get_buy_price_run; cbn; rewrite H; reflexivity |].
  split.
  - rewrite get_sell_price_run. cbn.
    destruct (outcome (sell_price_arguments w ts pair amount)); exact I.
  - rewrite get_buy_price_run. cbn.
    destruct (outcome (buy_price_arguments w ts pair amount)); exact I.
Qed.

(** On the sample chain both quotes of one unit on the direct pool pass
    every check, make their quoting call and raise at the constructor. *)
Lemma quote_raises_at_constructor_witness :
  is_ok (outcome (sell_price_arguments Sample.world 0 SampleOutage.pool
                    (Some 1%float))) = true
  /\ get_sell_price Sample.world 0 SampleOutage.pool (Some 1%float)
     = Traced [SellQuote SampleOutage.sell_request]
         (Raise (TypeError
                   "TradePricing.__init__() got an unexpected keyword argument 'read_at'"))
  /\ outcome (get_buy_price Sample.world 0 SampleOutage.pool (Some 1%float))
     = Raise (TypeError
                "TradePricing.__init__() got an unexpected keyword argument 'read_at'").
Proof.
  destruct (quote_raises_at_constructor Sample.world 0 SampleOutage.pool
              (Some 1%float)) as (_ & Hsell & Hbuy & _).
  split; [reflexivity |]. split.
  - destruct (outcome (sell_price_arguments Sample.world 0 SampleOutage.pool
                         (Some 1%float))) as [a | e] eqn:E;
      [| vm_compute in E; discriminate E].
    specialize (Hsell a eq_refl).
    destruct (get_sell_price Sample.world 0 SampleOutage.pool (Some 1%float))
      as [trace result] eqn:Eq.
    cbn in Hsell. rewrite Hsell. f_equal.
    change trace with (calls (Traced trace result)). rewrite <- Eq. reflexivity.
  - destruct (outcome (buy_price_arguments Sample.world 0 SampleOutage.pool
                         (Some 1%float))) as [a | e] eqn:E;
      [| vm_compute in E; discriminate E].
    exact (Hbuy a eq_refl).
Defined.

End QuoteProperties.

(** ** When a trade pricing record is accepted *)

Section PostInitAccepts.
Implicit Types self tp : TradePricing.t.

Import TradePricing.

Lemma assert_list_map_ok {A B} (f : A -> B) (l : list A) (msg : string) :
  assert_list (map f l) msg = Ok tt <-> l <> [].
Proof. destruct l; cbn; split; congruence. Qed.

Lemma wrapped_lp_fee_items self :
  items (lp_fee (wrapped_fees self)) = [] <-> lp_fee self = PyList [].
Proof.
  destruct self as [p m l f d s pa]. unfold wrapped_fees.
  cbn [lp_fee pair_fee set_lp_fee set_pair_fee price mid_price market_feed_delay
       side path].
  destruct l, f; cbn; repeat (case_bool_decide; cbn in * ); try congruence;
    split; congruence.
Qed.

Lemma wrapped_pair_fee_items self :
  items (pair_fee (wrapped_fees self)) = [] <-> pair_fee self = PyList [].
Proof.
  destruct self as [p m l f d s pa]. unfold wrapped_fees.
  cbn [lp_fee pair_fee set_lp_fee set_pair_fee price mid_price market_feed_delay
       side path].
  destruct l, f; cbn; repeat (case_bool_decide; cbn in * ); try congruence;
    split; congruence.
Qed.

(** X11. When the constructor accepts. [__post_init__] returns exactly when both
    prices are floats, neither fee field is the empty list, the feed delay
    is [None] or a [timedelta], and the prices agree with the side. The two
    assertions on the element types of the fee lists assert a list that a
    comprehension has built, so they fail on an empty list only: no element
    type is ever refused. *)
Theorem post_init_ok_iff self :
  post_init self = Ok (wrapped_fees self) <->
  type_of (price self) = TFloat
  /\ type_of (mid_price self) = TFloat
  /\ lp_fee self <> PyList []
  /\ pair_fee self <> PyList []
  /\ (market_feed_delay self = PyNone
      \/ isinstance_timedelta (market_feed_delay self) = true)
  /\ side_consistent self = true.
Proof.
  split.
  - intros H. pose proof (post_init_inv _ _ H) as (_ & Hp & Hm & Hside).
    unfold post_init in H.
    apply bind_ok in H as ([] & _ & H).
    apply bind_ok in H as ([] & _ & H).
    cbv zeta in H. fold (wrapped_fees self) in H.
    apply bind_ok in H as ([] & Hl & H). apply assert_list_map_ok in Hl.
    apply bind_ok in H as ([] & Hf & H). apply assert_list_map_ok in Hf.
    apply bind_ok in H as ([] & Hd & _).
    destruct (wrapped_fees_fields self) as (_ & _ & _ & Ed & _).
    rewrite Ed in Hd.
    repeat split; try assumption.
    + intros E. apply Hl, wrapped_lp_fee_items, E.
    + intros E. apply Hf, wrapped_pair_fee_items, E.
    + destruct (market_feed_delay self); cbn in Hd; auto; discriminate Hd.
  - intros (Hp & Hm & Hl & Hf & Hd & Hside).
    unfold post_init.
    rewrite (bool_decide_eq_true_2 _ Hp), (bool_decide_eq_true_2 _ Hm). cbn.
    fold (wrapped_fees self).
    destruct (wrapped_fees_fields self) as (Ep & Em & Es & Ed & Epath).
    rewrite Ep, Em, Es, Ed, Epath.
    assert (Hl' : items (lp_fee (wrapped_fees self)) <> [])
      by (intros E; apply Hl, wrapped_lp_fee_items, E).
    assert (Hf' : items (pair_fee (wrapped_fees self)) <> [])
      by (intros E; apply Hf, wrapped_pair_fee_items, E).
    rewrite (proj2 (assert_list_map_ok _ _ _) Hl'),
      (proj2 (assert_list_map_ok _ _ _) Hf'). cbn.
    assert (Hd' : (if negb (is_none (market_feed_delay self))
                   then assert (isinstance_timedelta (market_feed_delay self))
                          "isinstance(self.market_feed_delay, datetime.timedelta)"
                   else Ok tt) = Ok tt).
    { destruct Hd as [-> | ->]; [reflexivity |].
      destruct (is_none (market_feed_delay self)); reflexivity. }
    rewrite Hd'. cbn.
    unfold side_consistent, py_ge, py_le in Hside.
    destruct (side self) as [[] |]; cbn; unfold py_ge, py_le; rewrite ?Hside; cbn;
      destruct (path self) as [[| x p] |]; reflexivity.
Qed.

End PostInitAccepts.

(** A fee list whose only element is a string is accepted. *)
Definition text_fee : TradePricing.t :=
  TradePricing.mk (PyFloat 1) (PyFloat 1) (PyList [PyStr "free"])
    (PyList [PyStr "free"]) PyNone None None.

Lemma post_init_ok_iff_witness :
  TradePricing.post_init text_fee = Ok text_fee
  /\ TradePricing.lp_fee text_fee <> PyList [].
Proof.
  destruct (post_init_ok_iff text_fee) as [Hinv Hok]. split.
  - apply Hok. repeat split; try discriminate; auto.
  - apply Hinv. reflexivity.
Defined.

(** ** Strategy modules with a missing name *)

Section MissingNames.

Import StrategyModule.

(** The names that [validate] looks for. *)
Definition required_names : list string :=
  ["trading_strategy_engine_version"; "trading_strategy_type";
   "trading_strategy_cycle"; "trade_routing"; "decide_trades";
   "create_trading_universe"].

Lemma get_missing (mod_ : gmap string pyval) (name : string) :
  mod_ !! name = None -> get mod_ name = PyNone.
Proof. intros H. unfold get. rewrite H. reflexivity. Qed.

(** X12. A missing name. A module that does not define one of the six names
    that [validate] looks for is parsed without an error, the field being
    [None], and is then rejected by [validate] with
    [StrategyModuleNotValid]. *)
Theorem missing_name_is_rejected (mod_ : gmap string pyval) (name : string) :
  name ∈ required_names ->
  mod_ !! name = None ->
  exists msg,
    validate (parse_strategy_module mod_) = Raise (StrategyModuleNotValid msg).
Proof.
  intros Hin Hnone. apply get_missing in Hnone.
  unfold validate, invalid, parse_strategy_module.
  cbn [trading_strategy_engine_version trading_strategy_type
       trading_strategy_cycle trade_routing decide_trades create_trading_universe].
  unfold required_names in Hin.
  repeat match goal with
         | |- context [if negb ?b then _ else _] => destruct b eqn:?; cbn [negb]
         | |- context [if is_none ?v then _ else _] => destruct (is_none v) eqn:?
         end; try (eexists; reflexivity).
  exfalso.
  repeat (apply elem_of_cons in Hin as [-> | Hin];
          [rewrite Hnone in *; discriminate |]).
  now apply not_elem_of_nil in Hin.
Qed.

Lemma missing_name_is_rejected_witness :
  validate (parse_strategy_module
              (delete "decide_trades" module_without_reserve_currency))
  = Raise (StrategyModuleNotValid "decide_trades function missing/invalid").
Proof.
  destruct (missing_name_is_rejected
              (delete "decide_trades" module_without_reserve_currency)
              "decide_trades") as (msg & H).
  - unfold required_names. set_solver.
  - apply lookup_delete_eq.
  - rewrite H. vm_compute in H. injection H as <-. reflexivity.
Defined.

End MissingNames.

(** ** Digests: length, failure and indentation *)

Section DigestLength.

Import PythonFunction.

Lemma substring_length (n : nat) : forall s,
  String.length (String.substring 0 n s) = Nat.min n (String.length s).
Proof.
  induction n as [| n IH]; intros [| c s]; cbn; try reflexivity.
  rewrite IH. reflexivity.
Qed.

Lemma substring_substring (m n : nat) : (m <= n)%nat -> forall s,
  String.substring 0 m (String.substring 0 n s) = String.substring 0 m s.
Proof.
  revert n. induction m as [| m IH]; intros n Hle s.
  - destruct n, s; reflexivity.
  - destruct n as [| n]; [lia |]. destruct s as [| c s]; cbn; [reflexivity |].
    rewrite IH by lia. reflexivity.
Qed.

Variable parse : string -> result Module_.
Variable dump : Module_ -> string.

(** X13. The length of the digest. [char_length] only cuts the hexadecimal
    SHA-256 digest: what is returned has [min(char_length, 64)]
    characters, and the digest for a smaller length is the beginning of the
    digest for a larger one; whether the function can be hashed does not
    depend on the length. *)
Theorem digest_is_prefix (f : function) (n m : nat) (d : string) :
  hash_function parse dump f n = Ok d ->
  (m <= n)%nat ->
  String.length d = Nat.min n 64
  /\ hash_function parse dump f m = Ok (slice_to m d).
Proof.
  unfold hash_function. intros H Hle.
  apply bind_ok in H as ([] & Hc & H). rewrite Hc. cbn.
  apply bind_ok in H as (text & Ht & H). rewrite Ht. cbn.
  injection H as <-. unfold slice_to. split.
  - rewrite substring_length, hexdigest_length. reflexivity.
  - rewrite substring_substring by exact Hle. reflexivity.
Qed.

(** X14. When a function can be hashed. [hash_function] returns a digest exactly
    for a callable whose dedented source either is taken for a lambda or
    parses to a module of one plain function definition. It raises
    [AssertionError] for an object that is not callable, whatever its
    source, and for a source that parses to anything else (two statements,
    a class, an [async def]); an error of the parser is passed on. *)
Theorem hash_function_returns_iff (f : function) (n : nat) :
  (is_ok (hash_function parse dump f n) = true <->
   is_callable f = true
   /\ (lambda_like (dedent (source f)) = true
       \/ exists name args body decos returns,
            parse (dedent (source f))
            = Ok {| module_body :=
                      BCons (FunctionDef name args body decos returns) BNil |}))
  /\ (is_callable f = false ->
      hash_function parse dump f n = Raise (AssertionError "Not a function"))
  /\ (forall e, is_callable f = true ->
        lambda_like (dedent (source f)) = false ->
        parse (dedent (source f)) = Raise e ->
        hash_function parse dump f n = Raise e)
  /\ (forall m, is_callable f = true ->
        lambda_like (dedent (source f)) = false ->
        parse (dedent (source f)) = Ok m ->
        (forall name args body decos returns,
           module_body m <> BCons (FunctionDef name args body decos returns) BNil) ->
        exists msg, hash_function parse dump f n = Raise (AssertionError msg)).
Proof.
  unfold hash_function, hashed_text.
  split; [| split; [| split]].
  - destruct (is_callable f); cbn; [| split; [discriminate | intros [? _]; discriminate]].
    destruct (lambda_like (dedent (source f))); cbn.
    + split; [intros _; split; [reflexivity | left; reflexivity] | reflexivity].
    + destruct (parse (dedent (source f))) as [[body] | e]; cbn.
      * destruct body as [| [] [| ? ?]]; cbn; split;
          try discriminate;
          try (intros [_ [H | (? & ? & ? & ? & ? & H)]]; discriminate H);
          try (intros _; reflexivity).
        intros _. split; [reflexivity |]. right. eexists _, _, _, _, _. reflexivity.
      * split; [discriminate |].
        intros [_ [H | (? & ? & ? & ? & ? & H)]]; discriminate H.
  - intros ->. reflexivity.
  - intros e -> -> ->. reflexivity.
  - intros [body] -> -> -> Hnot. cbn in *.
    destruct body as [| [] [| ? ?]]; cbn; try (eexists; reflexivity).
    exfalso. eapply Hnot. reflexivity.
Qed.

End DigestLength.

Section Indentation.

Import PythonFunction.

(** A line of blanks only, a string of blanks, a string without a line
    break. *)
Definition blank_only (l : string) : bool := String.eqb (leading_whitespace l) l.

Fixpoint all_blank (pad : string) : bool :=
  match pad with
  | EmptyString => true
  | String c rest => is_blank c && all_blank rest
  end.

Fixpoint one_line (s : string) : bool :=
  match s with
  | EmptyString => true
  | String c rest => negb (Ascii.eqb c newline) && one_line rest
  end.

(** The text with [pad] put before every line that is not of blanks
    only. *)
Definition indent (pad text : string) : string :=
  join_lines (map (fun l => if blank_only l then l else String.append pad l)
                (split_lines text)).

Lemma append_cons (c : ascii) (p s : string) :
  String.append (String c p) s = String c (String.append p s).
Proof. reflexivity. Qed.

Lemma split_lines_spec (s : string) :
  split_lines s <> [] /\ forallb one_line (split_lines s) = true.
Proof.
  induction s as [| c s [Hne Hall]]; cbn; [split; [discriminate | reflexivity] |].
  destruct (Ascii.eqb c newline) eqn:Ec.
  - split; [discriminate | exact Hall].
  - destruct (split_lines s) as [| line lines]; [congruence |].
    split; [discriminate |]. cbn in Hall |- *. rewrite Ec. exact Hall.
Qed.

Lemma split_lines_line (l rest : string) :
  one_line l = true ->
  split_lines (String.append l (String newline rest)) = l :: split_lines rest.
Proof.
  induction l as [| c l IH]; intros H.
  - change (split_lines (String newline rest) = "" :: split_lines rest).
    cbn. rewrite Ascii.eqb_refl. reflexivity.
  - cbn in H. apply andb_prop in H as [Hc Hl]. apply negb_true_iff in Hc.
    rewrite append_cons. cbn. rewrite Hc, (IH Hl). reflexivity.
Qed.

Lemma split_lines_whole (l : string) : one_line l = true -> split_lines l = [l].
Proof.
  induction l as [| c l IH]; intros H; [reflexivity |].
  cbn in H. apply andb_prop in H as [Hc Hl]. apply negb_true_iff in Hc.
  cbn. rewrite Hc, (IH Hl). reflexivity.
Qed.

Lemma split_join (ls : list string) :
  ls <> [] -> forallb one_line ls = true -> split_lines (join_lines ls) = ls.
Proof.
  induction ls as [| l ls IH]; [congruence |]. intros _ H.
  cbn in H. apply andb_prop in H as [Hl Hls].
  destruct ls as [| l2 ls]; [exact (split_lines_whole l Hl) |].
  change (join_lines (l :: l2 :: ls))
    with (String.append l (String newline (join_lines (l2 :: ls)))).
  rewrite (split_lines_line _ _ Hl), IH; [reflexivity | discriminate | exact Hls].
Qed.

Variable pad : string.
Hypothesis pad_blank : all_blank pad = true.

Lemma all_blank_one_line (p : string) : all_blank p = true -> one_line p = true.
Proof.
  induction p as [| c p IH]; [reflexivity |]. cbn. intros H.
  apply andb_prop in H as [Hc Hp]. rewrite (IH Hp), andb_true_r.
  unfold is_blank in Hc. apply negb_true_iff.
  destruct (Ascii.eqb c newline) eqn:E; [| reflexivity].
  apply Ascii.eqb_eq in E. subst c. discriminate Hc.
Qed.

Lemma one_line_append (p l : string) :
  one_line p = true -> one_line l = true -> one_line (String.append p l) = true.
Proof.
  induction p as [| c p IH]; intros Hp Hl; [exact Hl |].
  cbn in Hp. apply andb_prop in Hp as [Hc Hp].
  rewrite append_cons. cbn. rewrite Hc, (IH Hp Hl). reflexivity.
Qed.

Lemma leading_whitespace_pad (p l : string) :
  all_blank p = true ->
  leading_whitespace (String.append p l) = String.append p (leading_whitespace l).
Proof.
  induction p as [| c p IH]; intros H; [reflexivity |].
  cbn in H. apply andb_prop in H as [Hc Hp].
  rewrite !append_cons. cbn. rewrite Hc, (IH Hp). reflexivity.
Qed.

Lemma eqb_pad (p a b : string) :
  String.eqb (String.append p a) (String.append p b) = String.eqb a b.
Proof.
  induction p as [| c p IH]; [reflexivity |].
  rewrite !append_cons. cbn. rewrite Ascii.eqb_refl. exact IH.
Qed.

Lemma blank_only_pad (p l : string) :
  all_blank p = true -> blank_only (String.append p l) = blank_only l.
Proof.
  intros H. unfold blank_only. rewrite (leading_whitespace_pad _ _ H). apply eqb_pad.
Qed.

Lemma common_prefix_pad (p a b : string) :
  common_prefix (String.append p a) (String.append p b)
  = String.append p (common_prefix a b).
Proof.
  induction p as [| c p IH]; [reflexivity |].
  rewrite !append_cons. cbn. rewrite Ascii.eqb_refl, IH. reflexivity.
Qed.

Lemma prefix_pad (p m x : string) :
  String.prefix (String.append p m) (String.append p x) = String.prefix m x.
Proof.
  induction p as [| c p IH]; [reflexivity |].
  rewrite !append_cons. cbn. destruct (ascii_dec c c); [exact IH | congruence].
Qed.

Lemma drop_prefix_pad (p m x : string) :
  drop_prefix (String.append p m) (String.append p x) = drop_prefix m x.
Proof.
  induction p as [| c p IH]; [reflexivity |].
  rewrite !append_cons. cbn. rewrite Ascii.eqb_refl. exact IH.
Qed.

Lemma fold_common_prefix_pad (rest : list string) : forall i,
  fold_left common_prefix (map (String.append pad) rest) (String.append pad i)
  = String.append pad (fold_left common_prefix rest i).
Proof.
  induction rest as [| r rest IH]; intros i; [reflexivity |].
  cbn. rewrite common_prefix_pad. apply IH.
Qed.

(** The three steps of [dedent] on one line. *)
Definition normalise (l : string) : string :=
  if String.eqb (leading_whitespace l) l then EmptyString else l.

Definition cut (margin l : string) : string :=
  if String.prefix margin l then drop_prefix margin l else l.

Definition margin_of (lines : list string) : string :=
  match map leading_whitespace
          (filter (fun l => negb (String.eqb l EmptyString) = true) lines) with
  | [] => EmptyString
  | i :: rest => fold_left common_prefix rest i
  end.

Lemma dedent_steps (text : string) :
  dedent text
  = join_lines (map (cut (margin_of (map normalise (split_lines text))))
                  (map normalise (split_lines text))).
Proof. reflexivity. Qed.

(** A normalised line, indented. *)
Definition shift (x : string) : string :=
  if String.eqb x EmptyString then EmptyString else String.append pad x.

Lemma normalise_indented (l : string) :
  normalise (if blank_only l then l else String.append pad l) = shift (normalise l).
Proof.
  unfold normalise, shift. fold (blank_only l).
  destruct (blank_only l) eqn:E.
  - fold (blank_only l). rewrite E. reflexivity.
  - fold (blank_only (String.append pad l)).
    rewrite (blank_only_pad _ _ pad_blank), E.
    destruct l as [| c l]; [discriminate E | reflexivity].
Qed.

Lemma append_nonempty (p x : string) :
  x <> EmptyString -> String.eqb (String.append p x) EmptyString = false.
Proof.
  intros Hx. destruct p as [| c p]; [| reflexivity].
  destruct x; [congruence | reflexivity].
Qed.

Lemma indents_shift (ns : list string) :
  map leading_whitespace
    (filter (fun l => negb (String.eqb l EmptyString) = true) (map shift ns))
  = map (String.append pad)
      (map leading_whitespace
         (filter (fun l => negb (String.eqb l EmptyString) = true) ns)).
Proof.
  induction ns as [| x ns IH]; [reflexivity |].
  cbn [map]. unfold shift at 1.
  destruct (String.eqb x EmptyString) eqn:E.
  - rewrite !filter_cons. rewrite E. cbn.
    rewrite decide_False by discriminate. exact IH.
  - assert (Hx : x <> EmptyString) by (intros ->; discriminate E).
    rewrite !filter_cons, E, (append_nonempty _ _ Hx). cbn.
    rewrite decide_True by reflexivity. cbn.
    rewrite (leading_whitespace_pad _ _ pad_blank), IH. reflexivity.
Qed.

Lemma cut_empty (m : string) : cut m EmptyString = EmptyString.
Proof. unfold cut. destruct m; reflexivity. Qed.

Lemma prefix_refl (a : string) : String.prefix a a = true.
Proof.
  induction a as [| c a IH]; [reflexivity |].
  cbn. destruct (ascii_dec c c); [exact IH | congruence].
Qed.

Lemma prefix_trans (a : string) : forall b c,
  String.prefix a b = true -> String.prefix b c = true -> String.prefix a c = true.
Proof.
  induction a as [| x a IH]; intros [| y b] [| z c]; cbn; try congruence.
  destruct (ascii_dec x y) as [-> |]; [| discriminate].
  destruct (ascii_dec y z) as [-> |]; [| discriminate].
  apply IH.
Qed.

Lemma common_prefix_left (a : string) : forall b,
  String.prefix (common_prefix a b) a = true.
Proof.
  induction a as [| x a IH]; intros [| y b]; cbn; try reflexivity.
  destruct (Ascii.eqb x y); cbn; [| reflexivity].
  destruct (ascii_dec x x); [apply IH | congruence].
Qed.

Lemma common_prefix_right (a : string) : forall b,
  String.prefix (common_prefix a b) b = true.
Proof.
  induction a as [| x a IH]; intros [| y b]; cbn; try reflexivity.
  destruct (Ascii.eqb x y) eqn:E; cbn; [| reflexivity].
  apply Ascii.eqb_eq in E as ->.
  destruct (ascii_dec y y); [apply IH | congruence].
Qed.

Lemma leading_whitespace_prefix (l : string) :
  String.prefix (leading_whitespace l) l = true.
Proof.
  induction l as [| c l IH]; [reflexivity |]. cbn.
  destruct (is_blank c); cbn; [| reflexivity].
  destruct (ascii_dec c c); [exact IH | congruence].
Qed.

Lemma fold_common_prefix_prefix (rest : list string) : forall i,
  String.prefix (fold_left common_prefix rest i) i = true
  /\ forall r, r ∈ rest -> String.prefix (fold_left common_prefix rest i) r = true.
Proof.
  induction rest as [| r0 rest IH]; intros i; cbn.
  - split; [apply prefix_refl |]. intros r Hr. now apply not_elem_of_nil in Hr.
  - destruct (IH (common_prefix i r0)) as [Hi Hrest]. split.
    + exact (prefix_trans _ _ _ Hi (common_prefix_left i r0)).
    + intros r Hr. apply elem_of_cons in Hr as [-> | Hr]; [| exact (Hrest r Hr)].
      exact (prefix_trans _ _ _ Hi (common_prefix_right i r0)).
Qed.

(** The margin starts every line that is not empty. *)
Lemma margin_is_prefix (ns : list string) (x : string) :
  x ∈ ns -> x <> EmptyString -> String.prefix (margin_of ns) x = true.
Proof.
  intros Hin Hx.
  assert (Hf : leading_whitespace x
               ∈ map leading_whitespace
                   (filter (fun l => negb (String.eqb l EmptyString) = true) ns)).
  { apply list_elem_of_In, in_map, list_elem_of_In, list_elem_of_filter.
    split; [| exact Hin]. apply negb_true_iff, String.eqb_neq, Hx. }
  unfold margin_of.
  destruct (map leading_whitespace
              (filter (fun l => negb (String.eqb l EmptyString) = true) ns))
    as [| i rest]; [now apply not_elem_of_nil in Hf |].
  destruct (fold_common_prefix_prefix rest i) as [Hi Hrest].
  apply (prefix_trans _ (leading_whitespace x)); [| apply leading_whitespace_prefix].
  apply elem_of_cons in Hf as [-> | Hf]; [exact Hi | exact (Hrest _ Hf)].
Qed.

Lemma margin_shift (ns : list string) (x : string) :
  x ∈ ns -> x <> EmptyString ->
  margin_of (map shift ns) = String.append pad (margin_of ns).
Proof.
  intros Hin Hx. unfold margin_of. rewrite indents_shift.
  destruct (map leading_whitespace
              (filter (fun l => negb (String.eqb l EmptyString) = true) ns))
    as [| i rest] eqn:E.
  - exfalso.
    assert (Hf : leading_whitespace x ∈ @nil string).
    { rewrite <- E. apply list_elem_of_In, in_map, list_elem_of_In, list_elem_of_filter.
      split; [| exact Hin]. apply negb_true_iff, String.eqb_neq, Hx. }
    now apply not_elem_of_nil in Hf.
  - cbn [map]. apply fold_common_prefix_pad.
Qed.

Lemma cut_shift (ns : list string) :
  map (cut (margin_of (map shift ns))) (map shift ns) = map (cut (margin_of ns)) ns.
Proof.
  rewrite map_map. apply map_ext_in. intros x Hx. apply list_elem_of_In in Hx.
  unfold shift at 2. destruct (String.eqb x EmptyString) eqn:E.
  - apply String.eqb_eq in E as ->. rewrite !cut_empty. reflexivity.
  - assert (Hne : x <> EmptyString) by (intros ->; discriminate E).
    rewrite (margin_shift ns x Hx Hne). unfold cut.
    rewrite prefix_pad, drop_prefix_pad, (margin_is_prefix ns x Hx Hne). reflexivity.
Qed.

(** [dedent] takes an indentation away again. *)
Lemma dedent_indent (text : string) : dedent (indent pad text) = dedent text.
Proof.
  rewrite !dedent_steps. unfold indent.
  destruct (split_lines_spec text) as [Hne Hall].
  rewrite split_join.
  - assert (E : map normalise
                  (map (fun l => if blank_only l then l else String.append pad l)
                     (split_lines text))
                = map shift (map normalise (split_lines text))).
    { rewrite !map_map. apply map_ext. intros l. apply normalise_indented. }
    rewrite E, cut_shift. reflexivity.
  - destruct (split_lines text); [congruence | discriminate].
  - rewrite forallb_forall in Hall |- *. intros l Hl.
    apply in_map_iff in Hl as (l0 & <- & Hl0).
    destruct (blank_only l0); [exact (Hall _ Hl0) |].
    apply one_line_append; [apply all_blank_one_line, pad_blank | exact (Hall _ Hl0)].
Qed.

End Indentation.

Section IndentedSources.

Import PythonFunction.

Variable parse : string -> result Module_.
Variable dump : Module_ -> string.

(** The function object whose source is that of [f], indented. *)
Definition indented (pad : string) (f : function) : function :=
  {| is_callable := is_callable f; source := indent pad (source f) |}.

(** X15. Indentation. The digest of a function does not depend on how far its
    source is indented: putting the same run of spaces and tabs before
    every line of the source that is not blank, as for a function defined
    inside a class or another function, leaves [hash_function] as it was,
    whatever the length asked for. *)
Theorem hash_function_ignores_indentation (pad : string) (f : function) (n : nat) :
  all_blank pad = true ->
  hash_function parse dump (indented pad f) n = hash_function parse dump f n.
Proof.
  intros Hpad. unfold hash_function, indented. cbn [is_callable source].
  rewrite (dedent_indent pad Hpad). reflexivity.
Qed.

End IndentedSources.

Section DigestWitnesses.

Import PythonFunction SampleFunctions.

Lemma digest_is_prefix_witness :
  exists d,
    hash_function parse dump documented 64 = Ok d
    /\ String.length d = 64%nat
    /\ hash_function parse dump documented 8 = Ok (slice_to 8 d).
Proof.
  destruct (hash_function parse dump documented 64) as [d | e] eqn:E;
    [| vm_compute in E; discriminate E].
  exists d. split; [reflexivity |].
  apply (digest_is_prefix parse dump documented 64 8 d E). lia.
Defined.

Lemma hash_function_ignores_indentation_witness :
  source (indented "    " renamed) <> source renamed
  /\ hash_function parse dump (indented "    " renamed) 8
     = hash_function parse dump renamed 8.
Proof.
  split; [vm_compute; discriminate |].
  apply (hash_function_ignores_indentation parse dump "    " renamed 8).
  reflexivity.
Defined.

End DigestWitnesses.

(** ** Routers of trading pairs *)

Section RouterFacts.

Import ProtocolAdapters.

Lemma fold_routing_elem (l : list Exchange) : forall (acc : gset ProtocolRoutingId) id,
  id ∈ fold_left (fun configs xc => configs ∪ {[ exchange_routing xc ]}) l acc
  <-> id ∈ acc \/ exists xc, xc ∈ l /\ id = exchange_routing xc.
Proof.
  induction l as [| x l IH]; intros acc id; cbn.
  - split; [auto | intros [H | (xc & H & _)]; [exact H | now apply not_elem_of_nil in H]].
  - rewrite IH. split.
    + intros [H | (xc & Hin & ->)].
      * apply elem_of_union in H as [H | H]; [left; exact H |].
        apply elem_of_singleton in H as ->. right. exists x. split; [left | reflexivity].
      * right. exists xc. split; [right; exact Hin | reflexivity].
    + intros [H | (xc & Hin & ->)].
      * left. apply elem_of_union. left. exact H.
      * apply elem_of_cons in Hin as [-> | Hin].
        -- left. apply elem_of_union. right. apply elem_of_singleton. reflexivity.
        -- right. exists xc. split; [exact Hin | reflexivity].
Qed.

Lemma supported_routers_elem (u : TradingStrategyUniverse)
    (s : gset ProtocolRoutingId) :
  get_supported_routers u = Returned s ->
  forall id, id ∈ s <->
    id = one_delta_routing
    \/ exists k xc, exchanges (exchange_universe u) !! k = Some xc
                    /\ id = exchange_routing xc.
Proof.
  unfold get_supported_routers. intros Hs id.
  destruct (Z.ltb (get_exchange_count (exchange_universe u)) 5); [| discriminate Hs].
  cbn in Hs. injection Hs as <-.
  rewrite elem_of_union, elem_of_singleton, fold_routing_elem. split.
  - intros [[H | (xc & Hin & ->)] | ->]; [set_solver | | left; reflexivity].
    right. apply list_elem_of_In, in_map_iff in Hin as ([k xc'] & <- & Hin).
    apply list_elem_of_In, elem_of_map_to_list in Hin.
    exists k, xc'. split; [exact Hin | reflexivity].
  - intros [-> | (k & xc & Hk & ->)]; [right; reflexivity |].
    left. right. exists xc. split; [| reflexivity].
    apply list_elem_of_In, in_map_iff. exists (k, xc). split; [reflexivity |].
    apply list_elem_of_In, elem_of_map_to_list, Hk.
Qed.

(** X16. The supported routers. The set is returned exactly when fewer than
    five exchanges are counted, an [AssertionError] being raised otherwise;
    it holds the 1delta routing together with one routing for each loaded
    exchange, named uniswap-v2 for a Uniswap v2 exchange and uniswap-v3 for
    every other one, and nothing else. *)
Theorem supported_routers (u : TradingStrategyUniverse) :
  (get_exchange_count (exchange_universe u) < 5 <->
   exists s, get_supported_routers u = Returned s)
  /\ (5 <= get_exchange_count (exchange_universe u) ->
      get_supported_routers u
      = Raised (AssertionFailed "Exchanges might not be configured correctly"))
  /\ forall s, get_supported_routers u = Returned s ->
       forall id, id ∈ s <->
         id = one_delta_routing
         \/ exists k xc, exchanges (exchange_universe u) !! k = Some xc
                         /\ id = exchange_routing xc.
Proof.
  split; [| split; [| apply supported_routers_elem]].
  - unfold get_supported_routers.
    destruct (Z.ltb_spec (get_exchange_count (exchange_universe u)) 5) as [H | H]; cbn.
    + split; [intros _; eexists; reflexivity | intros _; exact H].
    + split; [lia | intros [s Hs]; discriminate Hs].
  - intros H. unfold get_supported_routers.
    destruct (Z.ltb_spec (get_exchange_count (exchange_universe u)) 5); [lia |].
    reflexivity.
Qed.

(** X17. The router of a pair. 1delta is chosen exactly for the leveraged and
    the credit supply pairs, and without a look at the exchange data; any
    other pair gets the routing of the exchange that the lookup by chain
    and factory address returns. *)
Theorem match_router_cases (u : TradingStrategyUniverse) (pair : TradingPairIdentifier) :
  (is_leverage pair || is_credit_supply pair = true ->
   match_router u pair = Returned one_delta_routing)
  /\ forall id, match_router u pair = Returned id ->
       (router_name id = "1delta"
        <-> is_leverage pair || is_credit_supply pair = true)
       /\ (is_leverage pair || is_credit_supply pair = false ->
           exists xc,
             get_by_chain_and_factory (pairs_exchange_universe u)
               (chain_id (base pair)) (exchange_address pair) = Returned (Some xc)
             /\ id = exchange_routing xc).
Proof.
  unfold match_router. split; [intros ->; reflexivity |].
  intros id H.
  destruct (is_leverage pair || is_credit_supply pair).
  - injection H as <-. split; [split; reflexivity | discriminate].
  - destruct (get_by_chain_and_factory (pairs_exchange_universe u)
                (chain_id (base pair)) (exchange_address pair))
      as [[xc |] | []]; try discriminate H.
    injection H as <-. split.
    + split; [| discriminate].
      unfold exchange_routing. cbn. destruct (exchange_type xc); discriminate.
    + intros _. exists xc. split; reflexivity.
Qed.

(** X18. Failures of the lookup. For a pair that is neither leveraged nor a
    credit supply, [ExchangeNotFoundError] from the lookup becomes
    [UnroutableTrade], a lookup that returns [None] fails the assertion, and
    any other exception of the lookup is passed on. *)
Theorem match_router_failures (u : TradingStrategyUniverse)
    (pair : TradingPairIdentifier) :
  is_leverage pair || is_credit_supply pair = false ->
  let found := get_by_chain_and_factory (pairs_exchange_universe u)
                 (chain_id (base pair)) (exchange_address pair) in
  (found = Raised ExchangeNotFoundError ->
   exists msg, match_router u pair = Raised (UnroutableTrade msg))
  /\ (found = Returned None ->
      exists msg, match_router u pair = Raised (AssertionFailed msg))
  /\ (forall e, found = Raised e -> e <> ExchangeNotFoundError ->
        match_router u pair = Raised e).
Proof.
  intros Hkind found. unfold match_router. rewrite Hkind. fold found.
  split; [| split].
  - intros ->. eexists. reflexivity.
  - intros ->. eexists. reflexivity.
  - intros e -> He. destruct e; congruence.
Qed.

(** X19. A matched router is a supported one: when the exchange that the lookup
    finds for a pair is one of the loaded exchanges, the routing that
    [match_router] returns for the pair is in the set that
    [get_supported_routers] returns. *)
Theorem matched_router_is_supported (u : TradingStrategyUniverse)
    (pair : TradingPairIdentifier) (id : ProtocolRoutingId)
    (s : gset ProtocolRoutingId) :
  (forall xc,
     get_by_chain_and_factory (pairs_exchange_universe u)
       (chain_id (base pair)) (exchange_address pair) = Returned (Some xc) ->
     exists k, exchanges (exchange_universe u) !! k = Some xc) ->
  match_router u pair = Returned id ->
  get_supported_routers u = Returned s ->
  id ∈ s.
Proof.
  intros Hloaded Hid Hs.
  destruct (supported_routers_elem u s Hs id) as [_ Hin]. apply Hin.
  unfold match_router in Hid.
  destruct (is_leverage pair || is_credit_supply pair).
  - injection Hid as <-. left. reflexivity.
  - destruct (get_by_chain_and_factory (pairs_exchange_universe u)
                (chain_id (base pair)) (exchange_address pair))
      as [[xc |] | []]; try discriminate Hid.
    injection Hid as <-. destruct (Hloaded xc eq_refl) as [k Hk].
    right. exists k, xc. split; [exact Hk | reflexivity].
Qed.


Lemma attempt_bind_ok {A B} (m : attempt A) (f : A -> attempt B) (b : B) :
  m ≫= f = Returned b -> exists a, m = Returned a /\ f a = Returned b.
Proof.
  destruct m as [a | e]; cbn; intros H; [| discriminate H].
  exists a. split; [reflexivity | exact H].
Qed.

Lemma asserting_ok (cond : bool) (msg : string) :
  asserting cond msg = Returned tt -> cond = true.
Proof. destruct cond; [reflexivity | discriminate]. Qed.

Lemma get_single_chain_ok (u : TradingStrategyUniverse) (chain : Z) :
  get_single_chain u = Returned chain -> elements (chains u) = [chain].
Proof.
  unfold get_single_chain.
  destruct (elements (chains u)) as [| c [| ? ?]]; try discriminate.
  intros [= ->]. reflexivity.
Qed.

Lemma get_reserve_asset_ok (u : TradingStrategyUniverse) (asset : AssetIdentifier) :
  get_reserve_asset u = Returned asset -> reserve_assets u = [asset].
Proof.
  unfold get_reserve_asset.
  destruct (reserve_assets u) as [| a [| ? ?]]; try discriminate.
  intros [= ->]. reflexivity.
Qed.

(** The model classes of a configuration belong to one protocol. *)
Definition coherent (cfg : ProtocolRoutingConfig) : Prop :=
  match routing_model cfg with
  | UniswapV2CompatibleRouting _ _ =>
      pricing_model cfg = UniswapV2LivePricing (routing_model cfg)
      /\ valuation_model cfg = UniswapV2PoolRevaluator (pricing_model cfg)
  | UniswapV3Routing _ _ _ =>
      pricing_model cfg = UniswapV3LivePricing (routing_model cfg)
      /\ valuation_model cfg = UniswapV3PoolRevaluator (pricing_model cfg)
  | OneDeltaRouting _ _ _ =>
      pricing_model cfg = OneDeltaLivePricing (routing_model cfg)
      /\ valuation_model cfg = OneDeltaPoolRevaluator (pricing_model cfg)
  end.

Lemma v2_adapter_returns (u : TradingStrategyUniverse)
    (id : ProtocolRoutingId) (cfg : ProtocolRoutingConfig) :
  create_uniswap_v2_adapter u id = Returned cfg ->
  routing_id cfg = id /\ coherent cfg
  /\ routing_model cfg = UniswapV2CompatibleRouting "quickswap_usdc" "usdc"
  /\ exists chain reserve found,
       elements (chains u) = [chain] /\ reserve_assets u = [reserve]
       /\ token_symbol reserve = "USDC"
       /\ get_by_chain_and_slug (exchange_universe u) chain (routing_exchange_slug id)
          = Returned (Some found)
       /\ exchange_slug found = "quickswap".
Proof.
  unfold create_uniswap_v2_adapter. intros H.
  apply attempt_bind_ok in H as ([] & _ & H).
  apply attempt_bind_ok in H as ([] & _ & H).
  apply attempt_bind_ok in H as ([] & Hlen & H).
  apply asserting_ok, bool_decide_eq_true in Hlen.
  apply attempt_bind_ok in H as (reserve & Hres & H).
  apply attempt_bind_ok in H as ([] & Husdc & H).
  apply asserting_ok, String.eqb_eq in Husdc.
  apply attempt_bind_ok in H as (chain & Hchain & H).
  apply get_single_chain_ok in Hchain.
  apply attempt_bind_ok in H as ([found |] & Hfound & H); [| discriminate H].
  destruct (String.eqb (exchange_slug found) "quickswap") eqn:Hq; [| discriminate H].
  apply String.eqb_eq in Hq. injection H as <-.
  split; [reflexivity |]. split; [split; reflexivity |]. split; [reflexivity |].
  exists chain, reserve, found.
  unfold first_reserve_asset in Hres.
  destruct (reserve_assets u) as [| a [| ? ?]]; try discriminate Hlen.
  injection Hres as ->. auto.
Qed.

(** X20. The configuration of a router. When [create_config] returns, the
    configuration carries the routing id it was given and models of one
    protocol, the universe has one chain and one reserve asset, and the id
    is of one of three kinds: exactly the 1delta routing that
    [get_supported_routers] and [match_router] name, with a 1delta routing
    model on the chain and the reserve token of the universe; a uniswap-v2
    id whose exchange, looked up by slug, is quickswap, with USDC as the
    reserve; or a uniswap-v3 id. A router name other than these three
    raises [NotImplementedError]. *)
Theorem create_config_returns (web3 : Web3) (u : TradingStrategyUniverse)
    (id : ProtocolRoutingId) :
  (forall cfg, create_config web3 u id = Returned cfg ->
     routing_id cfg = id /\ coherent cfg
     /\ exists chain reserve,
          elements (chains u) = [chain] /\ reserve_assets u = [reserve]
          /\ ((id = one_delta_routing
               /\ exists address_map,
                    routing_model cfg
                    = OneDeltaRouting address_map chain (address reserve))
              \/ (router_name id = "uniswap-v2"
                  /\ routing_model cfg
                     = UniswapV2CompatibleRouting "quickswap_usdc" "usdc"
                  /\ token_symbol reserve = "USDC"
                  /\ exists found,
                       get_by_chain_and_slug (exchange_universe u) chain
                         (routing_exchange_slug id) = Returned (Some found)
                       /\ exchange_slug found = "quickswap")
              \/ (router_name id = "uniswap-v3"
                  /\ routing_model cfg
                     = UniswapV3Routing (uniswap_v3_address_map web3) chain
                         (address reserve))))
  /\ (router_name id <> "1delta" -> router_name id <> "uniswap-v2" ->
      router_name id <> "uniswap-v3" ->
      create_config web3 u id = Raised (NotImplemented "Cannot route exchange")).
Proof.
  unfold create_config. split.
  - intros cfg H.
    destruct (String.eqb (router_name id) "1delta") eqn:E1.
    { unfold create_1delta_adapter in H.
      apply attempt_bind_ok in H as ([] & Hname & H).
      apply asserting_ok, String.eqb_eq in Hname.
      apply attempt_bind_ok in H as ([] & Hlend & H).
      apply asserting_ok, bool_decide_eq_true in Hlend.
      apply attempt_bind_ok in H as ([] & Hslug & H).
      apply asserting_ok, String.eqb_eq in Hslug.
      apply attempt_bind_ok in H as ([] & _ & H).
      apply attempt_bind_ok in H as ([] & _ & H).
      apply attempt_bind_ok in H as (chain & Hchain & H).
      apply get_single_chain_ok in Hchain.
      apply attempt_bind_ok in H as (reserve & Hres & H).
      apply get_reserve_asset_ok in Hres.
      apply attempt_bind_ok in H as (uni & _ & H).
      apply attempt_bind_ok in H as (aave & _ & H).
      apply attempt_bind_ok in H as (delta & _ & H).
      injection H as <-.
      split; [reflexivity |]. split; [split; reflexivity |].
      exists chain, reserve. split; [exact Hchain |]. split; [exact Hres |].
      left. split; [| eexists; reflexivity].
      destruct id as [name slug lend]. cbn in Hname, Hlend, Hslug. subst.
      reflexivity. }
    destruct (String.eqb (router_name id) "uniswap-v2") eqn:E2.
    { apply String.eqb_eq in E2.
      apply v2_adapter_returns in H
        as (Hid & Hco & Hmodel & chain & reserve & found & Hchain & Hres & Husdc
            & Hfound & Hq).
      split; [exact Hid |]. split; [exact Hco |].
      exists chain, reserve. split; [exact Hchain |]. split; [exact Hres |].
      right. left. split; [exact E2 |]. split; [exact Hmodel |].
      split; [exact Husdc |]. exists found. split; assumption. }
    destruct (String.eqb (router_name id) "uniswap-v3") eqn:E3; [| discriminate H].
    apply String.eqb_eq in E3.
    unfold create_uniswap_v3_adapter in H.
    apply attempt_bind_ok in H as ([] & _ & H).
    apply attempt_bind_ok in H as ([] & _ & H).
    apply attempt_bind_ok in H as ([] & _ & H).
    apply attempt_bind_ok in H as (chain & Hchain & H).
    apply get_single_chain_ok in Hchain.
    apply attempt_bind_ok in H as (reserve & Hres & H).
    apply get_reserve_asset_ok in Hres.
    injection H as <-.
    split; [reflexivity |]. split; [split; reflexivity |].
    exists chain, reserve. split; [exact Hchain |]. split; [exact Hres |].
    right. right. split; [exact E3 | reflexivity].
  - intros N1 N2 N3.
    apply String.eqb_neq in N1, N2, N3. rewrite N1, N2, N3. reflexivity.
Qed.

(** X21. A supported router without an adapter. A loaded Uniswap v2
    exchange whose slug is not quickswap has its routing in the set of
    supported routers, yet [create_config] never returns a configuration
    for that routing, as long as the lookup by slug returns exchanges of
    the slug asked for. *)
Theorem supported_router_without_adapter (web3 : Web3) (u : TradingStrategyUniverse)
    (k : Z) (xc : Exchange) :
  exchanges (exchange_universe u) !! k = Some xc ->
  exchange_type xc = uniswap_v2 ->
  exchange_slug xc <> "quickswap" ->
  (forall chain found,
     get_by_chain_and_slug (exchange_universe u) chain (exchange_slug xc)
     = Returned (Some found) ->
     exchange_slug found = exchange_slug xc) ->
  (forall s, get_supported_routers u = Returned s -> exchange_routing xc ∈ s)
  /\ forall cfg, create_config web3 u (exchange_routing xc) <> Returned cfg.
Proof.
  intros Hk Htype Hslug Hlookup. split.
  - intros s Hs. apply (supported_routers_elem u s Hs). right. exists k, xc. auto.
  - intros cfg H.
    assert (E : create_config web3 u (exchange_routing xc)
                = create_uniswap_v2_adapter u (exchange_routing xc))
      by (unfold create_config, exchange_routing; rewrite Htype; reflexivity).
    rewrite E in H.
    apply v2_adapter_returns in H
      as (_ & _ & _ & chain & reserve & found & _ & _ & _ & Hfound & Hq).
    cbn in Hfound. apply Hlookup in Hfound. congruence.
Qed.

End RouterFacts.

(** ** A sample of exchange data *)

Module SampleExchanges.

Import ProtocolAdapters.

Definition quickswap : Exchange :=
  {| exchange_type := uniswap_v2; exchange_slug := "quickswap" |}.
Definition uniswap : Exchange :=
  {| exchange_type := uniswap_v3; exchange_slug := "uniswap-v3" |}.
Definition sushi : Exchange :=
  {| exchange_type := uniswap_v2; exchange_slug := "sushi" |}.

Definition quickswap_factory : string := "0x5757371414417b8c6caad45baef941abc7d3ab32".
Definition uniswap_factory : string := "0x1f98431c8ad98523631ae4a59f267346ea31f984".
Definition sushi_factory : string := "0xc35dadb65012ec5796536bd9864ed8773abc74c4".

(** Three exchanges on Polygon; the lookups know them by their factories
    and by their slugs. *)
Definition loaded : ExchangeUniverse :=
  {| exchanges := {[ 1 := quickswap; 2 := uniswap; 3 := sushi ]};
     get_exchange_count := 3;
     get_by_chain_and_factory := fun chain factory =>
       if negb (Z.eqb chain 137) then Raised ExchangeNotFoundError
       else if String.eqb factory quickswap_factory then Returned (Some quickswap)
       else if String.eqb factory uniswap_factory then Returned (Some uniswap)
       else if String.eqb factory sushi_factory then Returned (Some sushi)
       else Raised ExchangeNotFoundError;
     get_by_chain_and_slug := fun chain slug =>
       if negb (Z.eqb chain 137) then Returned None
       else if String.eqb slug "quickswap" then Returned (Some quickswap)
       else if String.eqb slug "uniswap-v3" then Returned (Some uniswap)
       else if String.eqb slug "sushi" then Returned (Some sushi)
       else Returned None |}.

Definition universe : TradingStrategyUniverse :=
  {| exchange_universe := loaded; pairs_exchange_universe := loaded;
     chains := {[ 137 ]}; reserve_assets := [Sample.usdc] |}.

(** A node none of whose deployments can be read. *)
Definition offline : Web3 :=
  {| fetch_uniswap_v3_deployment := fun _ _ _ _ => Raised (Failed (External "ConnectionError"));
     fetch_aave_deployment := fun _ _ _ => Raised (Failed (External "ConnectionError"));
     fetch_1delta_deployment := fun _ _ => Raised (Failed (External "ConnectionError"));
     uniswap_v3_address_map := ∅ |}.

(** A pair of an exchange for which no data is loaded. *)
Definition stray : TradingPairIdentifier :=
  {| base := Sample.dai; quote := Sample.usdc;
     pool_address := "0x0000000000000000000000000000000000000001";
     internal_id := 1003; internal_exchange_id := 3;
     exchange_address := "0x9e5a52f57b3038f1b8eee45f28b3c1967e22799c";
     fee := 0.003; kind := spot_market_hold; reverse_token_order := false |}.

End SampleExchanges.

Section RouterWitnesses.

Import ProtocolAdapters.

Lemma match_router_failures_witness :
  exists msg,
    match_router SampleExchanges.universe SampleExchanges.stray
    = Raised (UnroutableTrade msg).
Proof.
  destruct (match_router_failures SampleExchanges.universe SampleExchanges.stray
              eq_refl) as (H & _).
  apply H. reflexivity.
Defined.

Lemma matched_router_is_supported_witness :
  exists s,
    get_supported_routers SampleExchanges.universe = Returned s
    /\ match_router SampleExchanges.universe (Sample.usdt_usdc 0.0005)
       = Returned (exchange_routing SampleExchanges.uniswap)
    /\ exchange_routing SampleExchanges.uniswap ∈ s.
Proof.
  eexists. split; [reflexivity |]. split; [reflexivity |].
  apply (matched_router_is_supported SampleExchanges.universe
           (Sample.usdt_usdc 0.0005)); [| reflexivity | reflexivity].
  intros xc H. injection H as <-. exists 2. reflexivity.
Defined.

Lemma create_config_returns_witness :
  exists cfg,
    create_config SampleExchanges.offline SampleExchanges.universe
      (exchange_routing SampleExchanges.uniswap) = Returned cfg
    /\ routing_id cfg = exchange_routing SampleExchanges.uniswap
    /\ routing_model cfg = UniswapV3Routing ∅ 137 (address Sample.usdc).
Proof.
  eexists. split; [reflexivity |].
  destruct (create_config_returns SampleExchanges.offline SampleExchanges.universe
              (exchange_routing SampleExchanges.uniswap)) as [H _].
  destruct (H _ eq_refl) as (Hid & _). split; [exact Hid | reflexivity].
Defined.

Lemma supported_router_without_adapter_witness :
  (exists s, get_supported_routers SampleExchanges.universe = Returned s
             /\ exchange_routing SampleExchanges.sushi ∈ s)
  /\ create_config SampleExchanges.offline SampleExchanges.universe
       (exchange_routing SampleExchanges.sushi)
     = Raised (NotImplemented "Exchange not yet supported").
Proof.
  destruct (supported_router_without_adapter SampleExchanges.offline
              SampleExchanges.universe 3 SampleExchanges.sushi)
    as [Hin _]; try reflexivity; try discriminate.
  - intros chain found. cbn.
    destruct (negb (Z.eqb chain 137)); [discriminate |]. intros [= <-]. reflexivity.
  - split; [| reflexivity]. eexists. split; [reflexivity |]. apply Hin. reflexivity.
Defined.

End RouterWitnesses.

(** ** The run state, the preflight check and the summary window *)

Section RunStateFacts.

Import RunState.

(** What the main loop does to the run state: it calls [set_fail], with or
    without an exception being handled, or [update_complete_cycle]. *)
Inductive report : Type :=
| Failure (info : exc_info) (now : Z)
| CycleCompleted (cycle : Z) (now : Z).

(** The run state after one call; a call of [set_fail] that raises has
    written no attribute. *)
Definition apply_report (s : t) (r : report) : t :=
  match r with
  | Failure info now =>
      match set_fail s info now with
      | Ok s' => s'
      | Raise _ => s
      end
  | CycleCompleted cycle now => update_complete_cycle s cycle now
  end.

(** A call of [set_fail] while an exception is being handled. *)
Definition is_failure (r : report) : bool :=
  match r with
  | Failure (Some _) _ => true
  | Failure None _ | CycleCompleted _ _ => false
  end.

Lemma reports_keep (rs : list report) : forall s,
  started_at (fold_left apply_report rs s) = started_at s
  /\ source_code (fold_left apply_report rs s) = source_code s
  /\ visualisation (fold_left apply_report rs s) = visualisation s
  /\ executor_running (fold_left apply_report rs s)
     = executor_running s && forallb (fun r => negb (is_failure r)) rs.
Proof.
  induction rs as [| r rs IH]; intros s; cbn.
  - rewrite andb_true_r. auto.
  - destruct (IH (apply_report s r)) as (-> & -> & -> & ->).
    destruct r as [[[message traceback] |] now | cycle now]; cbn;
      rewrite ?andb_false_r; auto.
Qed.

Lemma reports_without_failure (rs : list report) : forall s,
  forallb (fun r => negb (is_failure r)) rs = true ->
  exception (fold_left apply_report rs s) = exception s.
Proof.
  induction rs as [| r rs IH]; intros s H; [reflexivity |].
  cbn in H |- *. apply andb_prop in H as [Hr Hrs].
  rewrite (IH _ Hrs).
  destruct r as [[[message traceback] |] now | cycle now];
    [discriminate Hr | reflexivity | reflexivity].
Qed.

(** X22. A failure is kept. [set_fail] called while no exception is being
    handled raises [AttributeError] and writes nothing, so the executor
    still counts as running. Whatever calls of [set_fail] and
    [update_complete_cycle] follow the start, the start time, the source
    code and the visualisation record stay as they were; the executor
    counts as running exactly as long as no call of [set_fail] has found an
    exception to serialise, so that no later completed cycle sets it
    running again; and after such a call the exception data is that of the
    last of them, the message of the exception taking the place of any
    [exception_message] entry of the traceback dictionary. *)
Theorem failure_is_kept (s : t) (rs : list report) :
  (forall now, set_fail s None now = Raise (External "AttributeError")
               /\ apply_report s (Failure None now) = s)
  /\ started_at (fold_left apply_report rs s) = started_at s
  /\ source_code (fold_left apply_report rs s) = source_code s
  /\ visualisation (fold_left apply_report rs s) = visualisation s
  /\ executor_running (fold_left apply_report rs s)
     = executor_running s && forallb (fun r => negb (is_failure r)) rs
  /\ forall before after message traceback now,
       rs = (before ++ Failure (Some (message, traceback)) now :: after)%list ->
       forallb (fun r => negb (is_failure r)) after = true ->
       executor_running (fold_left apply_report rs s) = false
       /\ exists data,
            exception (fold_left apply_report rs s) = Some data
            /\ data !! "exception_message" = Some (State.JStr message)
            /\ forall key, key <> "exception_message" ->
                 data !! key = traceback !! key.
Proof.
  destruct (reports_keep rs s) as (Hs & Hc & Hv & Hr).
  split; [intros now; split; reflexivity |].
  split; [exact Hs |]. split; [exact Hc |]. split; [exact Hv |].
  split; [exact Hr |].
  intros before after message traceback now -> Hafter. split.
  - rewrite Hr, forallb_app. cbn. rewrite andb_false_r. apply andb_false_r.
  - rewrite fold_left_app. cbn.
    rewrite (reports_without_failure after _ Hafter). cbn.
    eexists. split; [reflexivity |]. split.
    + apply lookup_insert_eq.
    + intros key Hkey. apply lookup_insert_ne. congruence.
Qed.

(** A run that completes a cycle, fails with a [ValueError], and completes
    another cycle. *)
Definition sample_run : list report :=
  [CycleCompleted 1 10;
   Failure (Some ("bad value", {["tb_lineno" := State.JInt 7]})) 20;
   CycleCompleted 2 30].

(** The failure of the sample run stays, and a [set_fail] outside of an
    exception handler leaves a fresh run state running. *)
Lemma failure_is_kept_witness :
  executor_running (fold_left apply_report sample_run (new 0)) = false
  /\ (exists data,
        exception (fold_left apply_report sample_run (new 0)) = Some data
        /\ data !! "exception_message" = Some (State.JStr "bad value"))
  /\ executor_running (apply_report (new 0) (Failure None 5)) = true.
Proof.
  destruct (failure_is_kept (new 0) sample_run) as (Hnone & _ & _ & _ & _ & H).
  destruct (H [CycleCompleted 1 10] [CycleCompleted 2 30] "bad value"
              {["tb_lineno" := State.JInt 7]} 20 eq_refl eq_refl)
    as (Hrun & data & Hdata & Hmsg & _).
  split; [exact Hrun |]. split; [exists data; split; assumption |].
  destruct (Hnone 5) as [_ ->]. reflexivity.
Defined.

End RunStateFacts.

Section PreflightFacts.

Import UniswapV2Execution.

Lemma Qgt_bool_iff (a b : Q) : Qgt_bool a b = true <-> (b < a)%Q.
Proof.
  unfold Qgt_bool. rewrite Qgt_alt.
  destruct (a ?= b)%Q; split; congruence.
Qed.

(** X23. The preflight check passes exactly when the read of the latest
    block number returns a number above 1, the balance query returns a
    balance strictly above the threshold, and the factory answers
    [allPairsLength()]. A check that fails raises [AssertionError], also
    when the factory call raised something else; the exceptions that are
    passed on as they are come from the read of the block number, from the
    balance query, and from the read of the chain id for the message of the
    last [AssertionError]. *)
Theorem preflight_check_passes (self : UniswapV2ExecutionModelVersion) :
  (preflight_check self = Ok tt <->
   (exists block_number,
      eth_block_number (connection self) = Ok block_number /\ 1 < block_number)
   /\ (exists balance,
         get_native_currency_balance (connection self) = Ok balance
         /\ (min_balance_threshold self < balance)%Q)
   /\ is_ok (all_pairs_length (connection self)) = true)
  /\ (forall e, preflight_check self = Raise e ->
        (exists msg, e = AssertionError msg)
        \/ eth_block_number (connection self) = Raise e
        \/ (is_ok (eth_block_number (connection self)) = true
            /\ get_native_currency_balance (connection self) = Raise e)
        \/ (is_ok (get_native_currency_balance (connection self)) = true
            /\ is_ok (all_pairs_length (connection self)) = false
            /\ eth_chain_id (connection self) = Raise e))
  /\ (forall e, eth_block_number (connection self) = Raise e ->
        preflight_check self = Raise e).
Proof.
  unfold preflight_check. split; [| split].
  - destruct (eth_block_number (connection self)) as [b | e]; cbn.
    2:{ split; [discriminate | intros ((b & H & _) & _); discriminate H]. }
    destruct (Z.ltb_spec 1 b) as [Hb | Hb]; cbn.
    2:{ split; [discriminate | intros ((b' & [= <-] & H) & _); lia]. }
    destruct (get_native_currency_balance (connection self)) as [balance | e]; cbn.
    2:{ split; [discriminate | intros (_ & (b' & H & _) & _); discriminate H]. }
    destruct (Qgt_bool balance (min_balance_threshold self)) eqn:Hq; cbn.
    2:{ split; [discriminate |]. intros (_ & (b' & [= <-] & H) & _).
        apply Qgt_bool_iff in H. congruence. }
    apply Qgt_bool_iff in Hq.
    destruct (all_pairs_length (connection self)); cbn.
    + split; [| reflexivity]. intros _.
      split; [exists b; split; [reflexivity | exact Hb] |].
      split; [exists balance; split; [reflexivity | exact Hq] | reflexivity].
    + split; [| intros (_ & _ & H); discriminate H].
      destruct (eth_chain_id (connection self)); discriminate.
  - intros e.
    destruct (eth_block_number (connection self)) as [b | e']; cbn.
    2:{ intros [= <-]. right. left. reflexivity. }
    destruct (Z.ltb 1 b); cbn.
    2:{ intros [= <-]. left. eexists. reflexivity. }
    destruct (get_native_currency_balance (connection self)) as [balance | e']; cbn.
    2:{ intros [= <-]. right. right. left. split; reflexivity. }
    destruct (Qgt_bool balance (min_balance_threshold self)); cbn.
    2:{ intros [= <-]. left. eexists. reflexivity. }
    destruct (all_pairs_length (connection self)); [discriminate |].
    destruct (eth_chain_id (connection self)) as [chain | e']; cbn.
    + intros [= <-]. left. eexists. reflexivity.
    + intros [= <-]. right. right. right. repeat split.
  - intros e ->. reflexivity.
Qed.

(** A node that holds 50 million blocks, a wallet of [balance] units and a
    factory with three pairs, under the default threshold of half a unit. *)
Definition funded (balance : Q) : UniswapV2ExecutionModelVersion :=
  {| connection := {| eth_block_number := Ok 50000000;
                      eth_chain_id := Ok 137;
                      get_native_currency_balance := Ok balance;
                      all_pairs_length := Ok 3 |};
     stop_on_execution_failure := true;
     min_balance_threshold := (1 # 2)%Q;
     confirmation_block_count := 6;
     confirmation_timeout := 300 |}.

(** The same wallet against a node that does not answer. *)
Definition unreachable : UniswapV2ExecutionModelVersion :=
  {| connection := {| eth_block_number := Raise (External "ConnectionError");
                      eth_chain_id := Raise (External "ConnectionError");
                      get_native_currency_balance := Raise (External "ConnectionError");
                      all_pairs_length := Raise (External "ConnectionError") |};
     stop_on_execution_failure := true;
     min_balance_threshold := (1 # 2)%Q;
     confirmation_block_count := 6;
     confirmation_timeout := 300 |}.

Lemma preflight_check_passes_witness :
  preflight_check (funded 1) = Ok tt
  /\ preflight_check unreachable = Raise (External "ConnectionError").
Proof.
  split.
  - destruct (preflight_check_passes (funded 1)) as ([_ H] & _).
    apply H. split; [exists 50000000; split; [reflexivity | lia] |].
    split; [exists 1%Q; split; reflexivity | reflexivity].
  - destruct (preflight_check_passes unreachable) as (_ & _ & H).
    apply H. reflexivity.
Defined.

(** With the default threshold a wallet that holds exactly half a unit is
    refused. *)
Example preflight_at_the_threshold :
  preflight_check (funded (1 # 2))
  = Raise (AssertionError "At least min_balance_threshold native currency need").
Proof. reflexivity. Qed.

End PreflightFacts.

Section SummaryWindow.

Import State Summary.

Variable get_total_equity : Portfolio -> float.
Variable calculate_naive_profitability : series -> Z -> option float * Z.
Variable utcnow : Z.

#[local] Abbreviation calculate_summary_statistics :=
  (Summary.calculate_summary_statistics get_total_equity
     calculate_naive_profitability utcnow).






End SummaryWindow.

(** ** A state with an executed trade and three samples of total equity *)

Module SampleTraded.

Import State.

Definition executed_trade : TradeExecution :=
  {| trade_id := 1; trade_position_id := 1;
     planned_quantity := {| coefficient := 100; exponent := 0 |};
     planned_price := 1%float;
     started_at := Some 1700000000; executed_at := Some 1700000060;
     failed_at := None |}.

Definition position : TradingPosition :=
  {| position_id := 1; pair_internal_id := 1001; opened_at := 1700000000;
     closed_at := None; trades := [executed_trade] |}.

Definition with_samples (samples : list (Z * float)) : State.t :=
  {| portfolio :=
       {| next_position_id := 2; next_trade_id := 2;
          open_positions := {[ 1 := position ]};
          closed_positions := ∅;
          reserves := {[ reserve_address SampleState.reserve := SampleState.reserve ]} |};
     stats := {| portfolio_statistics := samples |};
     visualisation := {| plots := ∅ |} |}.

(** Samples a hundred days, fifty days and one day before the summary. *)
Definition state : State.t :=
  with_samples [(1691360000, 10000%float); (1695680000, 10100%float);
                (1699913600, 10200%float)].


End SampleTraded.

